(** * docAgentv2: classification, extraction, confidence scoring, validation

    A shallow embedding of the algorithmic core of the document pipeline
    ([utils/doc_classifier.py], [utils/extractor.py], [utils/confidence.py],
    [utils/validation.py], and the field lookup and scoring loop of
    [main.py]) together with the properties stated about it.

    Modelling conventions.
    - Python [str] is [string]; a character is a code point below 256.
      Case mapping and the whitespace / digit classes follow Python on that
      repertoire.
    - Python [float] scores and amounts are exact rationals ([Q]); a decimal
      literal of the source is the rational it denotes.  Non-finite floats
      and rounding are outside the model.
    - A [dict] is an association list in insertion order.
    - Exceptions are explicit: a computation that may raise returns an
      [outcome].
    - The [@timer] decorator only logs and re-raises, so decorated methods
      are modelled by their bodies. *)

From Stdlib Require Import ZArith QArith Qabs Qround List String Ascii Bool Lia Lqa.
From Stdlib Require Import Permutation Sorted.
Import ListNotations.

Set Implicit Arguments.
Set Warnings "-register-all".

(* ================================================================== *)
(** * Text primitives of Python used by the sources *)
(* ================================================================== *)

Module PyStr.

Open Scope string_scope.

Definition code (c : ascii) : N := N_of_ascii c.

Definition between (lo hi : N) (c : ascii) : bool :=
  ((lo <=? code c) && (code c <=? hi))%N.

(** [\d] of [re] on the modelled repertoire. *)
Definition is_digit (c : ascii) : bool := between 48 57 c.

Definition is_upper (c : ascii) : bool := between 65 90 c.
Definition is_lower (c : ascii) : bool := between 97 122 c.
Definition is_alpha (c : ascii) : bool := is_upper c || is_lower c.

(** [\s] of [re] and [str.isspace]: TAB..CR, FS..US, space, NEL, NBSP. *)
Definition is_space (c : ascii) : bool :=
  between 9 13 c || between 28 32 c || (code c =? 133)%N || (code c =? 160)%N.

Definition is_char (x c : ascii) : bool := Ascii.eqb x c.

Definition newline : ascii := ascii_of_N 10.

(** [str.lower] on one character. *)
Definition lower_char (c : ascii) : ascii :=
  if is_upper c || (between 192 222 c && negb (code c =? 215)%N)
  then ascii_of_N (code c + 32) else c.

(** [str.upper] on one character; the three characters whose upper case
    leaves the repertoire or is not a single character (181, 223, 255) are
    left in place. *)
Definition upper_char (c : ascii) : ascii :=
  if is_lower c || (between 224 254 c && negb (code c =? 247)%N)
  then ascii_of_N (code c - 32) else c.

Fixpoint map_chars (f : ascii -> ascii) (s : string) : string :=
  match s with
  | EmptyString => EmptyString
  | String c s' => String (f c) (map_chars f s')
  end.

Definition lower : string -> string := map_chars lower_char.
Definition upper : string -> string := map_chars upper_char.

(** [sub in s] *)
Fixpoint contains (sub s : string) : bool :=
  if String.prefix sub s then true
  else match s with
       | EmptyString => false
       | String _ s' => contains sub s'
       end.

Fixpoint has_char (p : ascii -> bool) (s : string) : bool :=
  match s with
  | EmptyString => false
  | String c s' => p c || has_char p s'
  end.

Definition rev (s : string) : string :=
  string_of_list_ascii (List.rev (list_ascii_of_string s)).

Definition endswith (s suffix : string) : bool :=
  String.prefix (rev suffix) (rev s).

Fixpoint lstrip (s : string) : string :=
  match s with
  | String c s' => if is_space c then lstrip s' else s
  | EmptyString => EmptyString
  end.

(** [s.strip()] *)
Definition strip (s : string) : string := rev (lstrip (rev (lstrip s))).

(** [re.sub('[class]', '', s)] *)
Fixpoint remove_chars (p : ascii -> bool) (s : string) : string :=
  match s with
  | EmptyString => EmptyString
  | String c s' => if p c then remove_chars p s' else String c (remove_chars p s')
  end.

(** [s.split(sep)] for a one-character separator; [cur] is the piece being
    read, reversed. *)
Fixpoint split_on_aux (sep : ascii) (cur : string) (s : string) : list string :=
  match s with
  | EmptyString => [rev cur]
  | String c s' =>
      if Ascii.eqb c sep then rev cur :: split_on_aux sep EmptyString s'
      else split_on_aux sep (String c cur) s'
  end.

Definition split_on (sep : ascii) (s : string) : list string :=
  split_on_aux sep EmptyString s.

(** [s.split()]: maximal runs of non-whitespace. *)
Fixpoint split_ws_aux (cur : string) (s : string) : list string :=
  match s with
  | EmptyString => match cur with EmptyString => [] | _ => [rev cur] end
  | String c s' =>
      if is_space c
      then match cur with
           | EmptyString => split_ws_aux EmptyString s'
           | _ => rev cur :: split_ws_aux EmptyString s'
           end
      else split_ws_aux (String c cur) s'
  end.

Definition split_ws (s : string) : list string := split_ws_aux EmptyString s.

Definition len (s : string) : nat := String.length s.

(** [haystack] membership of a string in a list of strings. *)
Definition in_list (s : string) (l : list string) : bool :=
  existsb (String.eqb s) l.

(** Decimal rendering of a non-negative integer, as [str(n)]. *)
Definition digit_char (n : nat) : ascii := ascii_of_nat (48 + n).

Fixpoint nat_digits (fuel n : nat) (acc : string) : string :=
  match fuel with
  | O => acc
  | S fuel' =>
      let acc' := String (digit_char (n mod 10)) acc in
      if Nat.ltb n 10 then acc' else nat_digits fuel' (n / 10) acc'
  end.

Definition str_of_nat (n : nat) : string := nat_digits (S n) n EmptyString.

Definition str_of_Z (z : Z) : string :=
  if (z <? 0)%Z then String "-" (str_of_nat (Z.to_nat (- z)))
  else str_of_nat (Z.to_nat z).

(** [int(s)] for a string of ASCII digits, possibly preceded by blanks. *)
Fixpoint digits_value (acc : Z) (s : string) : Z :=
  match s with
  | EmptyString => acc
  | String c s' =>
      if is_digit c then digits_value (10 * acc + Z.of_N (code c - 48)) s'
      else digits_value acc s'
  end.

End PyStr.

(* ================================================================== *)
(** * Regular expressions: the fragment of [re] the sources use *)
(* ================================================================== *)

Module Re.

Import PyStr.

Inductive regex : Type :=
| Void                                  (* matches nothing *)
| Eps                                   (* the empty string *)
| Class (p : ascii -> bool)             (* one character of a class *)
| Cat (r1 r2 : regex)
| Alt (r1 r2 : regex)
| Star (r : regex).

Fixpoint nullable (r : regex) : bool :=
  match r with
  | Void => false
  | Eps => true
  | Class _ => false
  | Cat r1 r2 => nullable r1 && nullable r2
  | Alt r1 r2 => nullable r1 || nullable r2
  | Star _ => true
  end.

(** Concatenation and alternation that drop dead branches, so that residuals
    stay small. *)
Definition cat (r1 r2 : regex) : regex :=
  match r1, r2 with
  | Void, _ => Void
  | _, Void => Void
  | Eps, _ => r2
  | _, _ => Cat r1 r2
  end.

Definition alt (r1 r2 : regex) : regex :=
  match r1, r2 with
  | Void, _ => r2
  | _, Void => r1
  | _, _ => Alt r1 r2
  end.

(** Residual of [r] after reading [c]. *)
Fixpoint deriv (c : ascii) (r : regex) : regex :=
  match r with
  | Void => Void
  | Eps => Void
  | Class p => if p c then Eps else Void
  | Cat r1 r2 =>
      if nullable r1 then alt (cat (deriv c r1) r2) (deriv c r2)
      else cat (deriv c r1) r2
  | Alt r1 r2 => alt (deriv c r1) (deriv c r2)
  | Star r1 => cat (deriv c r1) (Star r1)
  end.

(** [r] matches the whole of [s]. *)
Fixpoint fullmatch (r : regex) (s : string) : bool :=
  match s with
  | EmptyString => nullable r
  | String c s' => fullmatch (deriv c r) s'
  end.

(** Pattern syntax. *)
Definition chr (c : ascii) : regex := Class (is_char c).
Definition digit : regex := Class is_digit.             (* \d *)
Definition space : regex := Class is_space.             (* \s *)
Definition any : regex := Class (fun _ => true).        (* . with DOTALL *)
Definition dot : regex :=                               (* . *)
  Class (fun c => negb (is_char newline c)).
Definition opt (r : regex) : regex := Alt r Eps.        (* r? *)
Definition plus (r : regex) : regex := Cat r (Star r).  (* r+ *)

Fixpoint lit (s : string) : regex :=                    (* literal text *)
  match s with
  | EmptyString => Eps
  | String c EmptyString => chr c
  | String c s' => Cat (chr c) (lit s')
  end.

Fixpoint rep (n : nat) (r : regex) : regex :=           (* r{n} *)
  match n with
  | O => Eps
  | S O => r
  | S n' => Cat r (rep n' r)
  end.

Fixpoint upto (n : nat) (r : regex) : regex :=          (* r{0,n} *)
  match n with
  | O => Eps
  | S n' => opt (Cat r (upto n' r))
  end.

Definition rep_range (n m : nat) (r : regex) : regex := (* r{n,m} *)
  Cat (rep n r) (upto (m - n) r).

Fixpoint seq (rs : list regex) : regex :=
  match rs with
  | [] => Eps
  | [r] => r
  | r :: rs' => Cat r (seq rs')
  end.

(** No character class of [r] admits [c]. *)
Fixpoint rejects (c : ascii) (r : regex) : bool :=
  match r with
  | Void | Eps => true
  | Class p => negb (p c)
  | Cat r1 r2 | Alt r1 r2 => rejects c r1 && rejects c r2
  | Star r1 => rejects c r1
  end.

(** [re.match('^' r '$', s)]: [$] also matches before one final newline. *)
Definition match_anchored (r : regex) (s : string) : bool :=
  fullmatch (Cat r (opt (chr newline))) s.

(** [re.search(r, s)]: some substring of [s] matches [r]. *)
Definition search (r : regex) (s : string) : bool :=
  fullmatch (Cat (Star any) (Cat r (Star any))) s.

End Re.

(* ================================================================== *)
(** * Python values, exceptions and the builtins the sources call *)
(* ================================================================== *)

Module Py.

Import PyStr.

(** A value as [json.loads] produces it. *)
Inductive pyval : Type :=
| PNone
| PBool (b : bool)
| PInt (z : Z)
| PFloat (q : Q)
| PStr (s : string)
| PList (l : list pyval)
| PDict (d : list (string * pyval)).

Inductive exn_kind : Type :=
| ValueError | TypeError | KeyError | AttributeError
| JSONDecodeError            (* a subclass of ValueError *)
| OtherException.            (* any other subclass of Exception *)

Record exn : Type := mk_exn { exn_kind_of : exn_kind; exn_msg : string }.

Inductive outcome (A : Type) : Type :=
| Ret (a : A)
| Raise (e : exn).

Arguments Ret {A} a.
Arguments Raise {A} e.

Definition bind {A B} (m : outcome A) (k : A -> outcome B) : outcome B :=
  match m with
  | Ret a => k a
  | Raise e => Raise e
  end.

(** [try: body  except <classes> as e: handler e], without state. *)
Definition try_outcome {A} (catches : exn -> bool) (body : outcome A)
           (handler : exn -> outcome A) : outcome A :=
  match body with
  | Ret a => Ret a
  | Raise e => if catches e then handler e else Raise e
  end.

Definition any_Exception (e : exn) : bool := true.

(** [isinstance(e, ValueError)] *)
Definition is_ValueError (e : exn) : bool :=
  match exn_kind_of e with
  | ValueError | JSONDecodeError => true
  | _ => false
  end.

Definition is_TypeError (e : exn) : bool :=
  match exn_kind_of e with TypeError => true | _ => false end.

Definition is_JSONDecodeError (e : exn) : bool :=
  match exn_kind_of e with JSONDecodeError => true | _ => false end.

Definition Qltb (x y : Q) : bool := negb (Qle_bool y x).

(** [isinstance(v, (int, float))]; [bool] is a subclass of [int]. *)
Definition is_number (v : pyval) : bool :=
  match v with PBool _ | PInt _ | PFloat _ => true | _ => false end.

Definition is_none (v : pyval) : bool :=
  match v with PNone => true | _ => false end.

(** The numeric value of an [int], [float] or [bool]. *)
Definition number_value (v : pyval) : Q :=
  match v with
  | PBool true => 1
  | PInt z => inject_Z z
  | PFloat q => q
  | _ => 0
  end.

(** [bool(v)] *)
Definition truthy (v : pyval) : bool :=
  match v with
  | PNone => false
  | PBool b => b
  | PInt z => negb (z =? 0)%Z
  | PFloat q => negb (Qeq_bool q 0)
  | PStr s => negb (String.eqb s EmptyString)
  | PList l => match l with [] => false | _ => true end
  | PDict d => match d with [] => false | _ => true end
  end.

(** [v == ""] *)
Definition is_empty_str (v : pyval) : bool :=
  match v with PStr EmptyString => true | _ => false end.

(** [type(v).__name__] *)
Definition type_name (v : pyval) : string :=
  match v with
  | PNone => "NoneType" | PBool _ => "bool" | PInt _ => "int"
  | PFloat _ => "float" | PStr _ => "str" | PList _ => "list"
  | PDict _ => "dict"
  end.

(** Dictionaries. *)
Section Dict.
Context {V : Type}.

Fixpoint dict_get (k : string) (d : list (string * V)) : option V :=
  match d with
  | [] => None
  | (k', v) :: d' => if String.eqb k k' then Some v else dict_get k d'
  end.

Definition dict_has (k : string) (d : list (string * V)) : bool :=
  match dict_get k d with Some _ => true | None => false end.

(** [d[k] = v]: overwrite in place, or append. *)
Fixpoint dict_set (k : string) (v : V) (d : list (string * V))
  : list (string * V) :=
  match d with
  | [] => [(k, v)]
  | (k', v') :: d' =>
      if String.eqb k k' then (k, v) :: d' else (k', v') :: dict_set k v d'
  end.
End Dict.

(** Computations that mutate a state of type [S] and may raise; what was
    done to the state before an exception stays done. *)
Definition M (S A : Type) : Type := S -> outcome A * S.

Section StateAndExceptions.
Context {S : Type}.

Definition ret {A} (a : A) : M S A := fun s => (Ret a, s).
Definition raise {A} (e : exn) : M S A := fun s => (Raise e, s).
Definition lift {A} (o : outcome A) : M S A := fun s => (o, s).
Definition modify (f : S -> S) : M S unit := fun s => (Ret tt, f s).
Definition get : M S S := fun s => (Ret s, s).

Definition bindM {A B} (m : M S A) (k : A -> M S B) : M S B :=
  fun s => match m s with
           | (Ret a, s') => k a s'
           | (Raise e, s') => (Raise e, s')
           end.

(** [try: body  except <classes> as e: handler e] *)
Definition try_except {A} (catches : exn -> bool) (body : M S A)
           (handler : exn -> M S A) : M S A :=
  fun s => match body s with
           | (Ret a, s') => (Ret a, s')
           | (Raise e, s') => if catches e then handler e s' else (Raise e, s')
           end.

(** [for x in l: body x] *)
Fixpoint for_each {A} (l : list A) (body : A -> M S unit) : M S unit :=
  match l with
  | [] => ret tt
  | x :: l' => bindM (body x) (fun _ => for_each l' body)
  end.

(** [for i, x in enumerate(l): body i x], counting from [i]. *)
Fixpoint for_each_indexed {A} (i : nat) (l : list A)
         (body : nat -> A -> M S unit) : M S unit :=
  match l with
  | [] => ret tt
  | x :: l' => bindM (body i x) (fun _ => for_each_indexed (Datatypes.S i) l' body)
  end.
End StateAndExceptions.

Declare Scope py_scope.
Notation "x <- m ;; k" := (bindM m (fun x => k))
  (at level 61, m at next level, right associativity) : py_scope.
Notation "m ;; k" := (bindM m (fun _ => k))
  (at level 61, right associativity) : py_scope.

(** [max(0.0, min(1.0, x))] with Python's [min] and [max], which keep their
    first argument unless a later one is strictly smaller (larger). *)
Definition py_min (a b : Q) : Q := if Qltb b a then b else a.
Definition py_max (a b : Q) : Q := if Qltb a b then b else a.

(** [np.mean] of a non-empty list. *)
Definition mean (l : list Q) : Q :=
  fold_right Qplus 0 l / inject_Z (Z.of_nat (List.length l)).

End Py.

(* ================================================================== *)
(** * [datetime.strptime] for the numeric date formats of the sources *)
(* ================================================================== *)

Module PyDate.

Import PyStr Re.
Open Scope string_scope.

Inductive directive : Type := dY | dm | dd.

Inductive fmt_item : Type :=
| Dir (d : directive)
| Sep (c : ascii).

Definition fmt_Ymd_dash  := [Dir dY; Sep "-"; Dir dm; Sep "-"; Dir dd].  (* %Y-%m-%d *)
Definition fmt_mdY_slash := [Dir dm; Sep "/"; Dir dd; Sep "/"; Dir dY].  (* %m/%d/%Y *)
Definition fmt_dmY_slash := [Dir dd; Sep "/"; Dir dm; Sep "/"; Dir dY].  (* %d/%m/%Y *)
Definition fmt_mdY_dash  := [Dir dm; Sep "-"; Dir dd; Sep "-"; Dir dY].  (* %m-%d-%Y *)
Definition fmt_dmY_dash  := [Dir dd; Sep "-"; Dir dm; Sep "-"; Dir dY].  (* %d-%m-%Y *)

Definition one_to_nine : regex := Class (between 49 57).

(** The patterns [_strptime] substitutes for the directives. *)
Definition directive_regex (d : directive) : regex :=
  match d with
  | dY => rep 4 digit                                     (* \d\d\d\d *)
  | dm => Alt (Cat (chr "1") (Class (between 48 50)))     (* 1[0-2]|0[1-9]|[1-9] *)
         (Alt (Cat (chr "0") one_to_nine) one_to_nine)
  | dd => Alt (Cat (chr "3") (Class (between 48 49)))     (* 3[01]|[12]\d|0[1-9]|[1-9]| [1-9] *)
         (Alt (Cat (Class (between 49 50)) digit)
         (Alt (Cat (chr "0") one_to_nine)
         (Alt one_to_nine (Cat (chr " ") one_to_nine))))
  end.

Definition format_regex (fmt : list fmt_item) : regex :=
  seq (map (fun i => match i with
                     | Dir d => directive_regex d
                     | Sep c => chr c
                     end) fmt).

(** The text up to the next occurrence of [stop] (all of it when there is
    no separator ahead), and what follows. *)
Fixpoint take_field (stop : option ascii) (s : string) : string * string :=
  match s with
  | EmptyString => (EmptyString, EmptyString)
  | String c s' =>
      match stop with
      | Some x => if Ascii.eqb c x then (EmptyString, s)
                  else let (f, r) := take_field stop s' in (String c f, r)
      | None => let (f, r) := take_field stop s' in (String c f, r)
      end
  end.

Fixpoint fields (fmt : list fmt_item) (s : string) : list (directive * Z) :=
  match fmt with
  | [] => []
  | Dir d :: rest =>
      let stop := match rest with Sep c :: _ => Some c | _ => None end in
      let (f, s') := take_field stop s in
      (d, digits_value 0 f) :: fields rest s'
  | Sep _ :: rest =>
      fields rest (match s with String _ s' => s' | EmptyString => s end)
  end.

Fixpoint field_of (d : directive) (l : list (directive * Z)) : Z :=
  match l with
  | [] => 1
  | (d', z) :: l' =>
      match d, d' with
      | dY, dY | dm, dm | dd, dd => z
      | _, _ => field_of d l'
      end
  end.

Record date : Type := mk_date { year : Z; month : Z; day : Z }.

Definition is_leap (y : Z) : bool :=
  ((y mod 4 =? 0) && (negb (y mod 100 =? 0) || (y mod 400 =? 0)))%Z.

Definition days_in_month (y m : Z) : Z :=
  if (m =? 2)%Z then (if is_leap y then 29 else 28)
  else if ((m =? 4) || (m =? 6) || (m =? 9) || (m =? 11))%Z then 30
  else 31.

(** [datetime.date(y, m, d)] exists. *)
Definition valid_date (y m d : Z) : bool :=
  ((1 <=? y) && (y <=? 9999) && (1 <=? m) && (m <=? 12)
   && (1 <=? d) && (d <=? days_in_month y m))%Z.

(** [datetime.strptime(s, fmt).date()]; [None] stands for [ValueError]. *)
Definition strptime (s : string) (fmt : list fmt_item) : option date :=
  if fullmatch (format_regex fmt) s then
    let fs := fields fmt s in
    let y := field_of dY fs in
    let m := field_of dm fs in
    let d := field_of dd fs in
    if valid_date y m d then Some (mk_date y m d) else None
  else None.

(** [a < b] on dates. *)
Definition date_ltb (a b : date) : bool :=
  ((year a <? year b)
   || ((year a =? year b) && ((month a <? month b)
       || ((month a =? month b) && (day a <? day b)))))%Z.

End PyDate.

(* ================================================================== *)
(** * [utils/confidence.py]: class [ConfidenceScorer] *)
(* ================================================================== *)

Module ConfidenceScorer.

Import PyStr Re Py PyDate.
Open Scope string_scope.
Open Scope Q_scope.

(** ** Patterns *)

Definition pat_ymd : regex :=      (* ^\d{4}-\d{2}-\d{2}$ *)
  seq [rep 4 digit; chr "-"; rep 2 digit; chr "-"; rep 2 digit].
Definition pat_mdy_slash : regex :=  (* ^\d{2}/\d{2}/\d{4}$ *)
  seq [rep 2 digit; chr "/"; rep 2 digit; chr "/"; rep 4 digit].
Definition pat_mdy_dash : regex :=   (* ^\d{2}-\d{2}-\d{4}$ *)
  seq [rep 2 digit; chr "-"; rep 2 digit; chr "-"; rep 4 digit].

Definition date_patterns : list regex := [pat_ymd; pat_mdy_slash; pat_mdy_dash].

Definition digit_or_comma (c : ascii) : bool := is_digit c || is_char "," c.

Definition currency_patterns : list regex :=
  [ (* ^\$?[\d,]+\.?\d{0,2}$ *)
    seq [opt (chr "$"); plus (Class digit_or_comma); opt (chr "."); upto 2 digit];
    (* ^[\d,]+\.?\d{0,2}\s*\$?$ *)
    seq [plus (Class digit_or_comma); opt (chr "."); upto 2 digit;
         Star space; opt (chr "$")] ].

Definition pat_id : regex :=         (* ^[A-Z0-9\-_]+$ *)
  plus (Class (fun c => is_upper c || is_digit c || is_char "-" c || is_char "_" c)).

Definition pat_name : regex :=       (* ^[A-Za-z\s\.,]+$ *)
  plus (Class (fun c => is_alpha c || is_space c || is_char "." c || is_char "," c)).

Definition pat_email : regex :=      (* ^[a-zA-Z0-9._%+-]+@[a-zA-Z0-9.-]+\.[a-zA-Z]{2,}$ *)
  seq [plus (Class (fun c => is_alpha c || is_digit c || is_char "." c
                             || is_char "_" c || is_char "%" c
                             || is_char "+" c || is_char "-" c));
       chr "@";
       plus (Class (fun c => is_alpha c || is_digit c || is_char "." c
                             || is_char "-" c));
       chr ".";
       rep 2 (Class is_alpha); Star (Class is_alpha)].

Definition phone_separator (c : ascii) : bool :=   (* [\s\-\(\)\.] *)
  is_space c || is_char "-" c || is_char "(" c || is_char ")" c || is_char "." c.

Definition pat_phone_us : regex :=   (* ^\+?1?\d{10}$ *)
  seq [opt (chr "+"); opt (chr "1"); rep 10 digit].
Definition pat_phone_digits : regex := (* ^\d{7,15}$ *)
  rep_range 7 15 digit.

(** ** Sub-checks *)

(** The [try] block of [_date_confidence], entered once a pattern matched:
    the format is chosen from the separators and the length of the value. *)
Definition date_parse_score (value : string) : Q :=
  let parsed :=
    if contains "-" value && (len value =? 10)%nat
    then match strptime value fmt_Ymd_dash with Some _ => true | None => false end
    else if contains "/" value
    then match strptime value fmt_mdY_slash with Some _ => true | None => false end
    else if contains "-" value && negb (len value =? 10)%nat
    then match strptime value fmt_mdY_dash with Some _ => true | None => false end
    else true in
  if parsed then 0.9 else 0.4.

Definition _date_confidence (value : pyval) : Q :=
  match value with
  | PStr s =>
      if existsb (fun pattern => match_anchored pattern s) date_patterns
      then date_parse_score s
      else if search (rep 4 digit) s && search (rep_range 1 2 digit) s
      then 0.6
      else 0.2
  | _ => 0.3
  end.

Definition _amount_confidence (value : pyval) : Q :=
  if is_number value then
    if Qle_bool 0 (number_value value) then 0.85 else 0.6
  else match value with
       | PStr s =>
           if existsb (fun pattern => match_anchored pattern (strip s))
                      currency_patterns
           then 0.8
           else if search digit s then 0.5
           else 0.2
       | _ => 0.2
       end.

Definition _number_confidence (value : pyval) (original_text : string) : Q :=
  match value with
  | PStr s =>
      if match_anchored pat_id s then
        if contains s original_text then 0.9 else 0.6
      else 0.4
  | _ => 0.3
  end.

Definition _name_confidence (value : pyval) (original_text : string) : Q :=
  match value with
  | PStr s =>
      if (len s <? 2)%nat then 0.2
      else if contains (lower s) (lower original_text) then 0.8
      else if match_anchored pat_name s then 0.7
      else 0.4
  | _ => 0.2
  end.

Definition _email_confidence (value : pyval) : Q :=
  match value with
  | PStr s =>
      if match_anchored pat_email s then 0.95
      else if contains "@" s && contains "." s then 0.6
      else 0.2
  | _ => 0.2
  end.

Definition _phone_confidence (value : pyval) : Q :=
  match value with
  | PStr s =>
      let clean_phone := remove_chars phone_separator s in
      if match_anchored pat_phone_us clean_phone then 0.9
      else if match_anchored pat_phone_digits clean_phone then 0.7
      else 0.3
  | _ => 0.2
  end.

Definition _text_presence_confidence (value original_text : string) : Q :=
  if String.eqb value "" || String.eqb original_text "" then 0.0
  else if contains value original_text then 0.9
  else if contains (lower value) (lower original_text) then 0.85
  else
    let partial :=
      if (5 <? len value)%nat then
        let words := split_ws value in
        let matches :=
          List.length
            (filter (fun word => contains (lower word) (lower original_text))
                    words) in
        if (0 <? matches)%nat
        then Some (0.3 + (inject_Z (Z.of_nat matches)
                          / inject_Z (Z.of_nat (List.length words))) * 0.4)
        else None
      else None in
    match partial with
    | Some score => score
    | None => 0.1
    end.

Definition _format_confidence (field_path : string) (value : pyval) : Q :=
  if is_none value then 0.0
  else if contains "amount" (lower field_path) || contains "total" (lower field_path)
  then (if is_number value then 0.8 else 0.3)
  else if contains "quantity" (lower field_path)
  then (if is_number value && Qle_bool 0 (number_value value) then 0.8 else 0.4)
  else if contains "date" (lower field_path)
  then (match value with
        | PStr s => if (8 <=? len s)%nat then 0.7 else 0.3
        | _ => 0.3
        end)
  else 0.5.

Section Scorer.

(** [str(value)] for a value that is not a string. *)
Variable repr : pyval -> string.

Definition str (value : pyval) : string :=
  match value with
  | PStr s => s
  | _ => repr value
  end.

Definition when (b : bool) (score : Q) : list Q := if b then [score] else [].

Definition _calculate_heuristic_confidence
    (field_path : string) (value : pyval) (original_text : string) : Q :=
  if is_none value || is_empty_str value then 0.0
  else
    let path := lower field_path in
    let confidence_adjustments :=
     (when (contains "date" path) (_date_confidence value)
      ++ when (contains "amount" path || contains "total" path
               || contains "cost" path)
              (_amount_confidence value)
      ++ when (contains "number" path || endswith field_path "_number")
              (_number_confidence value original_text)
      ++ when (contains "name" path) (_name_confidence value original_text)
      ++ when (contains "email" path) (_email_confidence value)
      ++ when (contains "phone" path) (_phone_confidence value)
      ++ [_text_presence_confidence (str value) original_text]
      ++ [_format_confidence field_path value])%list in
    match confidence_adjustments with
    | [] => 0.5
    | _ => mean confidence_adjustments
    end.

Definition calculate_field_confidence
    (field_path : string) (value : pyval) (original_text : string)
    (gemini_confidence : option Q) : Q :=
  if is_none value then 0.0
  else
    let heuristic_score :=
      _calculate_heuristic_confidence field_path value original_text in
    let final_confidence :=
      match gemini_confidence with
      | Some base_confidence => 0.7 * base_confidence + 0.3 * heuristic_score
      | None => heuristic_score
      end in
    py_max 0.0 (py_min 1.0 final_confidence).

End Scorer.

(** ** Low-confidence fields *)

(** [list.sort(key=lambda x: x[1])]: a stable sort on the score; insertion
    before the first entry that is not smaller keeps equal scores in their
    original order. *)
Fixpoint insert_by_score (x : string * Q) (l : list (string * Q))
  : list (string * Q) :=
  match l with
  | [] => [x]
  | y :: l' =>
      if Qle_bool (snd x) (snd y) then x :: y :: l'
      else y :: insert_by_score x l'
  end.

Definition sort_by_score (l : list (string * Q)) : list (string * Q) :=
  fold_right insert_by_score [] l.

Definition identify_low_confidence_fields
    (low_confidence_threshold : Q) (field_confidences : list (string * Q))
  : list (string * Q) :=
  let low_confidence_fields :=
    filter (fun fc => Qltb (snd fc) low_confidence_threshold) field_confidences in
  sort_by_score low_confidence_fields.

(** Entries compared by their score. *)
Definition score_le (a b : string * Q) : Prop := snd a <= snd b.

End ConfidenceScorer.

(* ================================================================== *)
(** * [utils/doc_classifier.py]: class [DocumentClassifier] *)
(* ================================================================== *)

Module DocumentClassifier.

Import PyStr Re Py.
Open Scope string_scope.

Definition invoice_keywords : list string :=
  ["invoice"; "bill to"; "ship to"; "subtotal"; "tax"; "total due";
   "invoice number"; "invoice date"; "due date"; "remit to";
   "item"; "description"; "quantity"; "rate"; "amount"].

Definition bill_keywords : list string :=
  ["statement"; "account number"; "billing period"; "previous balance";
   "payment due"; "current charges"; "service period"; "usage";
   "meter reading"; "kilowatt"; "gallons"; "minutes"].

Definition prescription_keywords : list string :=
  ["prescription"; "rx"; "medication"; "prescriber"; "pharmacy";
   "patient"; "dosage"; "instructions"; "refill"; "ndc";
   "generic"; "brand"; "tablet"; "capsule"; "mg"; "ml"].

Definition _count_keywords (text : string) (keywords : list string) : Z :=
  fold_left (fun count keyword => if contains keyword text then (count + 1)%Z else count)
            keywords 0%Z.

(** [\s*#?\s*\d+], shared by several patterns. *)
Definition hash_number : list regex :=
  [Star space; opt (chr "#"); Star space; plus digit].

Definition patterns : list (string * list regex) :=
  [ ("invoice",
      [ seq (lit "invoice" :: hash_number);                     (* invoice\s*#?\s*\d+ *)
        seq [lit "invoice"; Star space; lit "number"];          (* invoice\s*number *)
        seq [lit "bill"; Star space; lit "to:"];                (* bill\s*to: *)
        seq [lit "subtotal"; Star dot; chr "$"];                (* subtotal.*\$ *)
        seq [lit "tax"; Star dot; chr "$"; Star dot;            (* tax.*\$.*total.*\$ *)
             lit "total"; Star dot; chr "$"] ]);
    ("bill",
      [ seq (lit "account" :: hash_number);                     (* account\s*#?\s*\d+ *)
        seq [lit "statement"; Star space; lit "date"];          (* statement\s*date *)
        seq [lit "billing"; Star space; lit "period"];          (* billing\s*period *)
        seq [lit "previous"; Star space; lit "balance";         (* previous\s*balance.*\$ *)
             Star dot; chr "$"];
        seq [lit "payment"; Star space; lit "due";              (* payment\s*due.*\$ *)
             Star dot; chr "$"] ]);
    ("prescription",
      [ seq (lit "rx" :: hash_number);                          (* rx\s*#?\s*\d+ *)
        seq (lit "prescription" :: hash_number);                (* prescription\s*#?\s*\d+ *)
        seq [plus digit; Star space; lit "mg"; Star space;      (* \d+\s*mg\s*tablet *)
             lit "tablet"];
        seq [lit "take"; Star space; plus digit; Star dot;      (* take\s*\d+.*daily *)
             lit "daily"];
        seq [lit "refill"; Star dot; plus digit] ]) ].          (* refill.*\d+ *)

(** [re.search(pattern, text, re.IGNORECASE)] for a pattern whose letters
    are all lower case. *)
Definition search_ignorecase (pattern : regex) (text : string) : bool :=
  search pattern (lower text).

Definition _pattern_matching (text : string) : list (string * Z) :=
  map (fun '(doc_type, pattern_list) =>
         (doc_type,
          fold_left (fun score pattern =>
                       if search_ignorecase pattern text then (score + 2)%Z else score)
                    pattern_list 0%Z))
      patterns.

(** [d.get(k, 0)] *)
Definition get_or_zero (k : string) (d : list (string * Z)) : Z :=
  match dict_get k d with Some v => v | None => 0%Z end.

(** [max(scores, key=scores.get)]: the first key whose score is maximal. *)
Fixpoint max_key (best : string * Z) (rest : list (string * Z)) : string * Z :=
  match rest with
  | [] => best
  | x :: rest' => max_key (if (snd best <? snd x)%Z then x else best) rest'
  end.

(** [sorted(values, reverse=True)] *)
Fixpoint insert_desc (x : Z) (l : list Z) : list Z :=
  match l with
  | [] => [x]
  | y :: l' => if (y <=? x)%Z then x :: y :: l' else y :: insert_desc x l'
  end.

Definition sorted_desc (l : list Z) : list Z := fold_right insert_desc [] l.

Open Scope Q_scope.

Definition classify_by_heuristics (text : string) : option string * Q :=
  let text_lower := lower text in
  let invoice_score := _count_keywords text_lower invoice_keywords in
  let bill_score := _count_keywords text_lower bill_keywords in
  let prescription_score := _count_keywords text_lower prescription_keywords in
  let pattern_scores := _pattern_matching text_lower in
  let invoice_total := (invoice_score + get_or_zero "invoice" pattern_scores)%Z in
  let bill_total := (bill_score + get_or_zero "bill" pattern_scores)%Z in
  let prescription_total :=
    (prescription_score + get_or_zero "prescription" pattern_scores)%Z in
  let scores := [("bill", bill_total); ("prescription", prescription_total)] in
  let '(max_type, max_score) := max_key ("invoice", invoice_total) scores in
  let sorted_scores :=
    sorted_desc [invoice_total; bill_total; prescription_total] in
  if (max_score =? 0)%Z then (None, 0.0)
  else
    let second := nth 1 sorted_scores 0%Z in
    let confidence :=
      if (1 <? List.length sorted_scores)%nat && (0 <? second)%Z
      then py_min 0.95 (inject_Z max_score / inject_Z (max_score + second))
      else py_min 0.9 (inject_Z max_score / 10.0) in
    if Qltb confidence 0.6 then (None, confidence)
    else (Some max_type, confidence).

Definition valid_types : list string := ["invoice"; "bill"; "prescription"].

(** The last step of [classify]: the heuristic answer, or the default when
    the heuristics named no type. *)
Definition heuristic_or_default (doc_type : option string) (confidence : Q)
  : string * Q :=
  match doc_type with
  | Some t => (t, confidence)
  | None => ("invoice", 0.3)
  end.

(** [PromptTemplates.get_classification_prompt]; [text[:2000]] is the
    first 2000 characters. *)
Definition get_classification_prompt (text : string) : string :=
  "Analyze the following document text and classify it as one of these types: invoice, bill, or prescription.

Look for these key indicators:
- INVOICE: Contains invoice number, vendor details, itemized charges, tax calculations
- BILL: Contains account numbers, billing periods, service charges, payment due dates
- PRESCRIPTION: Contains medication names, dosages, prescriber information, pharmacy details

Document text:
" ++ substring 0 2000 text ++ "...

Respond with ONLY one word: invoice, bill, or prescription".

(** The collaborator: [gemini_extractor.call_gemini(prompt, max_tokens)]
    may return any value or raise.  An extractor object is always true in a
    condition, so [if gemini_extractor] asks whether one was supplied. *)
Definition model_service : Type := string -> Z -> outcome pyval.

(** [response.get('text', '')]; only a [dict] has [get]. *)
Definition response_text (response : pyval) : outcome pyval :=
  match response with
  | PDict d => Ret (match dict_get "text" d with
                    | Some v => v
                    | None => PStr ""
                    end)
  | _ => Raise (mk_exn AttributeError "object has no attribute 'get'")
  end.

(** [v.strip().lower()]; only a [str] has [strip]. *)
Definition strip_lower (v : pyval) : outcome string :=
  match v with
  | PStr s => Ret (lower (strip s))
  | _ => Raise (mk_exn AttributeError "object has no attribute 'strip'")
  end.

Definition classify_with_gemini (text : string) (gemini_extractor : model_service)
  : outcome (string * Q) :=
  try_outcome any_Exception
    (let prompt := get_classification_prompt text in
     bind (gemini_extractor prompt 10%Z) (fun response =>
     bind (response_text response) (fun raw =>
     bind (strip_lower raw) (fun classification =>
     if in_list classification valid_types
     then Ret (classification, 0.75)
     else Ret ("invoice", 0.5)))))
    (fun _ => Ret ("invoice", 0.3)).

(** The three steps of [classify]: a confident heuristic answer is
    returned at once; below 0.7 a supplied collaborator is consulted and
    wins when it is more confident; otherwise the heuristic answer or the
    default. *)
Definition classify (text : string) (gemini_extractor : option model_service)
  : outcome (string * Q) :=
  let '(doc_type, confidence) := classify_by_heuristics text in
  match (if Qltb 0.7 confidence then doc_type else None) with
  | Some t => Ret (t, confidence)
  | None =>
      bind
        (match gemini_extractor with
         | Some g =>
             if Qltb confidence 0.7 then
               try_outcome any_Exception
                 (bind (classify_with_gemini text g)
                    (fun '(gemini_type, gemini_confidence) =>
                       if Qltb confidence gemini_confidence
                       then Ret (Some (gemini_type, gemini_confidence))
                       else Ret None))
                 (fun _ => Ret None)
             else Ret None
         | None => Ret None
         end)
        (fun fallback =>
           match fallback with
           | Some result => Ret result
           | None => Ret (heuristic_or_default doc_type confidence)
           end)
  end.

End DocumentClassifier.

(* ================================================================== *)
(** * [utils/extractor.py]: class [GeminiExtractor] *)
(* ================================================================== *)

Module GeminiExtractor.

Import PyStr Re Py.
Open Scope string_scope.

(** The dictionary [call_gemini] returns, without its latency, token-count
    and model-name entries; the ['error'] entry is present exactly when
    the call failed. *)
Record response : Type :=
  mk_response { response_text : string; response_error : option string }.

(** [re.search(open .* close, text, re.DOTALL).group(0)]: from the first
    [open] to the last [close] after it. *)
Fixpoint from_first (c : ascii) (s : string) : option string :=
  match s with
  | EmptyString => None
  | String x s' => if Ascii.eqb x c then Some s else from_first c s'
  end.

Definition outermost (open close : ascii) (s : string) : option string :=
  match from_first open s with
  | Some (String _ inner) =>
      match from_first close (rev inner) with
      | Some reversed => Some (String open (rev reversed))
      | None => None
      end
  | _ => None
  end.

Definition _extract_json_from_text (s : string) : option string :=
  match outermost "{" "}" s with
  | Some json => Some json
  | None => outermost "[" "]" s
  end.

Section Extractor.

(** The model service with its own state: [self.model.generate_content]
    followed by [response.text], given the prompt and the output-token
    limit. *)
Variable service : Type.
Variable generate_content : string -> Z -> service -> outcome string * service.

(** [config] *)
Variable GEMINI_MAX_TOKENS : Z.
Variable SELF_CONSISTENCY_RUNS : Z.

(** [json.loads]: it may raise [json.JSONDecodeError] on a text that is no
    JSON document, and other exceptions too ([RecursionError] on a text
    nested too deeply, a plain [ValueError] on an integer literal with more
    digits than the interpreter converts). *)
Variable json_loads : string -> outcome pyval.

(** [PromptTemplates]; the builders that serialise a record may raise. *)
Variable get_self_consistency_prompt : string -> string -> pyval -> Z -> string.
Variable get_confidence_prompt : string -> pyval -> string -> outcome string.
Variable get_validation_prompt : pyval -> list string -> outcome string.

Local Open Scope py_scope.

Definition loads (s : string) : M service pyval := lift (json_loads s).

Definition call_gemini (prompt : string) (max_tokens : option Z) : M service response :=
  fun s =>
    let max_output_tokens :=
      match max_tokens with
      | Some m => if (m =? 0)%Z then GEMINI_MAX_TOKENS else m
      | None => GEMINI_MAX_TOKENS
      end in
    match generate_content prompt max_output_tokens s with
    | (Ret generated, s') => (Ret (mk_response generated None), s')
    | (Raise e, s') => (Ret (mk_response "" (Some (exn_msg e))), s')
    end.

(** ** Self-consistency extraction *)

Definition attempt_succeeded (data : pyval) (i : Z) (warning : option string)
  : pyval :=
  PDict ([("data", data); ("attempt", PInt (i + 1)); ("success", PBool true)]
         ++ match warning with
            | Some w => [("warning", PStr w)]
            | None => []
            end).

Definition attempt_failed (err : string) (i : Z) : pyval :=
  PDict [("error", PStr err); ("attempt", PInt (i + 1)); ("success", PBool false)].

(** The body of the loop: the entry appended to [results] by attempt [i]. *)
Definition run_attempt (text doc_type : string) (schema : pyval) (i : Z)
  : M service pyval :=
  let prompt := get_self_consistency_prompt text doc_type schema i in
  response <- call_gemini prompt None ;;
  match response_error response with
  | None =>
      try_except is_JSONDecodeError
        (data <- loads (response_text response) ;;
         ret (attempt_succeeded data i None))
        (fun _ =>
           match _extract_json_from_text (response_text response) with
           | Some cleaned_json =>
               try_except any_Exception
                 (data <- loads cleaned_json ;;
                  ret (attempt_succeeded data i (Some "Cleaned JSON")))
                 (fun _ => ret (attempt_failed "JSON parsing failed" i))
           | None => ret (attempt_failed "JSON parsing failed" i)
           end)
  | Some err => ret (attempt_failed err i)
  end.

(** [for i in range(num_runs)], starting from attempt [i] with [count]
    attempts left. *)
Fixpoint run_attempts (text doc_type : string) (schema : pyval)
         (count : nat) (i : Z) (results : list pyval) : M service (list pyval) :=
  match count with
  | O => ret results
  | S count' =>
      entry <- run_attempt text doc_type schema i ;;
      run_attempts text doc_type schema count' (i + 1) (results ++ [entry])
  end.

(** [r['success']] *)
Definition succeeded (r : pyval) : bool :=
  match r with
  | PDict d => match dict_get "success" d with
               | Some v => truthy v
               | None => false
               end
  | _ => false
  end.

(** [r['data']] *)
Definition data_of (r : pyval) : pyval :=
  match r with
  | PDict d => match dict_get "data" d with Some v => v | None => PNone end
  | _ => PNone
  end.

(** [num_runs or config.SELF_CONSISTENCY_RUNS] *)
Definition effective_runs (num_runs : option Z) : Z :=
  match num_runs with
  | Some n => if (n =? 0)%Z then SELF_CONSISTENCY_RUNS else n
  | None => SELF_CONSISTENCY_RUNS
  end.

Definition self_consistency_extraction
    (text doc_type : string) (schema : pyval) (num_runs : option Z)
  : M service pyval :=
  let num_runs := effective_runs num_runs in
  results <- run_attempts text doc_type schema (Z.to_nat num_runs) 0%Z [] ;;
  let successful_results := filter succeeded results in
  match successful_results with
  | [] =>
      ret (PDict [("data", PNone);
                  ("success", PBool false);
                  ("error", PStr "All extraction attempts failed");
                  ("results", PList results)])
  | first :: _ =>
      let consensus_data := data_of first in
      let consistency_rate :=
        (inject_Z (Z.of_nat (List.length successful_results))
         / inject_Z num_runs)%Q in
      ret (PDict [("data", consensus_data);
                  ("success", PBool true);
                  ("consistency_rate", PFloat consistency_rate);
                  ("successful_attempts",
                   PInt (Z.of_nat (List.length successful_results)));
                  ("total_attempts", PInt num_runs);
                  ("results", PList results)])
  end.

(** [r['attempt']] *)
Definition attempt_number (r : pyval) : option pyval :=
  match r with
  | PDict d => dict_get "attempt" d
  | _ => None
  end.

(** ** Confidence assessment *)

(** The nested [add_scores(obj, prefix)], threading the [scores] it
    fills. *)
Fixpoint add_scores (obj : pyval) (prefix : string)
         (scores : list (string * Q)) {struct obj} : list (string * Q) :=
  match obj with
  | PDict d =>
      (fix items (d : list (string * pyval)) (scores : list (string * Q))
           {struct d} : list (string * Q) :=
         match d with
         | [] => scores
         | (key, value) :: d' =>
             let field_path :=
               if String.eqb prefix "" then key else prefix ++ "." ++ key in
             items d'
               (match value with
                | PDict _ | PList _ => add_scores value field_path scores
                | _ => dict_set field_path 0.5%Q scores
                end)
         end) d scores
  | PList l =>
      (fix elements (l : list pyval) (i : nat) (scores : list (string * Q))
           {struct l} : list (string * Q) :=
         match l with
         | [] => scores
         | item :: l' =>
             elements l' (S i)
               (match item with
                | PDict _ | PList _ =>
                    add_scores item (prefix ++ "." ++ str_of_nat i) scores
                | _ => scores
                end)
         end) l O scores
  | _ => scores
  end.

Definition _default_confidence_scores (data : pyval) : list (string * Q) :=
  add_scores data "" [].

(** The validation loop over [confidence_scores.items()]. *)
Definition validate_scores (confidence_scores : list (string * pyval))
  : list (string * Q) :=
  fold_left
    (fun validated_scores '(field, score) =>
       if is_number score
          && Qle_bool 0 (number_value score) && Qle_bool (number_value score) 1
       then dict_set field (number_value score) validated_scores
       else dict_set field 0.5%Q validated_scores)
    confidence_scores [].

(** [obj.items()]; only a [dict] has [items]. *)
Definition items_of (v : pyval) : M service (list (string * pyval)) :=
  match v with
  | PDict d => ret d
  | _ => raise (mk_exn AttributeError "object has no attribute 'items'")
  end.

Definition assess_confidence (text : string) (extracted_data : pyval)
           (doc_type : string) : M service (list (string * Q)) :=
  try_except any_Exception
    (prompt <- lift (get_confidence_prompt text extracted_data doc_type) ;;
     response <- call_gemini prompt (Some 512%Z) ;;
     match response_error response with
     | Some _ => ret (_default_confidence_scores extracted_data)
     | None =>
         try_except is_JSONDecodeError
           (let stripped := strip (response_text response) in
            if String.eqb stripped ""
            then ret (_default_confidence_scores extracted_data)
            else
              confidence_scores <- loads stripped ;;
              scores <- items_of confidence_scores ;;
              ret (validate_scores scores))
           (fun _ => ret (_default_confidence_scores extracted_data))
     end)
    (fun _ => ret (_default_confidence_scores extracted_data)).

(** ** Correction *)

Definition fix_validation_errors (data : pyval) (validation_errors : list string)
  : M service pyval :=
  try_except any_Exception
    (prompt <- lift (get_validation_prompt data validation_errors) ;;
     response <- call_gemini prompt None ;;
     match response_error response with
     | Some _ => ret data
     | None =>
         try_except is_JSONDecodeError
           (fixed_data <- loads (response_text response) ;;
            ret fixed_data)
           (fun _ => ret data)
     end)
    (fun _ => ret data).

End Extractor.


End GeminiExtractor.

(* ================================================================== *)
(** * [utils/validation.py]: class [DataValidator] *)
(* ================================================================== *)

Module DataValidator.

Import PyStr Re Py PyDate.
Open Scope string_scope.
Local Open Scope py_scope.

Record field_validation : Type :=
  mk_field_validation { fv_is_valid : bool; fv_value : pyval; fv_type : string }.

(** The [validation_result] dictionary. *)
Record validation_result : Type := mk_result {
  is_valid : bool;
  errors : list string;
  warnings : list string;
  field_validations : list (string * field_validation)
}.

(** Validators mutate the result they are handed. *)
Definition V (A : Type) : Type := M validation_result A.

(** [result['errors'].append(msg)] and its siblings. *)
Definition add_error (msg : string) : V unit :=
  modify (fun r => mk_result (is_valid r) (errors r ++ [msg]) (warnings r)
                             (field_validations r)).

Definition add_warning (msg : string) : V unit :=
  modify (fun r => mk_result (is_valid r) (errors r) (warnings r ++ [msg])
                             (field_validations r)).

Definition set_field_validation (field : string) (fv : field_validation) : V unit :=
  modify (fun r => mk_result (is_valid r) (errors r) (warnings r)
                             (dict_set field fv (field_validations r))).

Definition set_is_valid (b : bool) : V unit :=
  modify (fun r => mk_result b (errors r) (warnings r) (field_validations r)).

(** [field in container] *)
Definition py_in (field : string) (container : pyval) : outcome bool :=
  match container with
  | PDict d => Ret (dict_has field d)
  | PList l => Ret (existsb (fun v => match v with
                                      | PStr s => String.eqb s field
                                      | _ => false
                                      end) l)
  | PStr s => Ret (contains field s)
  | _ => Raise (mk_exn TypeError
                       ("argument of type '" ++ type_name container
                        ++ "' is not iterable"))
  end.

(** [container[field]] for a string subscript. *)
Definition py_getitem (container : pyval) (field : string) : outcome pyval :=
  match container with
  | PDict d => match dict_get field d with
               | Some v => Ret v
               | None => Raise (mk_exn KeyError ("'" ++ field ++ "'"))
               end
  | PList _ => Raise (mk_exn TypeError
                             "list indices must be integers or slices, not str")
  | PStr _ => Raise (mk_exn TypeError "string indices must be integers, not 'str'")
  | _ => Raise (mk_exn TypeError
                       ("'" ++ type_name container ++ "' object is not subscriptable"))
  end.

(** [field in container and container[field] is not None] *)
Definition present (container : pyval) (field : string) : outcome bool :=
  bind (py_in field container) (fun has =>
  if has then bind (py_getitem container field) (fun v => Ret (negb (is_none v)))
  else Ret false).

(** [all(field in container and container[field] is not None for field in fields)] *)
Fixpoint all_present (container : pyval) (fields : list string) : outcome bool :=
  match fields with
  | [] => Ret true
  | field :: fields' =>
      bind (present container field) (fun ok =>
      if ok then all_present container fields' else Ret false)
  end.

Section Validator.

(** [datetime.now().year] *)
Variable current_year : Z.

(** [float(s)] for a string; [None] stands for [ValueError]. *)
Variable float_of_str : string -> option Q.

(** [f"{x:.2f}"] *)
Variable format_2f : Q -> string.

(** [float(z)] raises [OverflowError]: the integer rounds to no finite
    float, which it does from [2^1024 - 2^970] on. *)
Definition float_overflows (z : Z) : bool :=
  (2 ^ 1024 - 2 ^ 970 <=? Z.abs z)%Z.

(** [float(v)]; [OverflowError] is neither a [ValueError] nor a
    [TypeError]. *)
Definition py_float (v : pyval) : outcome Q :=
  match v with
  | PInt z =>
      if float_overflows z
      then Raise (mk_exn OtherException "int too large to convert to float")
      else Ret (number_value v)
  | PBool _ | PFloat _ => Ret (number_value v)
  | PStr s => match float_of_str s with
              | Some q => Ret q
              | None => Raise (mk_exn ValueError
                                      ("could not convert string to float: '"
                                       ++ s ++ "'"))
              end
  | _ => Raise (mk_exn TypeError
                       ("float() argument must be a string or a real number, not '"
                        ++ type_name v ++ "'"))
  end.

(** [datetime.strptime(v, fmt).date()] *)
Definition py_strptime (v : pyval) (fmt : list fmt_item) : outcome date :=
  match v with
  | PStr s => match strptime s fmt with
              | Some d => Ret d
              | None => Raise (mk_exn ValueError
                                      ("time data '" ++ s
                                       ++ "' does not match format"))
              end
  | _ => Raise (mk_exn TypeError
                       ("strptime() argument 1 must be str, not "
                        ++ match v with
                           | PNone => "None"
                           | _ => type_name v
                           end))
  end.

Definition ValueError_or_TypeError (e : exn) : bool :=
  is_ValueError e || is_TypeError e.

(** [abs(a - b) > 0.01] *)
Definition differs (a b : Q) : bool := Qltb 0.01 (Qabs (a - b)).

(** ** Per-type rules *)

Definition date_formats : list (list fmt_item) :=
  [fmt_Ymd_dash; fmt_mdY_slash; fmt_dmY_slash; fmt_mdY_dash; fmt_dmY_dash].

(** The loop over [date_formats]: the first format that parses decides. *)
Fixpoint try_date_formats (value : string) (formats : list (list fmt_item))
  : bool * string :=
  match formats with
  | [] => (false, "Invalid date format: " ++ value
                  ++ ". Expected formats: YYYY-MM-DD, MM/DD/YYYY, etc.")
  | fmt :: formats' =>
      match strptime value fmt with
      | Some parsed_date =>
          if ((year parsed_date <? 1900)
              || (current_year + 10 <? year parsed_date))%Z
          then (false, "Date year " ++ str_of_Z (year parsed_date)
                       ++ " seems unreasonable")
          else (true, "")
      | None => try_date_formats value formats'
      end
  end.

Definition _validate_date (value : pyval) : bool * string :=
  match value with
  | PStr s =>
      if String.eqb (strip s) "" then (false, "Date cannot be empty")
      else try_date_formats s date_formats
  | _ => (false, "Date must be a string")
  end.

Definition amount_noise (c : ascii) : bool :=     (* [\$,\s] *)
  is_char "$" c || is_char "," c || is_space c.

Definition _validate_amount (value : pyval) : bool * string :=
  if is_none value then (false, "Amount cannot be null")
  else if is_number value then
    if Qltb (number_value value) 0 then (false, "Amount cannot be negative")
    else (true, "")
  else match value with
       | PStr s =>
           let clean_value := remove_chars amount_noise s in
           match float_of_str clean_value with
           | Some amount =>
               if Qltb amount 0 then (false, "Amount cannot be negative")
               else (true, "")
           | None => (false, "Invalid amount format: " ++ s)
           end
       | _ => (false, "Amount must be a number, got " ++ type_name value)
       end.

Definition _validate_number (value : pyval) : bool * string :=
  match value with
  | PStr s =>
      if String.eqb (strip s) "" then (false, "Number cannot be empty")
      else if (50 <? len s)%nat then (false, "Number seems too long")
      else (true, "")
  | _ => (false, "Number must be a string")
  end.

(** [email_pattern] of [_validate_email]:
    ^[a-zA-Z0-9._%+-]+@[a-zA-Z0-9.-]+\.[a-zA-Z]{2,}$ *)
Definition email_pattern : regex :=
  seq [plus (Class (fun c => is_lower c || is_upper c || is_digit c
                             || is_char "." c || is_char "_" c
                             || is_char "%" c || is_char "+" c
                             || is_char "-" c));
       chr "@";
       plus (Class (fun c => is_lower c || is_upper c || is_digit c
                             || is_char "." c || is_char "-" c));
       chr ".";
       rep 2 (Class (fun c => is_lower c || is_upper c));
       Star (Class (fun c => is_lower c || is_upper c))].

Definition _validate_email (value : pyval) : bool * string :=
  match value with
  | PStr s =>
      if match_anchored email_pattern s then (true, "")
      else (false, "Invalid email format: " ++ s)
  | _ => (false, "Email must be a string")
  end.

(** The formatting [_validate_phone] removes: [\s\-\(\)\.] *)
Definition phone_formatting (c : ascii) : bool :=
  is_space c || is_char "-" c || is_char "(" c || is_char ")" c || is_char "." c.

Definition _validate_phone (value : pyval) : bool * string :=
  match value with
  | PStr s =>
      let clean_phone := remove_chars phone_formatting s in
      (* ^\+?1?\d{10,15}$ *)
      if match_anchored (seq [opt (chr "+"); opt (chr "1"); rep_range 10 15 digit])
                        clean_phone
      then (true, "")
      else (false, "Invalid phone format: " ++ s)
  | _ => (false, "Phone must be a string")
  end.

Definition valid_currencies : list string :=
  ["USD"; "EUR"; "GBP"; "JPY"; "CAD"; "AUD"; "CHF"; "CNY"].

Definition _validate_currency (value : pyval) : bool * string :=
  match value with
  | PStr s =>
      if in_list (upper s) valid_currencies then (true, "")
      else (false, "Unknown currency code: " ++ s)
  | _ => (false, "Currency must be a string")
  end.

Definition validation_rules : list (string * (pyval -> bool * string)) :=
  [("date", _validate_date); ("amount", _validate_amount);
   ("number", _validate_number); ("email", _validate_email);
   ("phone", _validate_phone); ("currency", _validate_currency)].

(** ** Shared steps *)

Definition _check_required_fields (data : pyval) (required_fields : list string)
  : V unit :=
  for_each required_fields (fun field =>
    has <- lift (py_in field data) ;;
    missing <- (if has
                then v <- lift (py_getitem data field) ;;
                     ret (is_none v || is_empty_str v)
                else ret true) ;;
    if missing
    then add_error ("Required field '" ++ field ++ "' is missing or empty")
    else ret tt).

Definition _validate_field_type (data : pyval) (field field_type : string)
  : V unit :=
  ok <- lift (present data field) ;;
  if negb ok then ret tt
  else
    value <- lift (py_getitem data field) ;;
    match dict_get field_type validation_rules with
    | Some rule =>
        let '(valid, error_msg) := rule value in
        set_field_validation field (mk_field_validation valid value field_type) ;;
        if negb valid
        then add_error ("Field '" ++ field ++ "': " ++ error_msg)
        else ret tt
    | None =>
        add_warning ("No validation rule for field type '" ++ field_type ++ "'")
    end.

(** [for field in fields: if field in data: _validate_field_type(...)] *)
Definition validate_fields_of_type (data : pyval) (fields : list string)
           (field_type : string) : V unit :=
  for_each fields (fun field =>
    has <- lift (py_in field data) ;;
    if has then _validate_field_type data field field_type else ret tt).

(** ** Invoices *)

Definition _validate_invoice_item (item : pyval) (index : nat) : V unit :=
  for_each ["description"; "quantity"; "unit_price"; "total"] (fun field =>
    ok <- lift (present item field) ;;
    if negb ok
    then add_error ("Item " ++ str_of_nat index
                    ++ ": missing required field '" ++ field ++ "'")
    else if in_list field ["quantity"; "unit_price"; "total"]
    then
      v <- lift (py_getitem item field) ;;
      let '(valid, error_msg) := _validate_amount v in
      if negb valid
      then add_error ("Item " ++ str_of_nat index ++ ", field '" ++ field
                      ++ "': " ++ error_msg)
      else ret tt
    else ret tt) ;;
  complete <- lift (all_present item ["quantity"; "unit_price"; "total"]) ;;
  if complete then
    try_except ValueError_or_TypeError
      (quantity <- lift (bind (py_getitem item "quantity") py_float) ;;
       unit_price <- lift (bind (py_getitem item "unit_price") py_float) ;;
       let expected_total := (quantity * unit_price)%Q in
       actual_total <- lift (bind (py_getitem item "total") py_float) ;;
       if differs expected_total actual_total
       then add_warning ("Item " ++ str_of_nat index ++ ": calculated total ("
                         ++ format_2f expected_total
                         ++ ") doesn't match stated total ("
                         ++ format_2f actual_total ++ ")")
       else ret tt)
      (fun _ => ret tt)
  else ret tt.

(** [for item in items: if 'total' in item and item['total'] is not None:
    calculated_subtotal += float(item['total'])] *)
Fixpoint sum_item_totals (items : list pyval) (calculated_subtotal : Q)
  : outcome Q :=
  match items with
  | [] => Ret calculated_subtotal
  | item :: items' =>
      bind (present item "total") (fun ok =>
      if ok then
        bind (bind (py_getitem item "total") py_float) (fun total =>
        sum_item_totals items' (calculated_subtotal + total)%Q)
      else sum_item_totals items' calculated_subtotal)
  end.

(** [field in data and isinstance(data[field], list)], with the list. *)
Definition list_field (data : pyval) (field : string)
  : outcome (option (list pyval)) :=
  bind (py_in field data) (fun has =>
  if has then
    bind (py_getitem data field) (fun v =>
    match v with
    | PList l => Ret (Some l)
    | _ => Ret None
    end)
  else Ret None).

(** The [try] block of [_validate_invoice_totals]. *)
Definition invoice_totals_checks (data : pyval) : V unit :=
  items <- lift (list_field data "items") ;;
  match items with
  | Some items =>
      calculated_subtotal <- lift (sum_item_totals items 0.0%Q) ;;
      has_subtotal <- lift (present data "subtotal") ;;
      (if has_subtotal then
         stated_subtotal <- lift (bind (py_getitem data "subtotal") py_float) ;;
         if differs calculated_subtotal stated_subtotal
         then add_warning ("Calculated subtotal ("
                           ++ format_2f calculated_subtotal
                           ++ ") doesn't match stated subtotal ("
                           ++ format_2f stated_subtotal ++ ")")
         else ret tt
       else ret tt) ;;
      complete <- lift (all_present data ["subtotal"; "tax_amount"; "total_amount"]) ;;
      if complete then
        subtotal <- lift (bind (py_getitem data "subtotal") py_float) ;;
        tax_amount <- lift (bind (py_getitem data "tax_amount") py_float) ;;
        let expected_total := (subtotal + tax_amount)%Q in
        actual_total <- lift (bind (py_getitem data "total_amount") py_float) ;;
        if differs expected_total actual_total
        then add_warning ("Calculated total (" ++ format_2f expected_total
                          ++ ") doesn't match stated total ("
                          ++ format_2f actual_total ++ ")")
        else ret tt
      else ret tt
  | None => ret tt
  end.

Definition _validate_invoice_totals (data : pyval) : V unit :=
  try_except ValueError_or_TypeError
    (invoice_totals_checks data)
    (fun e => add_warning ("Could not validate total calculations: " ++ exn_msg e)).

Definition _validate_invoice (data : pyval) : V unit :=
  _check_required_fields data ["invoice_number"; "date"; "vendor"; "total_amount"] ;;
  has_date <- lift (py_in "date" data) ;;
  (if has_date then _validate_field_type data "date" "date" else ret tt) ;;
  has_due <- lift (py_in "due_date" data) ;;
  (if has_due then
     _validate_field_type data "due_date" "date" ;;
     has_date' <- lift (py_in "date" data) ;;
     both <- (if has_date' then
                d <- lift (py_getitem data "date") ;;
                if truthy d then
                  due <- lift (py_getitem data "due_date") ;;
                  ret (truthy due)
                else ret false
              else ret false) ;;
     if both then
       try_except is_ValueError
         (invoice_date <- lift (bind (py_getitem data "date")
                                     (fun v => py_strptime v fmt_Ymd_dash)) ;;
          due_date <- lift (bind (py_getitem data "due_date")
                                 (fun v => py_strptime v fmt_Ymd_dash)) ;;
          if date_ltb due_date invoice_date
          then add_error "Due date cannot be before invoice date"
          else ret tt)
         (fun _ => ret tt)
     else ret tt
   else ret tt) ;;
  validate_fields_of_type data ["total_amount"; "subtotal"; "tax_amount"] "amount" ;;
  items <- lift (list_field data "items") ;;
  (match items with
   | Some items => for_each_indexed 0 items (fun i item => _validate_invoice_item item i)
   | None => ret tt
   end) ;;
  _validate_invoice_totals data.

(** ** Predicates for stating what the arithmetic checks do *)

(** [float(v)] raises [ValueError] or [TypeError]: [v] is no number. *)
Definition non_numeric (v : pyval) : Prop :=
  exists e, py_float v = Raise e /\ ValueError_or_TypeError e = true.

(** [float(v)] does not overflow: [v] is not an integer beyond the range
    of floats. *)
Definition float_safe (v : pyval) : bool :=
  match v with
  | PInt z => negb (float_overflows z)
  | _ => true
  end.

(** None of the values the check of an item converts overflows. *)
Definition item_float_safe (item : pyval) : Prop :=
  forall field v,
    In field ["quantity"; "unit_price"; "total"] ->
    py_getitem item field = Ret v -> float_safe v = true.

(** None of the values the document-level checks convert overflows. *)
Definition totals_float_safe
           (d : list (string * pyval)) (items : list pyval) : Prop :=
  Forall (fun item => forall v, py_getitem item "total" = Ret v ->
                                float_safe v = true) items
  /\ (forall field v,
         In field ["subtotal"; "tax_amount"; "total_amount"] ->
         dict_get field d = Some v -> float_safe v = true).

(** An item whose [total] is present and not a number. *)
Definition bad_total (item : pyval) : Prop :=
  exists v, present item "total" = Ret true
            /\ py_getitem item "total" = Ret v /\ non_numeric v.

(** Some value the document-level checks read is not a number: the total
    of an item, the stated subtotal, or, when subtotal, tax amount and
    total amount are all present, one of the latter two. *)
Definition totals_involve_non_numeric
           (d : list (string * pyval)) (items : list pyval) : Prop :=
  Exists bad_total items
  \/ (exists v, dict_get "subtotal" d = Some v /\ is_none v = false
                /\ non_numeric v)
  \/ (all_present (PDict d) ["subtotal"; "tax_amount"; "total_amount"] = Ret true
      /\ exists field v, In field ["tax_amount"; "total_amount"]
                         /\ dict_get field d = Some v /\ non_numeric v).

(** ** Bills *)

(** [data.get('payments', 0)]; only a [dict] has [get]. *)
Definition get_payments (data : pyval) : outcome pyval :=
  match data with
  | PDict d => Ret (match dict_get "payments" d with
                    | Some v => v
                    | None => PInt 0
                    end)
  | _ => Raise (mk_exn AttributeError
                       ("'" ++ type_name data ++ "' object has no attribute 'get'"))
  end.

Definition _validate_bill_calculations (data : pyval) : V unit :=
  try_except ValueError_or_TypeError
    (complete <- lift (all_present data ["previous_balance"; "current_charges";
                                         "total_amount_due"]) ;;
     if complete then
       previous <- lift (bind (py_getitem data "previous_balance") py_float) ;;
       current <- lift (bind (py_getitem data "current_charges") py_float) ;;
       payments <- lift (bind (get_payments data) py_float) ;;
       stated_total <- lift (bind (py_getitem data "total_amount_due") py_float) ;;
       let expected_total := (previous + current - payments)%Q in
       if differs expected_total stated_total
       then add_warning ("Calculated total due (" ++ format_2f expected_total
                         ++ ") doesn't match stated total ("
                         ++ format_2f stated_total ++ ")")
       else ret tt
     else ret tt)
    (fun e => add_warning ("Could not validate bill calculations: " ++ exn_msg e)).

Definition _validate_bill (data : pyval) : V unit :=
  _check_required_fields data ["bill_number"; "statement_date";
                               "service_provider"; "total_amount_due"] ;;
  validate_fields_of_type data ["statement_date"; "due_date"] "date" ;;
  validate_fields_of_type data ["total_amount_due"; "previous_balance";
                                "current_charges"; "payments";
                                "minimum_payment"] "amount" ;;
  _validate_bill_calculations data.

(** ** Prescriptions *)

Definition _validate_medication (medication : pyval) (index : nat) : V unit :=
  for_each ["name"; "strength"; "quantity"; "directions"] (fun field =>
    has <- lift (py_in field medication) ;;
    missing <- (if has
                then v <- lift (py_getitem medication field) ;;
                     ret (negb (truthy v))
                else ret true) ;;
    if missing
    then add_error ("Medication " ++ str_of_nat index
                    ++ ": missing required field '" ++ field ++ "'")
    else ret tt).

Definition _validate_prescription (data : pyval) : V unit :=
  _check_required_fields data ["prescription_number"; "date_prescribed";
                               "doctor"; "patient"; "medications"] ;;
  validate_fields_of_type data ["date_prescribed"; "date_filled"] "date" ;;
  medications <- lift (list_field data "medications") ;;
  (match medications with
   | Some [] => add_error "At least one medication is required"
   | Some meds => for_each_indexed 0 meds (fun i m => _validate_medication m i)
   | None => ret tt
   end) ;;
  validate_fields_of_type data ["total_cost"; "insurance_covered"; "patient_pay"]
                          "amount".

Definition _validate_common_fields (data : pyval) : V unit :=
  has <- lift (py_in "currency" data) ;;
  if has then _validate_field_type data "currency" "currency" else ret tt.

(** ** The entry point *)

Definition initial_result : validation_result := mk_result true [] [] [].

(** The [try] block of [validate_document] and its [except Exception]
    handler, as one computation on the result. *)
Definition validate_document_steps (data : pyval) (doc_type : string) : V unit :=
  try_except any_Exception
    ((if String.eqb doc_type "invoice" then _validate_invoice data
      else if String.eqb doc_type "bill" then _validate_bill data
      else if String.eqb doc_type "prescription" then _validate_prescription data
      else ret tt) ;;
     _validate_common_fields data ;;
     r <- get ;;
     set_is_valid (match errors r with [] => true | _ => false end))
    (fun e =>
       add_error ("Validation error: " ++ exn_msg e) ;;
       set_is_valid false).

Definition validate_document (data : pyval) (doc_type : string)
  : outcome validation_result :=
  match validate_document_steps data doc_type initial_result with
  | (Ret _, validation_result) => Ret validation_result
  | (Raise e, _) => Raise e
  end.

End Validator.

(** The warnings of [r'] are those of [r]. *)
Definition same_warnings (r r' : validation_result) : Prop :=
  warnings r' = warnings r.

End DataValidator.

(* ================================================================== *)
(** * Sample texts, records and collaborators *)
(* ================================================================== *)

Module Samples.

Import PyStr Py DocumentClassifier.
Open Scope string_scope.

(** A text scoring seven bill keywords and nothing else: the heuristic
    confidence is exactly 0.7. *)
Definition seven_bill_keywords : string :=
  "statement usage gallons minutes kilowatt meter reading service period".

(** A collaborator that always answers "invoice". *)
Definition answers_invoice : model_service :=
  fun _ _ => Ret (PDict [("text", PStr "invoice")]).

(** A service that fails on every call. *)
Definition unavailable : string -> Z -> unit -> outcome string * unit :=
  fun _ _ s => (Raise (mk_exn OtherException "service unavailable"), s).

(** A service that always answers with an empty JSON object, and a parser
    that knows this one document. *)
Definition answers_empty_object : string -> Z -> unit -> outcome string * unit :=
  fun _ _ s => (Ret "{}", s).

Definition loads_empty_object (s : string) : outcome pyval :=
  if String.eqb s "{}" then Ret (PDict [])
  else Raise (mk_exn JSONDecodeError "Expecting value: line 1 column 1 (char 0)").

Definition fixed_prompt : string -> string -> pyval -> Z -> string :=
  fun _ _ _ _ => "Extract the key information from this document:".



(** [float] on plain decimal numerals ([-12], [150.0], [1500.25]); every
    other string is refused.  Used for the concrete records below. *)
Definition float_of_decimal (s : string) : option Q :=
  let digits := Re.plus Re.digit in
  let numeral := Re.seq [Re.opt (Re.chr "-"); digits;
                         Re.opt (Re.Cat (Re.chr ".") digits)] in
  if Re.fullmatch numeral s then
    let negative := String.prefix "-" s in
    let parts := split_on "." (remove_chars (is_char "-") s) in
    let whole := digits_value 0 (nth 0 parts "") in
    let fraction := nth 1 parts "" in
    let magnitude :=
      (inject_Z whole
       + inject_Z (digits_value 0 fraction)
         / inject_Z (10 ^ Z.of_nat (len fraction)))%Q in
    Some (if negative then (- magnitude)%Q else magnitude)
  else None.

(** Two decimals for a non-negative amount, rounding the exact value half
    up. *)
Definition two_decimals (q : Q) : string :=
  let cents := Qfloor (q * 100 + (1 # 2))%Q in
  let fraction := (cents mod 100)%Z in
  (str_of_Z (cents / 100) ++ "."
   ++ (if (fraction <? 10)%Z then "0" else "") ++ str_of_Z fraction)%string.

End Samples.

(* ================================================================== *)
(** * [utils/confidence.py]: document-level scores and the summary *)
(* ================================================================== *)

Module ConfidenceReport.

Import PyStr Py ConfidenceScorer.
Open Scope string_scope.
Open Scope Q_scope.

(** [list(d.values())] *)
Definition values (d : list (string * Q)) : list Q := map snd d.

Definition calculate_overall_confidence
    (field_confidences : list (string * Q))
    (required_fields : option (list string)) : Q :=
  match field_confidences with
  | [] => 0.0
  | _ :: _ =>
      let overall :=
        match required_fields with
        | Some ((_ :: _) as required) =>
            let required_scores :=
              values (filter (fun fc => in_list (fst fc) required)
                             field_confidences) in
            let optional_scores :=
              values (filter (fun fc => negb (in_list (fst fc) required))
                             field_confidences) in
            match required_scores with
            | _ :: _ =>
                let required_avg := mean required_scores in
                match optional_scores with
                | _ :: _ =>
                    let optional_avg := mean optional_scores in
                    0.7 * required_avg + 0.3 * optional_avg
                | [] => required_avg
                end
            | [] => mean (values field_confidences)
            end
        | _ => mean (values field_confidences)
        end in
      py_max 0.0 (py_min 1.0 overall)
  end.

(** [min(l)] and [max(l)] of a non-empty list, [0.0] standing for the
    guard [if field_confidences else 0.0]. *)
Definition min_of (l : list Q) : Q :=
  match l with
  | [] => 0.0
  | x :: l' => fold_left py_min l' x
  end.

Definition max_of (l : list Q) : Q :=
  match l with
  | [] => 0.0
  | x :: l' => fold_left py_max l' x
  end.

(** [len([c for c in l if test c])] *)
Definition count (test : Q -> bool) (l : list Q) : nat :=
  List.length (filter test l).

(** The dictionary [get_confidence_summary] returns; the three counts are
    its [confidence_distribution]. *)
Record summary : Type := mk_summary {
  overall_confidence : Q;
  field_count : nat;
  low_confidence_count : nat;
  low_confidence_fields : list (string * Q);
  high : nat;
  medium : nat;
  low : nat;
  average_confidence : Q;
  min_confidence : Q;
  max_confidence : Q
}.

Definition get_confidence_summary
    (low_confidence_threshold : Q)
    (field_confidences : list (string * Q)) (overall : Q) : summary :=
  let low_fields :=
    identify_low_confidence_fields low_confidence_threshold field_confidences in
  let scores := values field_confidences in
  mk_summary
    overall
    (List.length field_confidences)
    (List.length low_fields)
    low_fields
    (count (fun c => Qle_bool 0.8 c) scores)
    (count (fun c => Qle_bool 0.5 c && Qltb c 0.8) scores)
    (count (fun c => Qltb c 0.5) scores)
    (match field_confidences with [] => 0.0 | _ :: _ => mean scores end)
    (min_of scores)
    (max_of scores).

(** Every score of the list lies between [lo] and [hi]. *)
Definition all_between (lo hi : Q) (l : list Q) : Prop :=
  Forall (fun x => lo <= x /\ x <= hi) l.

End ConfidenceReport.

(* ================================================================== *)
(** * [utils/extractor.py]: [extract_structured_data] *)
(* ================================================================== *)

Module StructuredExtraction.

Import PyStr Re Py GeminiExtractor DataValidator.
Open Scope string_scope.
Local Open Scope py_scope.

(** The dictionary [extract_structured_data] returns; an entry it leaves
    out is [None].  [metadata] is the response of the service, or [None]
    for the empty dictionary of the last handler. *)
Record extraction : Type := mk_extraction {
  data : pyval;
  success : bool;
  error : option string;
  warning : option string;
  raw_response : option string;
  metadata : option response
}.

(** [container[key] = value] for a string subscript. *)
Definition py_setitem (container : pyval) (key : string) (value : pyval)
  : outcome pyval :=
  match container with
  | PDict d => Ret (PDict (dict_set key value d))
  | PList _ => Raise (mk_exn TypeError
                             "list indices must be integers or slices, not str")
  | _ => Raise (mk_exn TypeError
                       ("'" ++ type_name container
                        ++ "' object does not support item assignment"))
  end.

(** [if 'document_type' not in extracted_data:
       extracted_data['document_type'] = doc_type] *)
Definition with_document_type (extracted_data : pyval) (doc_type : string)
  : outcome pyval :=
  bind (py_in "document_type" extracted_data) (fun has =>
  if has then Ret extracted_data
  else py_setitem extracted_data "document_type" (PStr doc_type)).

Section Extraction.

Variable service : Type.
Variable generate_content : string -> Z -> service -> outcome string * service.
Variable GEMINI_MAX_TOKENS : Z.

(** [json.loads]; it may raise [json.JSONDecodeError] and other
    exceptions. *)
Variable json_loads : string -> outcome pyval.

(** [PromptTemplates.get_extraction_prompt] serialises the schema and may
    raise. *)
Variable get_extraction_prompt : string -> string -> pyval -> outcome string.

Definition extract_structured_data (text doc_type : string) (schema : pyval)
  : M service extraction :=
  try_except any_Exception
    (prompt <- lift (get_extraction_prompt text doc_type schema) ;;
     response <- call_gemini generate_content GEMINI_MAX_TOKENS prompt None ;;
     match response_error response with
     | Some err =>
         ret (mk_extraction PNone false (Some err) None None (Some response))
     | None =>
         try_except is_JSONDecodeError
           (extracted_data <- loads json_loads (response_text response) ;;
            extracted_data <- lift (with_document_type extracted_data doc_type) ;;
            ret (mk_extraction extracted_data true None None None
                               (Some response)))
           (fun e =>
              let invalid :=
                mk_extraction PNone false
                  (Some ("Invalid JSON response: " ++ exn_msg e))
                  None (Some (response_text response)) (Some response) in
              match _extract_json_from_text (response_text response) with
              | Some cleaned_json =>
                  (* a bare [except:] *)
                  try_except any_Exception
                    (extracted_data <- loads json_loads cleaned_json ;;
                     extracted_data <-
                       lift (with_document_type extracted_data doc_type) ;;
                     ret (mk_extraction extracted_data true None
                            (Some "JSON extracted from mixed response")
                            None (Some response)))
                    (fun _ => ret invalid)
              | None => ret invalid
              end)
     end)
    (fun e => ret (mk_extraction PNone false (Some (exn_msg e)) None None None)).

End Extraction.

(** A record that carries its document type, or is no mapping at all. *)
Definition names_its_type (v : pyval) : Prop :=
  match v with
  | PDict d => dict_has "document_type" d = true
  | PNone => False
  | _ => True
  end.



End StructuredExtraction.

(* ================================================================== *)
(** * [utils/validation.py]: what the validators do to a result *)
(* ================================================================== *)

Module ValidationInvariants.

Import PyStr Py DataValidator.
Open Scope string_scope.
Open Scope list_scope.

(** The errors and the warnings of [r'] are those of [r], in their order,
    followed by further ones. *)
Definition only_appends (r r' : validation_result) : Prop :=
  (exists more, errors r' = errors r ++ more)
  /\ (exists more, warnings r' = warnings r ++ more).

(** Whether it returns or raises, [m] leaves a result related to the one
    it was handed. *)
Definition keeps (R : validation_result -> validation_result -> Prop)
           (A : Type) (m : V A) : Prop :=
  forall r, R r (snd (m r)).

(** [field not in data or data[field] is None or data[field] == ""] for a
    mapping. *)
Definition missing (d : list (string * pyval)) (field : string) : bool :=
  match dict_get field d with
  | Some v => is_none v || is_empty_str v
  | None => true
  end.

(** The [required_fields] lists of [_validate_invoice], [_validate_bill]
    and [_validate_prescription]. *)
Definition required_fields : list (string * list string) :=
  [("invoice", ["invoice_number"; "date"; "vendor"; "total_amount"]);
   ("bill", ["bill_number"; "statement_date"; "service_provider";
             "total_amount_due"]);
   ("prescription", ["prescription_number"; "date_prescribed"; "doctor";
                     "patient"; "medications"])].

Definition missing_message (field : string) : string :=
  "Required field '" ++ field ++ "' is missing or empty".

(** [m] returns [a] whatever result it is handed. *)
Definition returns (A : Type) (a : A) (m : V A) : Prop :=
  forall r, exists r', m r = (Ret a, r').

(** [m] returns [a] and leaves [msg] among the errors. *)
Definition reports (msg : string) (A : Type) (a : A) (m : V A) : Prop :=
  forall r, exists r', m r = (Ret a, r') /\ In msg (errors r').

(** Whether [m] returns or raises, [msg] is among the errors it leaves. *)
Definition mentions (msg : string) (A : Type) (m : V A) : Prop :=
  forall r, In msg (errors (snd (m r))).

(** [field not in data or data[field] is None] for a mapping. *)
Definition absent_or_null (d : list (string * pyval)) (field : string) : bool :=
  match dict_get field d with
  | Some v => is_none v
  | None => true
  end.

(** Two patterns of the same shape whose character classes hold the same
    characters. *)
Fixpoint same_classes (r1 r2 : Re.regex) : Prop :=
  match r1, r2 with
  | Re.Void, Re.Void => True
  | Re.Eps, Re.Eps => True
  | Re.Class p, Re.Class q => forall c, p c = q c
  | Re.Cat a b, Re.Cat a' b' => same_classes a a' /\ same_classes b b'
  | Re.Alt a b, Re.Alt a' b' => same_classes a a' /\ same_classes b b'
  | Re.Star a, Re.Star a' => same_classes a a'
  | _, _ => False
  end.

End ValidationInvariants.

(* ================================================================== *)
(** * [main.py]: field paths and the scoring loop *)
(* ================================================================== *)

Module FieldPaths.

Import PyStr Py DataValidator ConfidenceScorer.
Open Scope string_scope.

(** [str.isdigit] on one character of the repertoire: the decimal digits
    and the superscripts two, three and one. *)
Definition is_digit_char (c : ascii) : bool :=
  is_digit c || (code c =? 178)%N || (code c =? 179)%N || (code c =? 185)%N.

Fixpoint all_chars (p : ascii -> bool) (s : string) : bool :=
  match s with
  | EmptyString => true
  | String c s' => p c && all_chars p s'
  end.

(** [part.isdigit()] *)
Definition isdigit (part : string) : bool :=
  negb (String.eqb part "") && all_chars is_digit_char part.

(** [value[i]] for an integer [i >= 0]; [None] when the subscript raises,
    which it does with [KeyError] on a mapping (its keys are strings), with
    [IndexError] out of range and with [TypeError] on a value that has no
    items. *)
Definition item_at (value : pyval) (i : Z) : option pyval :=
  match value with
  | PList l => nth_error l (Z.to_nat i)
  | PStr s => match String.get (Z.to_nat i) s with
              | Some c => Some (PStr (String c EmptyString))
              | None => None
              end
  | _ => None
  end.

(** [value[part]] for a string; [None] when the subscript raises, with
    [KeyError] or [TypeError]. *)
Definition item_of (value : pyval) (part : string) : option pyval :=
  match py_getitem value part with
  | Ret v => Some v
  | Raise _ => None
  end.

Section Lookup.

(** [sys.get_int_max_str_digits()]; [None] for an interpreter without the
    limit. *)
Variable int_max_str_digits : option nat.

(** [int(part)] for a part that [isdigit]. *)
Definition py_int (part : string) : outcome Z :=
  if negb (all_chars is_digit part)
  then Raise (mk_exn ValueError
                     ("invalid literal for int() with base 10: '" ++ part ++ "'"))
  else
    match int_max_str_digits with
    | Some limit =>
        if (limit <? len part)%nat
        then Raise (mk_exn ValueError
                           ("Exceeds the limit (" ++ str_of_nat limit
                            ++ " digits) for integer string conversion: value has "
                            ++ str_of_nat (len part)
                            ++ " digits; use sys.set_int_max_str_digits() to increase the limit"))
        else Ret (digits_value 0 part)
    | None => Ret (digits_value 0 part)
    end.

(** The loop over the parts of the path; [None] when a subscript raised
    one of the exceptions of the [except] clause. *)
Fixpoint descend (parts : list string) (value : pyval)
  : outcome (option pyval) :=
  match parts with
  | [] => Ret (Some value)
  | part :: parts' =>
      if isdigit part then
        bind (py_int part) (fun i =>
        match item_at value i with
        | Some v => descend parts' v
        | None => Ret None
        end)
      else
        match item_of value part with
        | Some v => descend parts' v
        | None => Ret None
        end
  end.

Definition _get_nested_value (data : pyval) (field_path : string)
  : outcome pyval :=
  bind (descend (split_on "." field_path) data) (fun found =>
  Ret (match found with
       | Some value => value
       | None => PNone
       end)).

(** Following the parts of a path from [value] leads to [found]: every
    part that [isdigit] converts to a position that holds an item, and
    every other part is a key that holds one. *)
Inductive reaches : list string -> pyval -> pyval -> Prop :=
| reaches_here (value : pyval) : reaches [] value value
| reaches_position (part : string) (parts : list string)
                   (value item found : pyval) (i : Z) :
    isdigit part = true ->
    py_int part = Ret i ->
    item_at value i = Some item ->
    reaches parts item found ->
    reaches (part :: parts) value found
| reaches_key (part : string) (parts : list string)
              (value item found : pyval) :
    isdigit part = false ->
    item_of value part = Some item ->
    reaches parts item found ->
    reaches (part :: parts) value found.

(** [str(value)] for a value that is not a string. *)
Variable repr : pyval -> string.

(** The loop of [process_document_cli] that scores every field path the
    model assessed, filling [field_confidences]. *)
Fixpoint score_fields (extracted_data : pyval) (text : string)
         (gemini_confidences : list (string * Q))
         (field_confidences : list (string * Q))
  : outcome (list (string * Q)) :=
  match gemini_confidences with
  | [] => Ret field_confidences
  | (field_path, gemini_conf) :: rest =>
      bind (_get_nested_value extracted_data field_path) (fun field_value =>
      let confidence :=
        calculate_field_confidence repr field_path field_value text
                                   (Some gemini_conf) in
      score_fields extracted_data text rest
                   (dict_set field_path confidence field_confidences))
  end.

End Lookup.

End FieldPaths.

(* ================================================================== *)
(** * [utils/validation.py]: [suggest_corrections] *)
(* ================================================================== *)

Module Suggestions.

Import PyStr Re Py DataValidator.
Open Scope string_scope.
Local Open Scope py_scope.

(** The [suggestions] dictionary. *)
Record suggestions : Type := mk_suggestions {
  field_corrections : list (string * string);
  general_suggestions : list string
}.

Definition add_suggestion (msg : string) : M suggestions unit :=
  modify (fun s => mk_suggestions (field_corrections s)
                                  (general_suggestions s ++ [msg])).

Definition set_correction (field correction : string) : M suggestions unit :=
  modify (fun s => mk_suggestions (dict_set field correction (field_corrections s))
                                  (general_suggestions s)).

(** [re.match(r, s)]: [r] matches a prefix of [s]. *)
Definition match_prefix (r : regex) (s : string) : bool :=
  fullmatch (Cat r (Star any)) s.

Fixpoint zeros (n : nat) : string :=
  match n with
  | O => EmptyString
  | S n' => String "0" (zeros n')
  end.

(** [s.zfill(width)]: zeros go after a leading sign. *)
Definition zfill (width : nat) (s : string) : string :=
  if (width <=? len s)%nat then s
  else
    let fill := zeros (width - len s) in
    match s with
    | String c rest =>
        if is_char "+" c || is_char "-" c then String c (fill ++ rest)
        else fill ++ s
    | EmptyString => fill
    end.

Definition use_iso_format : string :=
  "Use YYYY-MM-DD format (e.g., 2024-03-15)".

Definition _suggest_date_correction (value : pyval) : outcome string :=
  match value with
  | PStr s =>
      (* \d{1,2}/\d{1,2}/\d{4} *)
      if match_prefix (seq [rep_range 1 2 digit; chr "/"; rep_range 1 2 digit;
                            chr "/"; rep 4 digit]) s
      then match split_on "/" s with
           | [month; day; year] =>
               Ret ("Try format: " ++ year ++ "-" ++ zfill 2 month
                    ++ "-" ++ zfill 2 day)
           | _ => Ret use_iso_format
           end
      else Ret use_iso_format
  | _ => Raise (mk_exn TypeError
                       ("expected string or bytes-like object, got '"
                        ++ type_name value ++ "'"))
  end.

Section Suggest.

(** [float(s)] for a string; [None] stands for [ValueError]. *)
Variable float_of_str : string -> option Q.

(** [str(x)] of a float, as an f-string renders it. *)
Variable str_of_float : Q -> string.

Definition amount_character (c : ascii) : bool :=     (* [\d\.\-] *)
  is_digit c || is_char "." c || is_char "-" c.

Definition _suggest_amount_correction (value : pyval) : string :=
  match value with
  | PStr s =>
      let cleaned := remove_chars (fun c => negb (amount_character c)) s in
      match float_of_str cleaned with
      | Some amount =>
          if Qltb amount 0
          then "Use positive value: " ++ str_of_float (Qabs amount)
          else "Use numeric format: " ++ str_of_float amount
      | None => "Use numeric format (e.g., 123.45)"
      end
  | _ => "Use numeric format (e.g., 123.45)"
  end.

(** The body of the loop over the errors. *)
Definition error_step (error : string) : M suggestions unit :=
  (if contains "date" (lower error) && contains "format" (lower error)
   then add_suggestion
          "Check date formats - ensure they are in YYYY-MM-DD format"
   else ret tt) ;;
  (if contains "amount" (lower error) && contains "negative" (lower error)
   then add_suggestion "Ensure all monetary amounts are positive values"
   else ret tt) ;;
  (if contains "missing" (lower error) || contains "required" (lower error)
   then add_suggestion "Review the document for missing required information"
   else ret tt).

(** The body of the loop over the field validations. *)
Definition field_step (entry : string * field_validation)
  : M suggestions unit :=
  let '(field, validation_info) := entry in
  if negb (fv_is_valid validation_info) then
    if String.eqb (fv_type validation_info) "date" then
      correction <- lift (_suggest_date_correction (fv_value validation_info)) ;;
      set_correction field correction
    else if String.eqb (fv_type validation_info) "amount" then
      set_correction field
        (_suggest_amount_correction (fv_value validation_info))
    else ret tt
  else ret tt.

Definition suggest_corrections (validation_result : validation_result)
  : suggestions :=
  snd
    (try_except any_Exception
       (for_each (errors validation_result) error_step ;;
        for_each (field_validations validation_result) field_step)
       (fun _ =>
          add_suggestion
            "Unable to generate specific suggestions due to an error")
       (mk_suggestions [] [])).

End Suggest.

(** An entry of [field_validations] that makes the date suggestion raise:
    an invalid date whose value is not a string. *)
Definition breaks_suggestions (entry : string * field_validation) : bool :=
  negb (fv_is_valid (snd entry))
  && String.eqb (fv_type (snd entry)) "date"
  && match fv_value (snd entry) with PStr _ => false | _ => true end.

(** An entry of [field_validations] for which a correction is looked up. *)
Definition needs_correction (entry : string * field_validation) : Prop :=
  fv_is_valid (snd entry) = false
  /\ (fv_type (snd entry) = "date" \/ fv_type (snd entry) = "amount").

Definition unable_to_suggest : string :=
  "Unable to generate specific suggestions due to an error".

End Suggestions.

(* ================================================================== *)
(** * Further sample data *)
(* ================================================================== *)

Module MoreSamples.

Import PyStr Py.
Open Scope string_scope.

(** The score table of the unit test of the overall confidence. *)
Definition sample_scores : list (string * Q) :=
  [("invoice_number", 0.9%Q); ("date", 0.8%Q); ("amount", 0.85%Q);
   ("vendor.name", 0.7%Q)].

(** An invoice whose date is empty and whose vendor and total are not
    given. *)
Definition invoice_without_date : list (string * pyval) :=
  [("invoice_number", PStr "INV-1"); ("date", PStr "")].

(** An invoice due before it was issued. *)
Definition invoice_due_too_early : list (string * pyval) :=
  [("invoice_number", PStr "INV-2"); ("date", PStr "2024-03-15");
   ("due_date", PStr "2024-03-01")].

(** A prescription that lists no medication. *)
Definition prescription_without_medication : list (string * pyval) :=
  [("prescription_number", PStr "RX-1"); ("medications", PList [])].

End MoreSamples.

(* ================================================================== *)
(** * Facts about numbers, texts and patterns *)
(* ================================================================== *)

Module BasicFacts.

Import PyStr Re Py.
Open Scope string_scope.

Lemma Qltb_true (x y : Q) : Qltb x y = true <-> (x < y)%Q.
Proof.
  unfold Qltb. rewrite negb_true_iff.
  split; intro H.
  - apply Qnot_le_lt. intro Hle. apply Qle_bool_iff in Hle. congruence.
  - destruct (Qle_bool y x) eqn:E; [|reflexivity].
    apply Qle_bool_iff in E. exfalso. apply (Qlt_not_le _ _ H E).
Qed.

Lemma Qltb_false (x y : Q) : Qltb x y = false <-> (y <= x)%Q.
Proof.
  unfold Qltb. rewrite negb_false_iff. apply Qle_bool_iff.
Qed.


Lemma fullmatch_Void (s : string) : fullmatch Void s = false.
Proof. induction s as [|c s IH]; [reflexivity|exact IH]. Qed.

Lemma is_char_eq (x c : ascii) : is_char x c = true -> c = x.
Proof. unfold is_char. intro H. apply Ascii.eqb_eq in H. auto. Qed.

Lemma rejects_cat (c : ascii) (r1 r2 : regex) :
  rejects c r1 = true -> rejects c r2 = true -> rejects c (cat r1 r2) = true.
Proof.
  intros H1 H2. destruct r1, r2; cbn [cat rejects] in *; auto;
    rewrite ?H1, ?H2; reflexivity.
Qed.

Lemma rejects_alt (c : ascii) (r1 r2 : regex) :
  rejects c r1 = true -> rejects c r2 = true -> rejects c (alt r1 r2) = true.
Proof.
  intros H1 H2. destruct r1, r2; cbn [alt rejects] in *; auto;
    rewrite ?H1, ?H2; reflexivity.
Qed.

Lemma rejects_deriv (c x : ascii) (r : regex) :
  rejects c r = true -> rejects c (deriv x r) = true.
Proof.
  induction r as [| |p|r1 IH1 r2 IH2|r1 IH1 r2 IH2|r1 IH1];
    cbn [rejects deriv]; intro H; auto.
  - destruct (p x); reflexivity.
  - apply andb_true_iff in H. destruct H as [H1 H2].
    destruct (nullable r1).
    + apply rejects_alt; [apply rejects_cat|]; auto.
    + apply rejects_cat; auto.
  - apply andb_true_iff in H. destruct H as [H1 H2].
    apply rejects_alt; auto.
  - apply rejects_cat; auto.
Qed.

Lemma deriv_rejected (c : ascii) (r : regex) :
  rejects c r = true -> deriv c r = Void.
Proof.
  induction r as [| |p|r1 IH1 r2 IH2|r1 IH1 r2 IH2|r1 IH1];
    cbn [rejects deriv]; intro H; auto.
  - apply negb_true_iff in H. rewrite H. reflexivity.
  - apply andb_true_iff in H. destruct H as [H1 H2].
    rewrite (IH1 H1), (IH2 H2). destruct (nullable r1); reflexivity.
  - apply andb_true_iff in H. destruct H as [H1 H2].
    rewrite (IH1 H1), (IH2 H2). reflexivity.
  - rewrite (IH1 H). reflexivity.
Qed.

(** A pattern none of whose classes admits [c] matches no text in which
    [c] occurs. *)
Lemma fullmatch_rejects (c : ascii) (s : string) :
  forall r, rejects c r = true -> has_char (is_char c) s = true ->
            fullmatch r s = false.
Proof.
  induction s as [|x s IH]; intros r Hr Hc; [discriminate|].
  cbn [has_char] in Hc. cbn [fullmatch].
  destruct (is_char c x) eqn:Hx.
  - apply is_char_eq in Hx. subst x.
    rewrite (deriv_rejected _ _ Hr). apply fullmatch_Void.
  - apply IH; [apply rejects_deriv; exact Hr|exact Hc].
Qed.

(** [c in s] for a single character. *)
Lemma contains_char (c : ascii) (s : string) :
  contains (String c "") s = has_char (is_char c) s.
Proof.
  induction s as [|x s IH]; [reflexivity|].
  cbn [contains has_char String.prefix]. unfold is_char.
  destruct (ascii_dec c x) as [->|Hne].
  - rewrite Ascii.eqb_refl. destruct s; reflexivity.
  - apply Ascii.eqb_neq in Hne. rewrite Hne. exact IH.
Qed.

Lemma digit_is_not (c x : ascii) :
  is_digit c = false -> is_digit x = true -> is_char c x = false.
Proof.
  intros Hc Hx. destruct (is_char c x) eqn:E; [|reflexivity].
  apply is_char_eq in E. subst. congruence.
Qed.

(** A text with a newline in it is no date in any of the formats. *)
Lemma strptime_rejects_newline (fmt : list PyDate.fmt_item) (s : string) :
  rejects newline (PyDate.format_regex fmt) = true ->
  has_char (is_char newline) s = true ->
  PyDate.strptime s fmt = None.
Proof.
  intros Hr Hs. unfold PyDate.strptime.
  rewrite (fullmatch_rejects _ _ _ Hr Hs). reflexivity.
Qed.

End BasicFacts.

(* ================================================================== *)
(** * Properties of the confidence scorer *)
(* ================================================================== *)

Module ConfidenceScorerProofs.

Import PyStr Re Py PyDate ConfidenceScorer BasicFacts.
Open Scope Q_scope.

(** The final clamp lands in the unit interval whatever it is given. *)
Lemma clamp_range (x : Q) : 0 <= py_max 0.0 (py_min 1.0 x) <= 1.
Proof.
  unfold py_max, py_min.
  destruct (Qltb x 1.0) eqn:Hmin.
  - apply Qltb_true in Hmin.
    destruct (Qltb 0.0 x) eqn:Hmax.
    + apply Qltb_true in Hmax. lra.
    + lra.
  - destruct (Qltb 0.0 1.0) eqn:Hmax; lra.
Qed.

(** C1.  For every field path, value, source text and optional model
    confidence, [calculate_field_confidence] yields a score between 0.0 and
    1.0, and the score of a null value is exactly 0.0. *)
Theorem calculate_field_confidence_in_unit_interval :
  forall (repr : pyval -> string) (field_path : string) (value : pyval)
         (original_text : string) (gemini_confidence : option Q),
    (0 <= calculate_field_confidence repr field_path value original_text
                                     gemini_confidence <= 1)
    /\ calculate_field_confidence repr field_path PNone original_text
                                  gemini_confidence = 0.0.
Proof.
  intros repr field_path value original_text gemini_confidence.
  split; [|reflexivity].
  unfold calculate_field_confidence.
  destruct (is_none value).
  - lra.
  - apply clamp_range.
Qed.

(** ** Low-confidence fields *)

Lemma insert_by_score_perm (x : string * Q) (l : list (string * Q)) :
  Permutation (x :: l) (insert_by_score x l).
Proof.
  induction l as [|y l IH]; simpl.
  - apply Permutation_refl.
  - destruct (Qle_bool (snd x) (snd y)).
    + apply Permutation_refl.
    + eapply perm_trans; [apply perm_swap|].
      apply perm_skip, IH.
Qed.

Lemma sort_by_score_perm (l : list (string * Q)) :
  Permutation l (sort_by_score l).
Proof.
  induction l as [|x l IH]; simpl.
  - constructor.
  - eapply perm_trans; [apply perm_skip, IH|].
    apply insert_by_score_perm.
Qed.

Lemma insert_by_score_sorted (x : string * Q) (l : list (string * Q)) :
  StronglySorted score_le l -> StronglySorted score_le (insert_by_score x l).
Proof.
  induction 1 as [|y l Hsorted IH Hall]; simpl.
  - repeat constructor.
  - destruct (Qle_bool (snd x) (snd y)) eqn:Hxy.
    + apply Qle_bool_iff in Hxy.
      constructor; [constructor; assumption|].
      constructor; [exact Hxy|].
      eapply Forall_impl; [|exact Hall].
      intros z Hz. unfold score_le in *. lra.
    + assert (Hyx : snd y <= snd x).
      { destruct (Qlt_le_dec (snd y) (snd x)) as [Hlt|Hle].
        - lra.
        - apply Qle_bool_iff in Hle. congruence. }
      constructor; [exact IH|].
      eapply Permutation_Forall; [apply insert_by_score_perm|].
      constructor; assumption.
Qed.

Lemma sort_by_score_sorted (l : list (string * Q)) :
  StronglySorted score_le (sort_by_score l).
Proof.
  induction l as [|x l IH]; simpl.
  - constructor.
  - apply insert_by_score_sorted, IH.
Qed.

(** C7.  [identify_low_confidence_fields] returns exactly the entries whose
    score is strictly below the threshold, each as often as it occurs, in
    ascending order of score; in particular an entry whose score equals the
    threshold is left out. *)
Theorem identify_low_confidence_fields_exact_and_sorted :
  forall (threshold : Q) (field_confidences : list (string * Q)),
    let low := identify_low_confidence_fields threshold field_confidences in
    (forall path score,
        In (path, score) low
        <-> In (path, score) field_confidences /\ score < threshold)
    /\ Permutation low
         (filter (fun fc => Qltb (snd fc) threshold) field_confidences)
    /\ StronglySorted score_le low
    /\ (forall path score,
           In (path, score) low -> ~ score == threshold).
Proof.
  intros threshold field_confidences low.
  assert (Hperm : Permutation low
            (filter (fun fc => Qltb (snd fc) threshold) field_confidences)).
  { apply Permutation_sym, sort_by_score_perm. }
  assert (Hin : forall path score,
             In (path, score) low
             <-> In (path, score) field_confidences /\ score < threshold).
  { intros path score. split.
    - intro H. apply (Permutation_in _ Hperm) in H.
      apply filter_In in H. destruct H as [H Hlt].
      split; [exact H|]. apply Qltb_true in Hlt. exact Hlt.
    - intros [H Hlt].
      apply (Permutation_in _ (Permutation_sym Hperm)).
      apply filter_In. split; [exact H|]. apply Qltb_true. exact Hlt. }
  split; [exact Hin|].
  split; [exact Hperm|].
  split; [apply sort_by_score_sorted|].
  intros path score H Heq. apply Hin in H. destruct H as [_ Hlt].
  rewrite Heq in Hlt. apply (Qlt_irrefl _ Hlt).
Qed.

(** The scenario of the specification: threshold 0.7, scores 0.9, 0.7, 0.6
    and 0.5. *)
Example identify_low_confidence_fields_scenario :
  identify_low_confidence_fields 0.7
    [("high", 0.9); ("med", 0.7); ("low1", 0.6); ("low2", 0.5)]
  = [("low2", 0.5); ("low1", 0.6)].
Proof. reflexivity. Qed.


(** ** The date sub-check *)

Open Scope string_scope.

(** The sub-check on the sample values of the unit tests. *)
Example date_confidence_samples :
  map _date_confidence
      [PStr "2024-03-15"; PStr "03/15/2024"; PStr "2024-13-45";
       PStr "March 15, 2024"; PStr "invalid-date"; PInt 20240315]
  = [0.9; 0.9; 0.4; 0.6; 0.2; 0.3]%Q.
Proof. vm_compute. reflexivity. Qed.

(** Reading a hypothesis [H : match_anchored pattern s = true] for one of
    the date patterns: the ten characters, then the optional final
    newline. *)
Ltac regex_normal H :=
  cbv [match_anchored pat_ymd pat_mdy_slash pat_mdy_dash
       seq rep opt chr digit plus] in H.

Ltac class_step H s c Hc :=
  destruct s as [|c s]; [discriminate H|];
  cbn [fullmatch deriv nullable cat alt andb orb] in H;
  match type of H with
  | context [if ?p c then _ else _] => destruct (p c) eqn:Hc
  end;
  cbn [fullmatch deriv nullable cat alt andb orb] in H;
  [| rewrite ?fullmatch_Void in H; discriminate H].

Ltac final_newline H s c Hc :=
  cbn [fullmatch deriv nullable cat alt andb orb] in H;
  match type of H with
  | context [if ?p c then _ else _] => destruct (p c) eqn:Hc
  end;
  cbn [fullmatch deriv nullable cat alt andb orb] in H;
  [| rewrite ?fullmatch_Void in H; discriminate H];
  destruct s; [| cbn in H; rewrite ?fullmatch_Void in H; discriminate H].

Ltac date_shape H s :=
  regex_normal H;
  let c1 := fresh "c" in let c2 := fresh "c" in let c3 := fresh "c" in
  let c4 := fresh "c" in let c5 := fresh "c" in let c6 := fresh "c" in
  let c7 := fresh "c" in let c8 := fresh "c" in let c9 := fresh "c" in
  let c10 := fresh "c" in let c11 := fresh "c" in
  let H1 := fresh "Hc" in let H2 := fresh "Hc" in let H3 := fresh "Hc" in
  let H4 := fresh "Hc" in let H5 := fresh "Hc" in let H6 := fresh "Hc" in
  let H7 := fresh "Hc" in let H8 := fresh "Hc" in let H9 := fresh "Hc" in
  let H10 := fresh "Hc" in let H11 := fresh "Hc" in
  class_step H s c1 H1; class_step H s c2 H2; class_step H s c3 H3;
  class_step H s c4 H4; class_step H s c5 H5; class_step H s c6 H6;
  class_step H s c7 H7; class_step H s c8 H8; class_step H s c9 H9;
  class_step H s c10 H10;
  (destruct s as [|c11 s]; [| final_newline H s c11 H11 ]);
  repeat match goal with
         | Hx : is_char _ _ = true |- _ => apply is_char_eq in Hx; subst
         end.

(** Character tests: on concrete characters by computation, on a digit by
    the hypothesis that it is one. *)
Ltac char_tests :=
  repeat match goal with
         | Hd : is_digit ?x = true |- context [is_digit ?x] => rewrite Hd
         | Hd : is_digit ?x = true |- context [is_char ?a ?x] =>
             rewrite (digit_is_not a x eq_refl Hd)
         | |- context [is_char ?a ?b] =>
             tryif is_var b then fail else
               (let v := eval vm_compute in (is_char a b) in
                change (is_char a b) with v)
         | |- context [is_digit ?b] =>
             tryif is_var b then fail else
               (let v := eval vm_compute in (is_digit b) in
                change (is_digit b) with v)
         end.

Ltac run_fullmatch :=
  repeat (progress (cbn [fullmatch deriv nullable cat alt andb orb negb];
                    char_tests));
  rewrite ?fullmatch_Void.

Ltac separators_and_length :=
  unfold date_parse_score; rewrite !contains_char;
  cbn [has_char len String.length Nat.eqb]; char_tests;
  cbn [orb andb negb].

Ltac has_final_newline :=
  rewrite strptime_rejects_newline;
  [reflexivity | reflexivity
   | cbn [has_char]; char_tests; rewrite ?orb_true_r; reflexivity].

(** A value matching YYYY-MM-DD is scored by its parse in that format,
    unless a final newline made it eleven characters long. *)
Lemma date_parse_score_ymd (s : string) :
  match_anchored pat_ymd s = true ->
  date_parse_score s
  = if (len s =? 10)%nat
    then match strptime s fmt_Ymd_dash with Some _ => 0.9 | None => 0.4 end
    else 0.4.
Proof.
  intro H. date_shape H s.
  - separators_and_length. destruct (strptime _ _); reflexivity.
  - separators_and_length. has_final_newline.
Qed.

(** A value matching MM/DD/YYYY is scored by its parse in that format. *)
Lemma date_parse_score_mdy_slash (s : string) :
  match_anchored pat_mdy_slash s = true ->
  date_parse_score s
  = match strptime s fmt_mdY_slash with Some _ => 0.9 | None => 0.4 end.
Proof.
  intro H. date_shape H s.
  - separators_and_length. destruct (strptime _ _); reflexivity.
  - separators_and_length. destruct (strptime _ _); reflexivity.
Qed.

(** A value matching MM-DD-YYYY is never parsed in that format: with ten
    characters it is read as YYYY-MM-DD, which fails at the third
    character; with a final newline no format accepts it. *)
Lemma date_parse_score_mdy_dash (s : string) :
  match_anchored pat_mdy_dash s = true -> date_parse_score s = 0.4.
Proof.
  intro H. date_shape H s.
  - separators_and_length.
    unfold strptime.
    cbv [format_regex fmt_Ymd_dash map directive_regex seq rep chr digit
         one_to_nine].
    run_fullmatch. reflexivity.
  - separators_and_length. has_final_newline.
Qed.

(** The date sub-check, pattern by pattern. *)
Lemma date_confidence_by_pattern (s : string) :
  (match_anchored pat_ymd s = true ->
   _date_confidence (PStr s)
   = if (len s =? 10)%nat
     then match strptime s fmt_Ymd_dash with Some _ => 0.9 | None => 0.4 end
     else 0.4)
  /\ (match_anchored pat_mdy_slash s = true ->
      _date_confidence (PStr s)
      = match strptime s fmt_mdY_slash with Some _ => 0.9 | None => 0.4 end)
  /\ (match_anchored pat_mdy_dash s = true ->
      _date_confidence (PStr s) = 0.4)
  /\ (existsb (fun pattern => match_anchored pattern s) date_patterns = false ->
      _date_confidence (PStr s)
      = if search (rep 4 digit) s && search (rep_range 1 2 digit) s
        then 0.6 else 0.2).
Proof.
  unfold _date_confidence. cbn [existsb date_patterns].
  repeat split; intro H.
  - rewrite H. cbn [orb]. apply date_parse_score_ymd. exact H.
  - rewrite H, orb_true_r. cbn [orb]. apply date_parse_score_mdy_slash. exact H.
  - rewrite H, !orb_true_r. apply date_parse_score_mdy_dash. exact H.
  - rewrite H. reflexivity.
Qed.

(** C2.  The value "03-15-2024" matches the MM-DD-YYYY pattern and is the
    valid calendar date 15 March 2024 when read in that format, yet the date
    sub-check returns 0.4 and not 0.9: a ten-character value with a dash is
    always parsed as YYYY-MM-DD, so the MM-DD-YYYY parse is never tried. *)
Theorem date_confidence_rejects_valid_mdy_dash_date :
  match_anchored pat_mdy_dash "03-15-2024" = true
  /\ strptime "03-15-2024" fmt_mdY_dash = Some (mk_date 2024 3 15)
  /\ strptime "03-15-2024" fmt_Ymd_dash = None
  /\ _date_confidence (PStr "03-15-2024") = 0.4%Q.
Proof. vm_compute. repeat split; reflexivity. Qed.

End ConfidenceScorerProofs.

(* ================================================================== *)
(** * Properties of the classifier *)
(* ================================================================== *)

Module DocumentClassifierProofs.

Import PyStr Re Py DocumentClassifier.
Import BasicFacts Samples.
Open Scope string_scope.
Open Scope Q_scope.

Lemma max_key_In (best : string * Z) (rest : list (string * Z)) :
  In (max_key best rest) (best :: rest).
Proof.
  revert best. induction rest as [|x rest IH]; intro best; simpl.
  - left. reflexivity.
  - destruct (IH (if (snd best <? snd x)%Z then x else best)) as [H|H].
    + destruct (snd best <? snd x)%Z; [right; left | left]; exact H.
    + right. right. exact H.
Qed.

(** The heuristic stage names one of the three types, and only when its
    confidence is at least 0.6. *)
Lemma classify_by_heuristics_type (text t : string) (c : Q) :
  classify_by_heuristics text = (Some t, c) ->
  In t valid_types /\ 0.6 <= c.
Proof.
  unfold classify_by_heuristics.
  match goal with
  | |- context [max_key ?b ?l] =>
      pose proof (max_key_In b l) as Hin; destruct (max_key b l) as [mt ms]
  end.
  destruct (ms =? 0)%Z; [discriminate|].
  match goal with
  | |- context [Qltb ?x 0.6] => destruct (Qltb x 0.6) eqn:Hc; [discriminate|]
  end.
  intro H. injection H as Ht Hconf. subst.
  apply Qltb_false in Hc. split; [|exact Hc].
  simpl in Hin. unfold valid_types. simpl.
  destruct Hin as [Hin|[Hin|[Hin|[]]]]; injection Hin as Hmt _; auto.
Qed.

(** No type is named only at confidence 0.0 or below 0.6. *)
Lemma classify_by_heuristics_none (text : string) (c : Q) :
  classify_by_heuristics text = (None, c) -> c < 0.6.
Proof.
  unfold classify_by_heuristics.
  destruct (max_key _ _) as [mt ms].
  destruct (ms =? 0)%Z.
  - intro H. injection H as H. rewrite <- H. reflexivity.
  - match goal with
    | |- context [Qltb ?x 0.6] =>
        generalize x; intro conf; destruct (Qltb conf 0.6) eqn:Hc
    end; [|discriminate].
    intro H. injection H as H. subst c.
    apply Qltb_true. exact Hc.
Qed.

Lemma in_list_In (s : string) (l : list string) :
  in_list s l = true -> In s l.
Proof.
  unfold in_list. intro H. apply existsb_exists in H.
  destruct H as [x [Hx Heq]]. apply String.eqb_eq in Heq. subst. exact Hx.
Qed.

(** The model stage never raises and names one of the three types, with
    confidence 0.75, 0.5 or 0.3. *)
Lemma classify_with_gemini_returns
      (text : string) (g : model_service) :
  exists t c,
    classify_with_gemini text g = Ret (t, c)
    /\ In t valid_types
    /\ (c = 0.75 \/ c = 0.5 \/ c = 0.3).
Proof.
  unfold classify_with_gemini, try_outcome, any_Exception.
  destruct (g (get_classification_prompt text) 10%Z) as [response|e]; cbn [bind].
  2:{ exists "invoice", 0.3. simpl. auto. }
  destruct (response_text response) as [raw|e]; cbn [bind].
  2:{ exists "invoice", 0.3. simpl. auto. }
  destruct (strip_lower raw) as [classification|e]; cbn [bind].
  2:{ exists "invoice", 0.3. simpl. auto. }
  destruct (in_list classification valid_types) eqn:Hvalid.
  - exists classification, 0.75. split; [reflexivity|].
    split; [apply in_list_In; exact Hvalid | auto].
  - exists "invoice", 0.5. simpl. auto.
Qed.

(** C10.  Whatever the text and whatever the collaborator does, [classify]
    returns, and the type it returns is one of invoice, bill and
    prescription. *)
Theorem classify_returns_a_known_type :
  forall (text : string) (gemini_extractor : option model_service),
  exists (doc_type : string) (confidence : Q),
    classify text gemini_extractor
    = Ret (doc_type, confidence)
    /\ In doc_type valid_types.
Proof.
  intros text gemini.
  unfold classify.
  destruct (classify_by_heuristics text) as [doc_type confidence] eqn:Hh.
  assert (Hdefault : exists t c,
             Ret (heuristic_or_default doc_type confidence) = Ret (t, c)
             /\ In t valid_types).
  { destruct doc_type as [t|].
    - exists t, confidence. split; [reflexivity|].
      apply (classify_by_heuristics_type _ Hh).
    - exists "invoice", 0.3. simpl. auto. }
  destruct (if Qltb 0.7 confidence then doc_type else None) as [t|] eqn:Hsel.
  - exists t, confidence. split; [reflexivity|].
    assert (doc_type = Some t) as ->
        by (destruct (Qltb 0.7 confidence); [exact Hsel|discriminate]).
    apply (classify_by_heuristics_type _ Hh).
  - destruct gemini as [g|]; cbn [bind]; [|exact Hdefault].
    destruct (Qltb confidence 0.7); cbn [bind]; [|exact Hdefault].
    destruct (classify_with_gemini_returns text g)
      as [gt [gc [Hg [Hin _]]]].
    rewrite Hg. unfold try_outcome. cbn [bind].
    destruct (Qltb confidence gc); cbn [bind].
    + exists gt, gc. split; [reflexivity|exact Hin].
    + exact Hdefault.
Qed.

(** C3, as stated, fails at heuristic confidence 0.7: the confidence is not
    greater than 0.7, a collaborator is supplied and it is more confident
    (0.75), yet [classify] keeps the heuristic answer. *)
Lemma classify_at_threshold_keeps_heuristic_answer :
  classify_by_heuristics seven_bill_keywords = (Some "bill", 0.70)
  /\ Qltb 0.7 0.70 = false
  /\ classify_with_gemini seven_bill_keywords answers_invoice
     = Ret ("invoice", 0.75)
  /\ Qltb 0.70 0.75 = true
  /\ classify seven_bill_keywords (Some answers_invoice)
     = Ret ("bill", 0.70).
Proof. vm_compute. repeat split; reflexivity. Qed.

(** C3, amended.  With [(doc_type, confidence)] the heuristic answer:
    above 0.7 it is returned as it is; strictly below 0.7 a supplied
    collaborator is consulted and its answer is returned exactly when its
    confidence exceeds the heuristic one; at exactly 0.7, or without a
    collaborator, the result is the heuristic answer (the default
    [("invoice", 0.3)] when the heuristics named no type). *)
Theorem classify_fallback_policy :
  forall (text : string) (gemini_extractor : option model_service)
         (doc_type : option string) (confidence : Q),
    classify_by_heuristics text = (doc_type, confidence) ->
    (0.7 < confidence ->
       exists t, doc_type = Some t
                 /\ classify text gemini_extractor
                    = Ret (t, confidence))
    /\ (confidence < 0.7 ->
        forall g, gemini_extractor = Some g ->
        exists gemini_type gemini_confidence,
          classify_with_gemini text g
          = Ret (gemini_type, gemini_confidence)
          /\ (confidence < gemini_confidence ->
              classify text gemini_extractor
              = Ret (gemini_type, gemini_confidence))
          /\ (~ confidence < gemini_confidence ->
              classify text gemini_extractor
              = Ret (heuristic_or_default doc_type confidence)))
    /\ (confidence == 0.7 \/ (confidence <= 0.7 /\ gemini_extractor = None) ->
        classify text gemini_extractor
        = Ret (heuristic_or_default doc_type confidence)).
Proof.
  intros text gemini doc_type confidence Hh.
  unfold classify. rewrite Hh.
  split; [|split].
  - intro Hgt. apply Qltb_true in Hgt. rewrite Hgt.
    destruct doc_type as [t|].
    + exists t. split; reflexivity.
    + exfalso.
      apply classify_by_heuristics_none in Hh.
      apply Qltb_true in Hgt. lra.
  - intros Hlt g Hg. subst gemini.
    assert (Hnot : Qltb 0.7 confidence = false) by (apply Qltb_false; lra).
    rewrite Hnot. apply Qltb_true in Hlt. rewrite Hlt. simpl.
    destruct (classify_with_gemini_returns text g)
      as [gt [gc [Hcall _]]].
    exists gt, gc. split; [exact Hcall|].
    rewrite Hcall. unfold try_outcome. simpl.
    split.
    + intro Hwin. apply Qltb_true in Hwin. rewrite Hwin. reflexivity.
    + intro Hlose.
      destruct (Qltb confidence gc) eqn:E.
      * apply Qltb_true in E. contradiction.
      * destruct doc_type; reflexivity.
  - intros [Heq|[Hle Hnone]].
    + assert (Hnot : Qltb 0.7 confidence = false) by (apply Qltb_false; lra).
      assert (Hnot' : Qltb confidence 0.7 = false) by (apply Qltb_false; lra).
      rewrite Hnot. destruct gemini as [g|]; simpl.
      * rewrite Hnot'. simpl. destruct doc_type; reflexivity.
      * destruct doc_type; reflexivity.
    + subst gemini.
      assert (Hnot : Qltb 0.7 confidence = false) by (apply Qltb_false; lra).
      rewrite Hnot. simpl. destruct doc_type; reflexivity.
Qed.

(** The policy at the text with heuristic confidence exactly 0.7. *)
Lemma classify_fallback_policy_at_threshold :
  classify_by_heuristics seven_bill_keywords = (Some "bill", 0.70)
  /\ classify seven_bill_keywords (Some answers_invoice)
     = Ret ("bill", 0.70).
Proof.
  assert (Hh : classify_by_heuristics seven_bill_keywords = (Some "bill", 0.70))
    by (vm_compute; reflexivity).
  split; [exact Hh|].
  apply (@classify_fallback_policy seven_bill_keywords
           (Some answers_invoice) (Some "bill") 0.70 Hh).
  left. reflexivity.
Defined.

(** Below the threshold the collaborator decides when it is more
    confident. *)
Example classify_consults_model_below_threshold :
  classify_by_heuristics "statement usage gallons minutes kilowatt meter reading"
  = (Some "bill", 0.60)
  /\ classify "statement usage gallons minutes kilowatt meter reading"
              (Some answers_invoice)
     = Ret ("invoice", 0.75).
Proof. vm_compute. split; reflexivity. Qed.

End DocumentClassifierProofs.

(* ================================================================== *)
(** * Properties of the extractor *)
(* ================================================================== *)

Module GeminiExtractorProofs.

Import PyStr Py GeminiExtractor Samples.
Open Scope string_scope.
Open Scope list_scope.

Section Extractor.

Variable service : Type.
Variable generate_content : string -> Z -> service -> outcome string * service.
Variable GEMINI_MAX_TOKENS : Z.
Variable SELF_CONSISTENCY_RUNS : Z.
Variable json_loads : string -> outcome pyval.
Variable get_self_consistency_prompt : string -> string -> pyval -> Z -> string.
Variable get_confidence_prompt : string -> pyval -> string -> outcome string.
Variable get_validation_prompt : pyval -> list string -> outcome string.

(** [call_gemini] turns every failure of the service into an ['error']
    entry; it never raises. *)
Lemma call_gemini_returns (prompt : string) (max_tokens : option Z) (s : service) :
  exists r s',
    call_gemini generate_content GEMINI_MAX_TOKENS prompt max_tokens s
    = (Ret r, s').
Proof.
  unfold call_gemini.
  destruct (generate_content _ _ s) as [[generated|e] s']; eauto.
Qed.

(** One attempt appends one entry, tagged with its number, unless
    [json.loads] raises on the reply something other than a
    [JSONDecodeError], which nothing catches. *)
Lemma run_attempt_outcome (text doc_type : string) (schema : pyval) (i : Z)
      (s : service) :
  exists o s',
    run_attempt generate_content GEMINI_MAX_TOKENS json_loads
                get_self_consistency_prompt text doc_type schema i s
    = (o, s')
    /\ match o with
       | Ret entry => attempt_number entry = Some (PInt (i + 1))
       | Raise e =>
           is_JSONDecodeError e = false
           /\ exists reply, json_loads reply = Raise e
       end.
Proof.
  unfold run_attempt, bindM.
  destruct (call_gemini_returns
              (get_self_consistency_prompt text doc_type schema i) None s)
    as [r [s' Hcall]].
  rewrite Hcall.
  destruct (response_error r) as [err|].
  - eexists _, _. split; reflexivity.
  - unfold try_except, bindM, loads, lift, ret.
    destruct (json_loads (response_text r)) as [data|e] eqn:Hloads.
    + eexists _, _. split; reflexivity.
    + destruct (is_JSONDecodeError e) eqn:Hkind.
      * destruct (_extract_json_from_text (response_text r)) as [cleaned|].
        -- destruct (json_loads cleaned) as [data|e'];
             eexists _, _; split; reflexivity.
        -- eexists _, _. split; reflexivity.
      * eexists _, _. split; [reflexivity|].
        split; [exact Hkind|]. exists (response_text r). exact Hloads.
Qed.

(** When the loop completes it has run [count] attempts and numbered them
    consecutively; it fails to complete only on an exception of
    [json.loads] that is no [JSONDecodeError]. *)
Lemma run_attempts_outcome (text doc_type : string) (schema : pyval) :
  forall (count : nat) (i : Z) (results : list pyval) (s : service),
  exists o s',
    run_attempts generate_content GEMINI_MAX_TOKENS json_loads
                 get_self_consistency_prompt text doc_type schema
                 count i results s
    = (o, s')
    /\ match o with
       | Ret all =>
           exists log,
             all = results ++ log
             /\ map attempt_number log
                = map (fun k => Some (PInt (i + Z.of_nat k)))
                      (List.seq 1%nat count)
       | Raise e =>
           is_JSONDecodeError e = false
           /\ exists reply, json_loads reply = Raise e
       end.
Proof.
  induction count as [|count IH]; intros i results s.
  - exists (Ret results), s. split; [reflexivity|].
    exists []. rewrite app_nil_r. split; reflexivity.
  - destruct (run_attempt_outcome text doc_type schema i s)
      as [o [s1 [Hentry Ho]]].
    cbn [run_attempts]. unfold bindM at 1. rewrite Hentry.
    destruct o as [entry|e].
    + destruct (IH (i + 1)%Z (results ++ [entry]) s1)
        as [o' [s' [Hrest Ho']]].
      exists o', s'. split; [exact Hrest|].
      destruct o' as [all|e]; [|exact Ho'].
      destruct Ho' as [log [Hall Hnums]].
      exists (entry :: log). split.
      * rewrite Hall, <- app_assoc. reflexivity.
      * cbn [map List.seq]. rewrite Ho, Hnums.
        rewrite <- (seq_shift count 1), map_map.
        f_equal. apply map_ext. intro k. do 2 f_equal. lia.
    + exists (Raise e), s1. split; [reflexivity|exact Ho].
Qed.

(** When [json.loads] raises nothing but [JSONDecodeError], the loop
    completes. *)
Lemma run_attempts_complete (text doc_type : string) (schema : pyval) :
  (forall reply e, json_loads reply = Raise e -> is_JSONDecodeError e = true) ->
  forall (count : nat) (i : Z) (results : list pyval) (s : service),
  exists all s',
    run_attempts generate_content GEMINI_MAX_TOKENS json_loads
                 get_self_consistency_prompt text doc_type schema
                 count i results s
    = (Ret all, s').
Proof.
  intros Honly count i results s.
  destruct (run_attempts_outcome text doc_type schema count i results s)
    as [[all|e] [s' [Hrun Ho]]].
  - exists all, s'. exact Hrun.
  - destruct Ho as [Hkind [reply Hreply]].
    rewrite (Honly reply e Hreply) in Hkind. discriminate.
Qed.


(** A run count other than 0 is used as given. *)
Lemma effective_runs_given (n : Z) :
  n <> 0%Z -> effective_runs SELF_CONSISTENCY_RUNS (Some n) = n.
Proof.
  intro Hn. unfold effective_runs.
  destruct (n =? 0)%Z eqn:E; [|reflexivity].
  apply Z.eqb_eq in E. contradiction.
Qed.


(** C9.  [fix_validation_errors] never raises: it returns the parsed reply
    when the prompt could be built, the service answered and the answer
    parsed, and the original record in every other case. *)
Theorem fix_validation_errors_returns_record :
  forall (data : pyval) (validation_errors : list string) (s : service),
  exists s',
    fix_validation_errors generate_content GEMINI_MAX_TOKENS json_loads
                          get_validation_prompt data validation_errors s
    = (Ret (match get_validation_prompt data validation_errors with
            | Raise _ => data
            | Ret prompt =>
                match generate_content prompt GEMINI_MAX_TOKENS s with
                | (Raise _, _) => data
                | (Ret reply, _) =>
                    match json_loads reply with
                    | Ret fixed_data => fixed_data
                    | Raise _ => data
                    end
                end
            end), s').
Proof.
  intros data validation_errors s.
  unfold fix_validation_errors, try_except, bindM, lift, any_Exception.
  destruct (get_validation_prompt data validation_errors) as [prompt|e].
  2:{ exists s. reflexivity. }
  unfold call_gemini.
  destruct (generate_content prompt GEMINI_MAX_TOKENS s)
    as [[reply|e] s']; cbn [response_error response_text].
  2:{ exists s'. reflexivity. }
  unfold loads, lift, ret.
  destruct (json_loads reply) as [fixed_data|e].
  - exists s'. reflexivity.
  - exists s'. destruct (is_JSONDecodeError e); reflexivity.
Qed.


End Extractor.

(** ** Default scores *)






(** A reply nested too deeply makes [json.loads] raise [RecursionError],
    which the loop does not catch: the extraction raises it. *)
Example self_consistency_extraction_raises_on_recursion_error :
  fst (self_consistency_extraction
         answers_empty_object 2048 3
         (fun _ => Raise (mk_exn OtherException
                                 "maximum recursion depth exceeded"))
         fixed_prompt "text" "invoice" (PDict []) (Some 2%Z) tt)
  = Raise (mk_exn OtherException "maximum recursion depth exceeded").
Proof. vm_compute. reflexivity. Qed.

(** A run count of 0 is replaced by the configured default: three attempts
    are made, and here they succeed. *)
Example zero_runs_use_the_configured_default :
  fst (self_consistency_extraction answers_empty_object 2048 3
                                   loads_empty_object fixed_prompt
                                   "text" "invoice" (PDict []) (Some 0%Z) tt)
  = Ret (PDict
           [("data", PDict []);
            ("success", PBool true);
            ("consistency_rate", PFloat (3 / 3));
            ("successful_attempts", PInt 3);
            ("total_attempts", PInt 3);
            ("results",
             PList [PDict [("data", PDict []); ("attempt", PInt 1);
                           ("success", PBool true)];
                    PDict [("data", PDict []); ("attempt", PInt 2);
                           ("success", PBool true)];
                    PDict [("data", PDict []); ("attempt", PInt 3);
                           ("success", PBool true)]])]).
Proof. vm_compute. reflexivity. Qed.

(** C5.  When the service fails, the fallback scores of the record
    [{"id": "x", "tags": ["a", "b"], "items": [{"total": 3}]}] are 0.5 for
    [id] and [items.0.total] only: the scalar elements [tags.0] and [tags.1]
    of the sequence get no score. *)
Theorem assess_confidence_skips_scalar_sequence_elements :
  fst (assess_confidence unavailable 2048 loads_empty_object
                         (fun _ _ _ => Ret "Assess the confidence")
                         "text"
                         (PDict [("id", PStr "x");
                                 ("tags", PList [PStr "a"; PStr "b"]);
                                 ("items", PList [PDict [("total", PInt 3)]])])
                         "invoice" tt)
  = Ret [("id", 0.5%Q); ("items.0.total", 0.5%Q)].
Proof. vm_compute. reflexivity. Qed.

End GeminiExtractorProofs.

(* ================================================================== *)
(** * Properties of the validator *)
(* ================================================================== *)

Module DataValidatorProofs.

Import PyStr Py PyDate DataValidator Samples.
Open Scope string_scope.
Open Scope list_scope.

Section Validator.

Variable current_year : Z.
Variable float_of_str : string -> option Q.
Variable format_2f : Q -> string.

(** C8.  [validate_document] always returns a result, and in it [is_valid]
    is true exactly when the error list is empty; the warnings play no
    part. *)
Theorem validate_document_valid_iff_no_errors :
  forall (data : pyval) (doc_type : string),
  exists r,
    validate_document current_year float_of_str format_2f data doc_type = Ret r
    /\ is_valid r = match errors r with [] => true | _ :: _ => false end
    /\ (is_valid r = true <-> errors r = []).
Proof.
  intros data doc_type.
  unfold validate_document, validate_document_steps, try_except.
  unfold bindM at 1.
  match goal with
  | |- context [?body initial_result] =>
      destruct (body initial_result) as [[[]|e] r1]
  end.
  - unfold bindM at 1.
    destruct (_validate_common_fields current_year float_of_str data r1)
      as [[[]|e] r2].
    + cbn. eexists. split; [reflexivity|]. cbn.
      split; [reflexivity|].
      destruct (errors r2); split; intro H; congruence.
    + cbn. eexists. split; [reflexivity|]. cbn.
      split.
      * destruct (errors r2); reflexivity.
      * split; intro H; [discriminate|].
        destruct (errors r2); discriminate.
  - cbn. eexists. split; [reflexivity|]. cbn.
    split.
    + destruct (errors r1); reflexivity.
    + split; intro H; [discriminate|].
      destruct (errors r1); discriminate.
Qed.

(** ** Arithmetic checks on values that are not numbers *)

Lemma py_float_raises (v : pyval) (e : exn) :
  float_safe v = true ->
  py_float float_of_str v = Raise e -> ValueError_or_TypeError e = true.
Proof.
  unfold py_float, float_safe.
  destruct v as [ | b | z | q | str | l | d]; intro Hsafe;
    try discriminate;
    try (intro H; injection H as <-; reflexivity).
  - apply negb_true_iff in Hsafe. rewrite Hsafe. discriminate.
  - destruct (float_of_str str); [discriminate|].
    intro H; injection H as <-; reflexivity.
Qed.

Lemma present_dict (d : list (string * pyval)) (field : string) :
  present (PDict d) field
  = Ret (match dict_get field d with
         | Some v => negb (is_none v)
         | None => false
         end).
Proof.
  unfold present, py_in, py_getitem, dict_has, bind.
  destruct (dict_get field d); reflexivity.
Qed.

(** Only a mapping has a field that is present. *)
Lemma present_true (container : pyval) (field : string) :
  present container field = Ret true ->
  exists d v, container = PDict d /\ dict_get field d = Some v
              /\ is_none v = false.
Proof.
  destruct container as [ | b | z | q | str | l | d]; try discriminate.
  - unfold present, py_in, py_getitem, bind.
    destruct (contains field str); discriminate.
  - unfold present, py_in, py_getitem, bind.
    destruct (existsb _ l); discriminate.
  - rewrite present_dict. intro H. injection H as H.
    destruct (dict_get field d) as [v|] eqn:Hget; [|discriminate].
    exists d, v. split; [reflexivity|]. split; [exact Hget|].
    apply negb_true_iff. exact H.
Qed.

Lemma present_raises (container : pyval) (field : string) (e : exn) :
  present container field = Raise e -> ValueError_or_TypeError e = true.
Proof.
  destruct container as [ | b | z | q | str | l | d];
    unfold present, py_in, py_getitem, bind;
    try (intro H; injection H as <-; reflexivity).
  - destruct (contains field str); [|discriminate].
    intro H; injection H as <-; reflexivity.
  - destruct (existsb _ l); [|discriminate].
    intro H; injection H as <-; reflexivity.
  - unfold dict_has. destruct (dict_get field d); discriminate.
Qed.

Lemma all_present_dict (d : list (string * pyval)) (fields : list string) :
  all_present (PDict d) fields
  = Ret (forallb (fun field => match dict_get field d with
                               | Some v => negb (is_none v)
                               | None => false
                               end) fields).
Proof.
  induction fields as [|field fields IH]; [reflexivity|].
  cbn [all_present forallb]. rewrite present_dict. cbn [bind].
  destruct (match dict_get field d with
            | Some v => negb (is_none v)
            | None => false
            end); [exact IH|reflexivity].
Qed.

(** A loop whose body always returns, and keeps a relation on the result,
    returns and keeps it. *)
Lemma for_each_keeps (A : Type) (R : validation_result -> validation_result -> Prop)
      (body : A -> V unit) :
  (forall r, R r r) ->
  (forall r1 r2 r3, R r1 r2 -> R r2 r3 -> R r1 r3) ->
  (forall x r, exists r', body x r = (Ret tt, r') /\ R r r') ->
  forall l r, exists r', for_each l body r = (Ret tt, r') /\ R r r'.
Proof.
  intros Hrefl Htrans Hbody.
  induction l as [|x l IH]; intro r.
  - exists r. split; [reflexivity|apply Hrefl].
  - destruct (Hbody x r) as [r1 [H1 HR1]].
    destruct (IH r1) as [r2 [H2 HR2]].
    exists r2. split; [|exact (Htrans _ _ _ HR1 HR2)].
    cbn [for_each]. unfold bindM. rewrite H1. exact H2.
Qed.

(** The required-field loop of an item that is a mapping adds errors
    only. *)
Lemma item_fields_loop (d : list (string * pyval)) (index : nat)
      (r : validation_result) :
  exists r',
    for_each ["description"; "quantity"; "unit_price"; "total"]
      (fun field =>
         bindM (lift (present (PDict d) field)) (fun ok =>
         if negb ok
         then add_error ("Item " ++ str_of_nat index
                         ++ ": missing required field '" ++ field ++ "'")%string
         else if in_list field ["quantity"; "unit_price"; "total"]
         then
           bindM (lift (py_getitem (PDict d) field)) (fun v =>
           let '(valid, error_msg) := _validate_amount float_of_str v in
           if negb valid
           then add_error ("Item " ++ str_of_nat index ++ ", field '" ++ field
                           ++ "': " ++ error_msg)%string
           else ret tt)
         else ret tt)) r
    = (Ret tt, r')
    /\ same_warnings r r'.
Proof.
  apply for_each_keeps.
  - intro; reflexivity.
  - unfold same_warnings; intros; congruence.
  - clear r. intros field r.
    unfold bindM, lift. rewrite present_dict.
    destruct (dict_get field d) as [v|] eqn:Hget; cbn [negb].
    2:{ eexists. split; reflexivity. }
    destruct (negb (is_none v)); cbn [negb].
    2:{ eexists. split; reflexivity. }
    destruct (in_list field ["quantity"; "unit_price"; "total"]).
    2:{ eexists. split; reflexivity. }
    cbn [py_getitem]. rewrite Hget.
    destruct (_validate_amount float_of_str v) as [valid error_msg].
    destruct valid; eexists; split; reflexivity.
Qed.

(** The item-level check: a non-numeric quantity, unit price or total
    ends the comparison without a warning. *)
Lemma validate_invoice_item_silent (item : pyval) (index : nat)
      (r : validation_result) :
  all_present item ["quantity"; "unit_price"; "total"] = Ret true ->
  item_float_safe item ->
  (exists field v,
      In field ["quantity"; "unit_price"; "total"]
      /\ py_getitem item field = Ret v /\ non_numeric float_of_str v) ->
  exists r',
    _validate_invoice_item float_of_str format_2f item index r = (Ret tt, r')
    /\ warnings r' = warnings r.
Proof.
  intros Hall Hsafe Hbad.
  assert (Hdict : exists d, item = PDict d).
  { cbn [all_present] in Hall.
    destruct (present item "quantity") as [[|]|e] eqn:Hq; try discriminate.
    destruct (present_true _ _ Hq) as [d [_ [-> _]]]. eauto. }
  destruct Hdict as [d ->].
  unfold _validate_invoice_item.
  unfold bindM at 1.
  destruct (item_fields_loop d index r) as [r1 [Hloop Hw1]].
  rewrite Hloop.
  unfold bindM at 1. unfold lift at 1. rewrite Hall.
  rewrite all_present_dict in Hall. injection Hall as Hall.
  cbn [forallb] in Hall.
  destruct (dict_get "quantity" d) as [vq|] eqn:Hq; [|discriminate].
  destruct (dict_get "unit_price" d) as [vu|] eqn:Hu;
    [|rewrite andb_false_r in Hall; discriminate].
  destruct (dict_get "total" d) as [vt|] eqn:Ht;
    [|rewrite !andb_false_r in Hall; discriminate].
  assert (Hsq : float_safe vq = true).
  { apply (Hsafe "quantity"); [left; reflexivity|].
    cbn [py_getitem]. rewrite Hq. reflexivity. }
  assert (Hsu : float_safe vu = true).
  { apply (Hsafe "unit_price"); [right; left; reflexivity|].
    cbn [py_getitem]. rewrite Hu. reflexivity. }
  assert (Hst : float_safe vt = true).
  { apply (Hsafe "total"); [right; right; left; reflexivity|].
    cbn [py_getitem]. rewrite Ht. reflexivity. }
  unfold try_except, bindM, lift. cbn [py_getitem bind].
  rewrite Hq, Hu, Ht. cbn [bind].
  destruct (py_float float_of_str vq) as [q|e] eqn:Hfq.
  2:{ rewrite (py_float_raises _ Hsq Hfq).
      exists r1. split; [reflexivity|exact Hw1]. }
  destruct (py_float float_of_str vu) as [u|e] eqn:Hfu.
  2:{ rewrite (py_float_raises _ Hsu Hfu).
      exists r1. split; [reflexivity|exact Hw1]. }
  destruct (py_float float_of_str vt) as [t|e] eqn:Hft.
  2:{ rewrite (py_float_raises _ Hst Hft).
      exists r1. split; [reflexivity|exact Hw1]. }
  exfalso.
  destruct Hbad as [field [v [Hin [Hget [e [He _]]]]]].
  cbn [py_getitem] in Hget.
  destruct Hin as [<-|[<-|[<-|[]]]].
  - rewrite Hq in Hget. injection Hget as <-. congruence.
  - rewrite Hu in Hget. injection Hget as <-. congruence.
  - rewrite Ht in Hget. injection Hget as <-. congruence.
Qed.

(** ** The document-level checks *)

Lemma sum_item_totals_raises (items : list pyval) :
  Forall (fun item => forall v, py_getitem item "total" = Ret v ->
                                float_safe v = true) items ->
  forall (acc : Q) (e : exn),
    sum_item_totals float_of_str items acc = Raise e ->
    ValueError_or_TypeError e = true.
Proof.
  induction 1 as [|item items Hitem Hrest IH]; intros acc e;
    cbn [sum_item_totals].
  - discriminate.
  - destruct (present item "total") as [[|]|e'] eqn:Hp; cbn [bind].
    + destruct (present_true _ _ Hp) as [d [v [-> [Hget _]]]].
      assert (Hsafe : float_safe v = true).
      { apply Hitem. cbn [py_getitem]. rewrite Hget. reflexivity. }
      cbn [py_getitem]. rewrite Hget. cbn [bind].
      destruct (py_float float_of_str v) as [t|e'] eqn:Hf; cbn [bind].
      * apply IH.
      * intro H. injection H as <-. exact (py_float_raises _ Hsafe Hf).
    + apply IH.
    + intro H. injection H as <-. exact (present_raises _ _ Hp).
Qed.

Lemma sum_item_totals_returns (items : list pyval) :
  forall (acc total : Q),
    sum_item_totals float_of_str items acc = Ret total ->
    ~ Exists (bad_total float_of_str) items.
Proof.
  induction items as [|item items IH]; intros acc total Hsum Hbad.
  - inversion Hbad.
  - cbn [sum_item_totals] in Hsum.
    destruct (present item "total") as [[|]|e'] eqn:Hp; cbn [bind] in Hsum;
      try discriminate.
    + destruct (py_getitem item "total") as [v|e'] eqn:Hget; cbn [bind] in Hsum;
        try discriminate.
      destruct (py_float float_of_str v) as [t|e'] eqn:Hf; cbn [bind] in Hsum;
        try discriminate.
      inversion Hbad as [? ? [v' [_ [Hget' [e' [He' _]]]]]|? ? Hrest]; subst.
      * congruence.
      * exact (IH _ _ Hsum Hrest).
    + inversion Hbad as [? ? [v' [Hp' _]]|? ? Hrest]; subst.
      * congruence.
      * exact (IH _ _ Hsum Hrest).
Qed.

(** What the [try] block does: it only ever adds warnings; when it
    completes, every value it read was a number; when it raises, the
    exception is one the handler catches. *)
Lemma invoice_totals_checks_outcome
      (d : list (string * pyval)) (items : list pyval) (r : validation_result) :
  dict_get "items" d = Some (PList items) ->
  totals_float_safe d items ->
  exists o r1 pre,
    invoice_totals_checks float_of_str format_2f (PDict d) r = (o, r1)
    /\ warnings r1 = warnings r ++ pre
    /\ errors r1 = errors r
    /\ match o with
       | Ret _ => ~ totals_involve_non_numeric float_of_str d items
       | Raise e => ValueError_or_TypeError e = true
       end.
Proof.
  intros Hitems [Hsafe_items Hsafe].
  assert (Hsafe_sub : forall v, dict_get "subtotal" d = Some v ->
                                float_safe v = true).
  { intro v. apply Hsafe. left. reflexivity. }
  assert (Hsafe_tax : forall v, dict_get "tax_amount" d = Some v ->
                                float_safe v = true).
  { intro v. apply Hsafe. right. left. reflexivity. }
  assert (Hsafe_total : forall v, dict_get "total_amount" d = Some v ->
                                  float_safe v = true).
  { intro v. apply Hsafe. right. right. left. reflexivity. }
  clear Hsafe.
  unfold invoice_totals_checks.
  unfold bindM at 1. unfold lift at 1.
  unfold list_field, py_in, py_getitem, dict_has. rewrite Hitems. cbn [bind].
  unfold bindM at 1. unfold lift at 1.
  destruct (sum_item_totals float_of_str items 0.0%Q) as [calc|e] eqn:Hsum.
  2:{ exists (Raise e), r, []. rewrite app_nil_r.
      repeat (split; [reflexivity|]).
      exact (sum_item_totals_raises Hsafe_items _ Hsum). }
  pose proof (sum_item_totals_returns _ Hsum) as Hitems_ok.
  unfold bindM at 1. unfold lift at 1. rewrite present_dict.
  rewrite all_present_dict. cbn [forallb].
  (* the stated subtotal *)
  assert (Hsub :
    exists o1 r1 pre,
      (if match dict_get "subtotal" d with
          | Some v => negb (is_none v)
          | None => false
          end
       then
         bindM (lift (bind (match dict_get "subtotal" d with
                            | Some v => Ret v
                            | None => Raise (mk_exn KeyError
                                               ("'" ++ "subtotal" ++ "'")%string)
                            end) (py_float float_of_str)))
               (fun stated_subtotal =>
                  if differs calc stated_subtotal
                  then add_warning
                         ("Calculated subtotal (" ++ format_2f calc
                          ++ ") doesn't match stated subtotal ("
                          ++ format_2f stated_subtotal ++ ")")%string
                  else ret tt)
       else ret tt) r = (o1, r1)
      /\ warnings r1 = warnings r ++ pre
      /\ errors r1 = errors r
      /\ match o1 with
         | Ret _ => forall v, dict_get "subtotal" d = Some v ->
                              is_none v = false ->
                              exists q, py_float float_of_str v = Ret q
         | Raise e => ValueError_or_TypeError e = true
         end).
  { destruct (dict_get "subtotal" d) as [vs|].
    2:{ exists (Ret tt), r, []. rewrite app_nil_r.
        repeat (split; [reflexivity|]). discriminate. }
    pose proof (Hsafe_sub vs eq_refl) as Hsafe_vs.
    destruct (is_none vs) eqn:Hnone; cbn [negb].
    { exists (Ret tt), r, []. rewrite app_nil_r.
      repeat (split; [reflexivity|]).
      intros v Hv. injection Hv as <-. congruence. }
    unfold bindM, lift. cbn [bind].
    destruct (py_float float_of_str vs) as [sub|e] eqn:Hf.
    2:{ exists (Raise e), r, []. rewrite app_nil_r.
        repeat (split; [reflexivity|]).
        exact (py_float_raises _ Hsafe_vs Hf). }
    destruct (differs calc sub).
    - eexists (Ret tt), _, [_]. cbn.
      repeat (split; [reflexivity|]).
      intros v Hv _. injection Hv as <-. eauto.
    - exists (Ret tt), r, []. rewrite app_nil_r.
      repeat (split; [reflexivity|]).
      intros v Hv _. injection Hv as <-. eauto. }
  destruct Hsub as [o1 [r1 [pre1 [Hrun1 [Hw1 [He1 Ho1]]]]]].
  unfold bindM at 1. rewrite Hrun1.
  destruct o1 as [[]|e].
  2:{ exists (Raise e), r1, pre1. auto. }
  unfold bindM at 1. unfold lift at 1.
  destruct (dict_get "subtotal" d) as [vs|] eqn:Hs.
  2:{ exists (Ret tt), r1, pre1.
      repeat (split; [assumption || reflexivity|]).
      intros [Ha|[[v [Hv _]]|[Hall _]]].
      - exact (Hitems_ok Ha).
      - congruence.
      - rewrite all_present_dict in Hall. cbn [forallb] in Hall.
        rewrite Hs in Hall. discriminate. }
  destruct (dict_get "tax_amount" d) as [vx|] eqn:Hx.
  2:{ rewrite andb_false_r. exists (Ret tt), r1, pre1.
      repeat (split; [assumption || reflexivity|]).
      intros [Ha|[[v [Hv [Hn Hbad]]]|[Hall _]]].
      - exact (Hitems_ok Ha).
      - rewrite Hs in Hv. destruct (Ho1 v Hv Hn) as [q Hq].
        destruct Hbad as [e [He _]]. congruence.
      - rewrite all_present_dict in Hall. cbn [forallb] in Hall.
        rewrite Hs, Hx, andb_false_r in Hall. discriminate. }
  destruct (dict_get "total_amount" d) as [va|] eqn:Ha.
  2:{ rewrite !andb_false_r. exists (Ret tt), r1, pre1.
      repeat (split; [assumption || reflexivity|]).
      intros [Hbad|[[v [Hv [Hn Hbad]]]|[Hall _]]].
      - exact (Hitems_ok Hbad).
      - rewrite Hs in Hv. destruct (Ho1 v Hv Hn) as [q Hq].
        destruct Hbad as [e [He _]]. congruence.
      - rewrite all_present_dict in Hall. cbn [forallb] in Hall.
        rewrite Hs, Hx, Ha, !andb_false_r in Hall. discriminate. }
  destruct (negb (is_none vs) && (negb (is_none vx) && (negb (is_none va) && true)))
    eqn:Hcomplete.
  2:{ exists (Ret tt), r1, pre1.
      repeat (split; [assumption || reflexivity|]).
      intros [Hbad|[[v [Hv [Hn Hbad]]]|[Hall _]]].
      - exact (Hitems_ok Hbad).
      - rewrite Hs in Hv. destruct (Ho1 v Hv Hn) as [q Hq].
        destruct Hbad as [e [He _]]. congruence.
      - rewrite all_present_dict in Hall. cbn [forallb] in Hall.
        rewrite Hs, Hx, Ha in Hall. congruence. }
  unfold bindM, lift. cbn [bind].
  destruct (py_float float_of_str vs) as [sub|e] eqn:Hfs.
  2:{ exists (Raise e), r1, pre1.
      repeat (split; [assumption || reflexivity|]).
      exact (py_float_raises _ (Hsafe_sub vs eq_refl) Hfs). }
  destruct (py_float float_of_str vx) as [tax|e] eqn:Hfx.
  2:{ exists (Raise e), r1, pre1.
      repeat (split; [assumption || reflexivity|]).
      exact (py_float_raises _ (Hsafe_tax vx eq_refl) Hfx). }
  destruct (py_float float_of_str va) as [actual|e] eqn:Hfa.
  2:{ exists (Raise e), r1, pre1.
      repeat (split; [assumption || reflexivity|]).
      exact (py_float_raises _ (Hsafe_total va eq_refl) Hfa). }
  assert (Hclean : ~ totals_involve_non_numeric float_of_str d items).
  { intros [Hbad|[[v [Hv [Hn [e [He _]]]]]|[_ [field [v [Hin [Hv [e [He _]]]]]]]]].
    - exact (Hitems_ok Hbad).
    - congruence.
    - destruct Hin as [<-|[<-|[]]]; congruence. }
  destruct (differs (sub + tax) actual).
  - unfold add_warning, modify.
    eexists (Ret tt), _, (pre1 ++ [_]).
    split; [reflexivity|]. cbn [warnings errors].
    rewrite Hw1, He1, app_assoc. auto.
  - exists (Ret tt), r1, pre1. auto.
Qed.

(** C6, amended.  Provided no value the checks convert is an integer
    beyond the range of floats: a non-numeric quantity, unit price or total
    ends the check of that item silently, no warning is added.  In a record
    with an [items] list a non-numeric value in the document-level checks
    is caught as well, but there the warning "Could not validate total
    calculations: ..." is added (after a subtotal-mismatch warning, if one
    was already issued); no error is added.  In a record without an
    [items] list the document-level checks are skipped: nothing is
    added. *)
Theorem non_numeric_values_in_invoice_arithmetic :
  (forall (item : pyval) (index : nat) (r : validation_result),
      all_present item ["quantity"; "unit_price"; "total"] = Ret true ->
      item_float_safe item ->
      (exists field v,
          In field ["quantity"; "unit_price"; "total"]
          /\ py_getitem item field = Ret v /\ non_numeric float_of_str v) ->
      exists r',
        _validate_invoice_item float_of_str format_2f item index r = (Ret tt, r')
        /\ warnings r' = warnings r)
  /\ (forall (d : list (string * pyval)) (items : list pyval)
             (r : validation_result),
        dict_get "items" d = Some (PList items) ->
        totals_float_safe d items ->
        totals_involve_non_numeric float_of_str d items ->
        exists r' pre e,
          _validate_invoice_totals float_of_str format_2f (PDict d) r = (Ret tt, r')
          /\ warnings r'
             = warnings r ++ pre
               ++ [("Could not validate total calculations: " ++ exn_msg e)%string]
          /\ errors r' = errors r)
  /\ (forall (d : list (string * pyval)) (r : validation_result),
        list_field (PDict d) "items" = Ret None ->
        _validate_invoice_totals float_of_str format_2f (PDict d) r
        = (Ret tt, r)).
Proof.
  split; [|split].
  - exact validate_invoice_item_silent.
  - intros d items r Hitems Hsafe Hbad.
    destruct (invoice_totals_checks_outcome r Hitems Hsafe)
      as [o [r1 [pre [Hrun [Hw [He Ho]]]]]].
    destruct o as [[]|e]; [contradiction|].
    exists (mk_result (is_valid r1) (errors r1)
                      (warnings r1
                       ++ [("Could not validate total calculations: "
                            ++ exn_msg e)%string])
                      (field_validations r1)), pre, e.
    split; [|split].
    + unfold _validate_invoice_totals, try_except.
      rewrite Hrun, Ho. reflexivity.
    + cbn [warnings]. rewrite Hw, app_assoc. reflexivity.
    + exact He.
  - intros d r Hnone.
    unfold _validate_invoice_totals, try_except, invoice_totals_checks.
    unfold bindM, lift. rewrite Hnone. reflexivity.
Qed.

End Validator.

(** ** Concrete records *)

(** C6, as stated, fails for the document-level checks: with a subtotal that
    is not a number the exception is caught, and a warning is produced. *)
Lemma non_numeric_subtotal_produces_a_warning :
  py_float float_of_decimal (PStr "abc")
  = Raise (mk_exn ValueError "could not convert string to float: 'abc'")
  /\ _validate_invoice_totals float_of_decimal two_decimals
       (PDict [("items", PList []); ("subtotal", PStr "abc")]) initial_result
     = (Ret tt,
        mk_result true []
          ["Could not validate total calculations: could not convert string to float: 'abc'"]
          []).
Proof. vm_compute. split; reflexivity. Qed.

(** The amended statement on an item with a non-numeric unit price, on a
    record with a non-numeric subtotal, and on a record without items. *)
Lemma non_numeric_values_in_sample_invoice :
  (exists r',
      _validate_invoice_item float_of_decimal two_decimals
        (PDict [("description", PStr "Consulting"); ("quantity", PInt 10);
                ("unit_price", PStr "abc"); ("total", PFloat 1500)])
        0 initial_result = (Ret tt, r')
      /\ warnings r' = [])
  /\ (exists r' pre e,
         _validate_invoice_totals float_of_decimal two_decimals
           (PDict [("items", PList []); ("subtotal", PStr "abc")]) initial_result
         = (Ret tt, r')
         /\ warnings r'
            = [] ++ pre
              ++ [("Could not validate total calculations: " ++ exn_msg e)%string]
         /\ errors r' = [])
  /\ _validate_invoice_totals float_of_decimal two_decimals
       (PDict [("subtotal", PStr "abc")]) initial_result
     = (Ret tt, initial_result).
Proof.
  destruct (non_numeric_values_in_invoice_arithmetic float_of_decimal two_decimals)
    as [Hitem [Htotals Hskipped]].
  split; [|split].
  - apply Hitem.
    + reflexivity.
    + intros field v [<-|[<-|[<-|[]]]] Hget; injection Hget as <-;
        reflexivity.
    + exists "unit_price", (PStr "abc").
      split; [right; left; reflexivity|].
      split; [reflexivity|].
      eexists. split; vm_compute; reflexivity.
  - apply (Htotals [("items", PList []); ("subtotal", PStr "abc")] []).
    + reflexivity.
    + split; [constructor|].
      intros field v [<-|[<-|[<-|[]]]] Hget; try discriminate Hget.
      injection Hget as <-. reflexivity.
    + right. left. exists (PStr "abc").
      split; [reflexivity|]. split; [reflexivity|].
      eexists. split; vm_compute; reflexivity.
  - apply Hskipped. reflexivity.
Defined.

(** An integer beyond the range of floats is a number, yet [float] raises
    [OverflowError] on it, which the item check does not catch: the check
    raises, and [validate_document] reports a validation error. *)
Example overflowing_quantity_escapes_the_item_check :
  fst (_validate_invoice_item float_of_decimal two_decimals
         (PDict [("description", PStr "Consulting");
                 ("quantity", PInt (10 ^ 400));
                 ("unit_price", PStr "abc"); ("total", PFloat 1500)])
         0 initial_result)
  = Raise (mk_exn OtherException "int too large to convert to float")
  /\ (exists r,
         validate_document 2026 float_of_decimal two_decimals
           (PDict [("items",
                    PList [PDict [("description", PStr "Consulting");
                                  ("quantity", PInt (10 ^ 400));
                                  ("unit_price", PStr "abc");
                                  ("total", PFloat 1500)]])])
           "invoice" = Ret r
         /\ is_valid r = false
         /\ In "Validation error: int too large to convert to float"
               (errors r)).
Proof.
  split; [vm_compute; reflexivity|].
  eexists. split; [vm_compute; reflexivity|].
  split; [reflexivity|]. cbn. auto 10.
Qed.

(** The scenario of the specification: quantity 10 at 150.0 against a stated
    total of 1400.0 gives a warning, and the record stays valid. *)
Example item_total_mismatch_is_a_warning :
  validate_document 2026 float_of_decimal two_decimals
    (PDict [("invoice_number", PStr "INV-2024-001");
            ("date", PStr "2024-03-15");
            ("vendor", PDict [("name", PStr "ABC Corp")]);
            ("total_amount", PFloat 1400);
            ("items", PList [PDict [("description", PStr "Consulting");
                                    ("quantity", PInt 10);
                                    ("unit_price", PFloat 150.0);
                                    ("total", PFloat 1400.0)]])])
    "invoice"
  = Ret (mk_result true []
           ["Item 0: calculated total (1500.00) doesn't match stated total (1400.00)"]
           [("date", mk_field_validation true (PStr "2024-03-15") "date");
            ("total_amount", mk_field_validation true (PFloat 1400) "amount")]).
Proof. vm_compute. reflexivity. Qed.

End DataValidatorProofs.

Unset Implicit Arguments.

(* ================================================================== *)
(** * Facts about dictionaries *)
(* ================================================================== *)

Module DictFacts.

Import PyStr Py.
Open Scope string_scope.
Open Scope list_scope.

Lemma dict_set_In (V : Type) (k : string) (v : V) (d : list (string * V))
      (entry : string * V) :
  In entry (dict_set k v d) -> entry = (k, v) \/ In entry d.
Proof.
  induction d as [|[k' v'] d IH]; cbn [dict_set].
  - intros [H|[]]. left. symmetry. exact H.
  - destruct (String.eqb k k').
    + intros [H|H]; [left; symmetry; exact H|right; right; exact H].
    + intros [H|H]; [right; left; exact H|].
      destruct (IH H) as [Heq|Hin]; [left; exact Heq|right; right; exact Hin].
Qed.




End DictFacts.

(* ================================================================== *)
(** * Properties of the document-level scores *)
(* ================================================================== *)

Module ConfidenceReportProofs.

Import PyStr Py ConfidenceScorer ConfidenceReport BasicFacts.
Open Scope Q_scope.

Lemma sum_between (lo hi : Q) (l : list Q) :
  all_between lo hi l ->
  inject_Z (Z.of_nat (List.length l)) * lo <= fold_right Qplus 0 l
  /\ fold_right Qplus 0 l <= inject_Z (Z.of_nat (List.length l)) * hi.
Proof.
  induction 1 as [|x l [Hlo Hhi] _ IH].
  - cbn [List.length Z.of_nat fold_right]. change (inject_Z 0) with 0.
    split; lra.
  - cbn [List.length fold_right].
    rewrite Nat2Z.inj_succ. unfold Z.succ. rewrite inject_Z_plus.
    destruct IH as [IHlo IHhi].
    change (inject_Z 1) with 1. split; lra.
Qed.

(** The mean of a non-empty list lies between any bounds of its
    elements. *)
Lemma mean_between (lo hi : Q) (l : list Q) :
  l <> [] -> all_between lo hi l -> lo <= mean l /\ mean l <= hi.
Proof.
  intros Hne Hall.
  destruct (sum_between lo hi l Hall) as [Hlo Hhi].
  unfold mean.
  assert (Hn : 0 < inject_Z (Z.of_nat (List.length l))).
  { destruct l as [|x l]; [contradiction|].
    cbn [List.length]. rewrite Nat2Z.inj_succ.
    unfold Z.succ. rewrite inject_Z_plus. change (inject_Z 1) with 1.
    assert (0 <= inject_Z (Z.of_nat (List.length l))).
    { change 0 with (inject_Z 0). rewrite <- Zle_Qle. lia. }
    lra. }
  split.
  - apply Qle_shift_div_l; [exact Hn|]. lra.
  - apply Qle_shift_div_r; [exact Hn|]. lra.
Qed.


(** X1.  The overall confidence always lies in the unit interval, whatever
    the field scores are; an empty score table has overall confidence 0.0,
    and an empty list of required fields counts as none given. *)
Theorem overall_confidence_in_unit_interval :
  forall (field_confidences : list (string * Q))
         (required_fields : option (list string)),
    0 <= calculate_overall_confidence field_confidences required_fields <= 1
    /\ calculate_overall_confidence [] required_fields = 0.0
    /\ calculate_overall_confidence field_confidences (Some [])
       = calculate_overall_confidence field_confidences None.
Proof.
  intros d required.
  split; [|split; reflexivity].
  unfold calculate_overall_confidence.
  destruct d as [|fc d]; [lra|].
  apply ConfidenceScorerProofs.clamp_range.
Qed.

Lemma filter_all (A : Type) (test : A -> bool) (l : list A) :
  forallb test l = true -> filter test l = l.
Proof.
  induction l as [|x l IH]; [reflexivity|].
  cbn [forallb filter]. intro H. apply andb_prop in H. destruct H as [Hx Hl].
  rewrite Hx, (IH Hl). reflexivity.
Qed.

Lemma filter_nothing (A : Type) (test : A -> bool) (l : list A) :
  forallb (fun x => negb (test x)) l = true -> filter test l = [].
Proof.
  induction l as [|x l IH]; [reflexivity|].
  cbn [forallb filter]. intro H. apply andb_prop in H. destruct H as [Hx Hl].
  apply negb_true_iff in Hx. rewrite Hx. exact (IH Hl).
Qed.

(** X2.  A list of required fields changes the overall confidence only
    when it splits the score table: when it names every field of the table,
    or none of them, the result is the one obtained without the list. *)
Theorem required_fields_matter_only_when_they_split :
  forall (field_confidences : list (string * Q)) (required_fields : list string),
    forallb (fun fc => in_list (fst fc) required_fields) field_confidences = true
    \/ forallb (fun fc => negb (in_list (fst fc) required_fields))
               field_confidences = true ->
    calculate_overall_confidence field_confidences (Some required_fields)
    = calculate_overall_confidence field_confidences None.
Proof.
  intros d required H.
  unfold calculate_overall_confidence.
  destruct d as [|fc d]; [reflexivity|].
  destruct required as [|r required]; [reflexivity|].
  destruct H as [Hall|Hnone].
  - rewrite (filter_all _ _ _ Hall).
    rewrite (filter_nothing _ (fun fc => negb (in_list (fst fc) (r :: required)))).
    + reflexivity.
    + rewrite <- Hall. clear Hall.
      induction (fc :: d) as [|x l IH]; [reflexivity|].
      cbn [forallb]. rewrite negb_involutive, IH. reflexivity.
  - rewrite (filter_nothing _ _ _ Hnone). reflexivity.
Qed.

Lemma required_fields_matter_only_when_they_split_sample :
  forallb (fun fc => negb (in_list (fst fc) ["patient"; "doctor"]))
          MoreSamples.sample_scores = true
  /\ calculate_overall_confidence MoreSamples.sample_scores
                                  (Some ["patient"; "doctor"])
     = calculate_overall_confidence MoreSamples.sample_scores None.
Proof.
  split; [reflexivity|].
  apply (required_fields_matter_only_when_they_split
           MoreSamples.sample_scores ["patient"; "doctor"]).
  right. reflexivity.
Defined.

(** ** The summary *)

Lemma py_min_le (a b : Q) : py_min a b <= a /\ py_min a b <= b.
Proof.
  unfold py_min. destruct (Qltb b a) eqn:E.
  - apply Qltb_true in E. split; lra.
  - apply Qltb_false in E. split; lra.
Qed.

Lemma py_max_ge (a b : Q) : a <= py_max a b /\ b <= py_max a b.
Proof.
  unfold py_max. destruct (Qltb a b) eqn:E.
  - apply Qltb_true in E. split; lra.
  - apply Qltb_false in E. split; lra.
Qed.

Lemma fold_min_le (l : list Q) :
  forall acc, fold_left py_min l acc <= acc
              /\ Forall (fun y => fold_left py_min l acc <= y) l.
Proof.
  induction l as [|x l IH]; intro acc; cbn [fold_left].
  - split; [lra|constructor].
  - destruct (IH (py_min acc x)) as [Hacc Hall].
    destruct (py_min_le acc x) as [Ha Hx].
    split; [lra|].
    constructor; [lra|exact Hall].
Qed.

Lemma fold_max_ge (l : list Q) :
  forall acc, acc <= fold_left py_max l acc
              /\ Forall (fun y => y <= fold_left py_max l acc) l.
Proof.
  induction l as [|x l IH]; intro acc; cbn [fold_left].
  - split; [lra|constructor].
  - destruct (IH (py_max acc x)) as [Hacc Hall].
    destruct (py_max_ge acc x) as [Ha Hx].
    split; [lra|].
    constructor; [lra|exact Hall].
Qed.

Lemma min_max_bound (l : list Q) : all_between (min_of l) (max_of l) l.
Proof.
  unfold all_between. destruct l as [|x l]; [constructor|].
  cbn [min_of max_of].
  destruct (fold_min_le l x) as [Hmin Hmins].
  destruct (fold_max_ge l x) as [Hmax Hmaxs].
  constructor; [split; assumption|].
  apply Forall_forall. intros y Hy.
  rewrite Forall_forall in Hmins, Hmaxs.
  split; [exact (Hmins y Hy)|exact (Hmaxs y Hy)].
Qed.

(** Every score falls in exactly one of the three bands. *)
Lemma bands_partition (l : list Q) :
  (count (fun c => Qle_bool 0.8 c) l
   + count (fun c => Qle_bool 0.5 c && Qltb c 0.8) l
   + count (fun c => Qltb c 0.5) l)%nat
  = List.length l.
Proof.
  unfold count. induction l as [|c l IH]; [reflexivity|].
  cbn [filter List.length].
  destruct (Qle_bool 0.8 c) eqn:Hhigh;
    destruct (Qle_bool 0.5 c) eqn:Hmid;
    destruct (Qltb c 0.8) eqn:Hlt;
    destruct (Qltb c 0.5) eqn:Hlow;
    cbn [andb List.length];
    try lia;
    exfalso;
    repeat match goal with
           | H : Qle_bool _ _ = true |- _ => apply Qle_bool_iff in H
           | H : Qltb _ _ = true |- _ => apply Qltb_true in H
           | H : Qltb _ _ = false |- _ => apply Qltb_false in H
           | H : Qle_bool ?a ?b = false |- _ =>
               assert (b < a)
                 by (apply Qnot_le_lt; intro Hle;
                     apply Qle_bool_iff in Hle; congruence);
               clear H
           end;
    lra.
Qed.

(** X3.  In the summary the three bands of the distribution partition the
    fields, the low-confidence fields are counted and are at most as many
    as the fields, and every field score lies between the reported minimum
    and maximum. *)
Theorem confidence_summary_is_consistent :
  forall (low_confidence_threshold : Q)
         (field_confidences : list (string * Q)) (overall : Q),
    let s := get_confidence_summary low_confidence_threshold
                                    field_confidences overall in
    (high s + medium s + low s)%nat = field_count s
    /\ (low_confidence_count s <= field_count s)%nat
    /\ low_confidence_count s = List.length (low_confidence_fields s)
    /\ (forall field score,
           In (field, score) field_confidences ->
           min_confidence s <= score /\ score <= max_confidence s).
Proof.
  intros threshold d overall s. subst s.
  unfold get_confidence_summary. cbn.
  split; [|split; [|split]].
  - rewrite bands_partition. unfold values. apply length_map.
  - unfold identify_low_confidence_fields.
    rewrite <- (Permutation_length
                  (ConfidenceScorerProofs.sort_by_score_perm
                     (filter (fun fc => Qltb (snd fc) threshold) d))).
    apply filter_length_le.
  - reflexivity.
  - intros field score Hin.
    pose proof (min_max_bound (values d)) as Hall.
    unfold all_between in Hall. rewrite Forall_forall in Hall.
    apply (Hall score). unfold values.
    apply (in_map snd d (field, score) Hin).
Qed.

End ConfidenceReportProofs.

(* ================================================================== *)
(** * Further properties of the field scores *)
(* ================================================================== *)

Module FieldScoreProofs.

Import PyStr Re Py PyDate ConfidenceScorer ConfidenceReport BasicFacts.
Open Scope string_scope.
Open Scope list_scope.
Open Scope Q_scope.

(** ** The heuristic score *)

(** A score that is one of the constants of the sub-checks. *)
Ltac constant_score :=
  repeat match goal with
         | |- context [if ?b then _ else _] => destruct b
         | |- context [match ?x with Some _ => _ | None => _ end] => destruct x
         end;
  split; lra.

Lemma date_confidence_between (value : pyval) :
  0 <= _date_confidence value /\ _date_confidence value <= 0.95.
Proof.
  unfold _date_confidence, date_parse_score.
  destruct value; constant_score.
Qed.

Lemma amount_confidence_between (value : pyval) :
  0 <= _amount_confidence value /\ _amount_confidence value <= 0.95.
Proof.
  unfold _amount_confidence.
  destruct value; cbn [is_number]; constant_score.
Qed.

Lemma number_confidence_between (value : pyval) (original_text : string) :
  0 <= _number_confidence value original_text
  /\ _number_confidence value original_text <= 0.95.
Proof.
  unfold _number_confidence. destruct value; constant_score.
Qed.

Lemma name_confidence_between (value : pyval) (original_text : string) :
  0 <= _name_confidence value original_text
  /\ _name_confidence value original_text <= 0.95.
Proof.
  unfold _name_confidence. destruct value; constant_score.
Qed.

Lemma email_confidence_between (value : pyval) :
  0 <= _email_confidence value /\ _email_confidence value <= 0.95.
Proof.
  unfold _email_confidence. destruct value; constant_score.
Qed.

Lemma phone_confidence_between (value : pyval) :
  0 <= _phone_confidence value /\ _phone_confidence value <= 0.95.
Proof.
  unfold _phone_confidence. destruct value; constant_score.
Qed.

Lemma format_confidence_between (field_path : string) (value : pyval) :
  0 <= _format_confidence field_path value
  /\ _format_confidence field_path value <= 0.95.
Proof.
  unfold _format_confidence. destruct value; cbn [is_none is_number];
    constant_score.
Qed.

(** The share of matching words is a fraction. *)
Lemma share_between (A : Type) (test : A -> bool) (l : list A) :
  (0 < List.length (filter test l))%nat ->
  0 <= inject_Z (Z.of_nat (List.length (filter test l)))
       / inject_Z (Z.of_nat (List.length l))
  /\ inject_Z (Z.of_nat (List.length (filter test l)))
     / inject_Z (Z.of_nat (List.length l)) <= 1.
Proof.
  intro Hpos.
  pose proof (filter_length_le test l) as Hle.
  assert (Hn : 0 < inject_Z (Z.of_nat (List.length l))).
  { change 0 with (inject_Z 0). rewrite <- Zlt_Qlt. lia. }
  assert (Hm : 0 <= inject_Z (Z.of_nat (List.length (filter test l)))).
  { change 0 with (inject_Z 0). rewrite <- Zle_Qle. lia. }
  assert (Hmn : inject_Z (Z.of_nat (List.length (filter test l)))
                <= inject_Z (Z.of_nat (List.length l))).
  { rewrite <- Zle_Qle. lia. }
  split.
  - apply Qle_shift_div_l; [exact Hn|]. lra.
  - apply Qle_shift_div_r; [exact Hn|]. lra.
Qed.

Lemma text_presence_confidence_between (value original_text : string) :
  0 <= _text_presence_confidence value original_text
  /\ _text_presence_confidence value original_text <= 0.95.
Proof.
  unfold _text_presence_confidence.
  destruct (String.eqb value "" || String.eqb original_text "");
    [split; lra|].
  destruct (contains value original_text); [split; lra|].
  destruct (contains (lower value) (lower original_text)); [split; lra|].
  destruct (5 <? len value)%nat; [|split; lra].
  match goal with
  | |- context [(0 <? ?m)%nat] => destruct (0 <? m)%nat eqn:Hm
  end; [|split; lra].
  apply Nat.ltb_lt in Hm.
  destruct (share_between _ _ (split_ws value) Hm) as [H0 H1].
  split; lra.
Qed.

Lemma when_between (b : bool) (score : Q) :
  0 <= score /\ score <= 0.95 -> all_between 0 0.95 (when b score).
Proof.
  intro H. unfold all_between, when.
  destruct b; [constructor; [exact H|constructor]|constructor].
Qed.

(** The heuristic score is at most 0.95. *)
Lemma heuristic_confidence_between
      (repr : pyval -> string) (field_path : string) (value : pyval)
      (original_text : string) :
  0 <= _calculate_heuristic_confidence repr field_path value original_text
  /\ _calculate_heuristic_confidence repr field_path value original_text
     <= 0.95.
Proof.
  unfold _calculate_heuristic_confidence.
  destruct (is_none value || is_empty_str value); [split; lra|].
  match goal with
  | |- context [match ?l with [] => _ | _ :: _ => mean ?l' end] =>
      assert (Hall : all_between 0 0.95 l);
      [|assert (Hne : l <> []); [|destruct l; [contradiction|];
                                   exact (ConfidenceReportProofs.mean_between
                                            0 0.95 _ Hne Hall)]]
  end.
  - unfold all_between.
    repeat (apply Forall_app; split);
      try (apply when_between);
      try (constructor; [|constructor]);
      first [ apply date_confidence_between
            | apply amount_confidence_between
            | apply number_confidence_between
            | apply name_confidence_between
            | apply email_confidence_between
            | apply phone_confidence_between
            | apply text_presence_confidence_between
            | apply format_confidence_between ].
  - intro H.
    repeat (apply app_eq_nil in H; destruct H as [_ H]).
    discriminate H.
Qed.

(** X4.  Without a model confidence the field confidence is the heuristic
    score itself: that score lies between 0.0 and 0.95, so the final clamp
    to the unit interval never changes it. *)
Theorem field_confidence_without_model_score :
  forall (repr : pyval -> string) (field_path : string) (value : pyval)
         (original_text : string),
    calculate_field_confidence repr field_path value original_text None
    == _calculate_heuristic_confidence repr field_path value original_text
    /\ 0 <= calculate_field_confidence repr field_path value original_text None
    /\ calculate_field_confidence repr field_path value original_text None
       <= 0.95.
Proof.
  intros repr field_path value original_text.
  pose proof (heuristic_confidence_between repr field_path value original_text)
    as [H0 H1].
  assert (Heq : calculate_field_confidence repr field_path value
                                           original_text None
                == _calculate_heuristic_confidence repr field_path value
                                                   original_text).
  { unfold calculate_field_confidence.
    destruct (is_none value) eqn:Hnone.
    - unfold _calculate_heuristic_confidence. rewrite Hnone. reflexivity.
    - unfold py_max, py_min.
      destruct (Qltb _ 1.0) eqn:Hmin.
      + destruct (Qltb 0.0 _) eqn:Hmax; [reflexivity|].
        apply Qltb_false in Hmax. lra.
      + apply Qltb_false in Hmin. lra. }
  split; [exact Heq|]. rewrite Heq. split; assumption.
Qed.

(** ** Low-confidence fields in their given order *)

Lemma sort_by_score_sorted_input (l : list (string * Q)) :
  StronglySorted score_le l -> sort_by_score l = l.
Proof.
  induction 1 as [|x l Hsorted IH Hall]; [reflexivity|].
  cbn [sort_by_score fold_right]. fold (sort_by_score l). rewrite IH.
  destruct l as [|y l]; [reflexivity|].
  cbn [insert_by_score].
  inversion Hall as [|? ? Hxy _]; subst.
  unfold score_le in Hxy. apply Qle_bool_iff in Hxy. rewrite Hxy.
  reflexivity.
Qed.

Lemma filter_sorted (test : string * Q -> bool) (l : list (string * Q)) :
  StronglySorted score_le l -> StronglySorted score_le (filter test l).
Proof.
  induction 1 as [|x l Hsorted IH Hall]; [constructor|].
  cbn [filter]. destruct (test x); [|exact IH].
  constructor; [exact IH|].
  rewrite Forall_forall in *. intros y Hy.
  apply filter_In in Hy. apply Hall. exact (proj1 Hy).
Qed.

(** X5.  The sort of the low-confidence fields is stable: on a score table
    whose scores already ascend, ties included, the low-confidence fields
    come out in the order of the table. *)
Theorem low_confidence_fields_keep_ascending_order :
  forall (threshold : Q) (field_confidences : list (string * Q)),
    StronglySorted score_le field_confidences ->
    identify_low_confidence_fields threshold field_confidences
    = filter (fun fc => Qltb (snd fc) threshold) field_confidences.
Proof.
  intros threshold d Hsorted.
  unfold identify_low_confidence_fields.
  apply sort_by_score_sorted_input, filter_sorted, Hsorted.
Qed.

Lemma low_confidence_fields_keep_ascending_order_sample :
  StronglySorted score_le
    [("total", 0.4); ("date", 0.6); ("vendor", 0.6); ("number", 0.9)]
  /\ identify_low_confidence_fields 0.7
       [("total", 0.4); ("date", 0.6); ("vendor", 0.6); ("number", 0.9)]
     = [("total", 0.4); ("date", 0.6); ("vendor", 0.6)].
Proof.
  assert (Hsorted : StronglySorted score_le
            [("total", 0.4); ("date", 0.6); ("vendor", 0.6); ("number", 0.9)]).
  { repeat constructor; unfold score_le; cbn [snd]; lra. }
  split; [exact Hsorted|].
  exact (low_confidence_fields_keep_ascending_order 0.7 _ Hsorted).
Defined.

(** ** Dates written MM-DD-YYYY *)

(** X6.  No value of the shape MM-DD-YYYY is ever scored as a valid date:
    whatever its digits, the date sub-check gives it 0.4. *)
Theorem mdy_dash_values_always_score_as_invalid :
  forall (value : string),
    match_anchored pat_mdy_dash value = true ->
    _date_confidence (PStr value) = 0.4.
Proof.
  intros value H.
  unfold _date_confidence. cbn [existsb date_patterns].
  rewrite H, !orb_true_r.
  exact (@ConfidenceScorerProofs.date_parse_score_mdy_dash value H).
Qed.

Lemma mdy_dash_values_always_score_as_invalid_sample :
  match_anchored pat_mdy_dash "12-31-1999" = true
  /\ _date_confidence (PStr "12-31-1999") = 0.4.
Proof.
  assert (H : match_anchored pat_mdy_dash "12-31-1999" = true)
    by (vm_compute; reflexivity).
  split; [exact H|].
  exact (mdy_dash_values_always_score_as_invalid "12-31-1999" H).
Defined.

End FieldScoreProofs.

(* ================================================================== *)
(** * Further properties of the classifier *)
(* ================================================================== *)

Module HeuristicsProofs.

Import PyStr Re Py DocumentClassifier BasicFacts.
Open Scope string_scope.
Open Scope list_scope.
Open Scope Q_scope.

(** ** Scores are counts *)

Lemma count_step_nonneg (A : Type) (test : A -> bool) (step : Z) (l : list A) :
  (0 <= step)%Z ->
  forall acc, (0 <= acc)%Z ->
    (0 <= fold_left (fun count x => if test x then (count + step)%Z else count)
                    l acc)%Z.
Proof.
  intro Hstep. induction l as [|x l IH]; intros acc Hacc; [exact Hacc|].
  cbn [fold_left]. apply IH. destruct (test x); lia.
Qed.

Lemma count_keywords_nonneg (text : string) (keywords : list string) :
  (0 <= _count_keywords text keywords)%Z.
Proof.
  unfold _count_keywords.
  apply (count_step_nonneg string (fun keyword => contains keyword text) 1);
    lia.
Qed.

Lemma pattern_score_nonneg (doc_type text : string) :
  (0 <= get_or_zero doc_type (_pattern_matching text))%Z.
Proof.
  unfold get_or_zero, _pattern_matching.
  induction patterns as [|[t pattern_list] l IH]; [cbn; lia|].
  cbn [map dict_get].
  destruct (String.eqb doc_type t); [|exact IH].
  apply (count_step_nonneg regex
           (fun pattern => search_ignorecase pattern text) 2); lia.
Qed.

(** The confidence of the heuristic stage lies between 0.0 and 0.95. *)
Lemma heuristics_confidence_range (text : string) :
  0 <= snd (classify_by_heuristics text)
  /\ snd (classify_by_heuristics text) <= 0.95.
Proof.
  unfold classify_by_heuristics. cbv zeta.
  set (i := (_count_keywords (lower text) invoice_keywords
             + get_or_zero "invoice" (_pattern_matching (lower text)))%Z).
  set (b := (_count_keywords (lower text) bill_keywords
             + get_or_zero "bill" (_pattern_matching (lower text)))%Z).
  set (p := (_count_keywords (lower text) prescription_keywords
             + get_or_zero "prescription" (_pattern_matching (lower text)))%Z).
  assert (Hi : (0 <= i)%Z).
  { pose proof (count_keywords_nonneg (lower text) invoice_keywords).
    pose proof (pattern_score_nonneg "invoice" (lower text)). subst i. lia. }
  assert (Hb : (0 <= b)%Z).
  { pose proof (count_keywords_nonneg (lower text) bill_keywords).
    pose proof (pattern_score_nonneg "bill" (lower text)). subst b. lia. }
  assert (Hp : (0 <= p)%Z).
  { pose proof (count_keywords_nonneg (lower text) prescription_keywords).
    pose proof (pattern_score_nonneg "prescription" (lower text)).
    subst p. lia. }
  clearbody i b p.
  pose proof (DocumentClassifierProofs.max_key_In
                ("invoice", i) [("bill", b); ("prescription", p)]) as Hin.
  destruct (max_key ("invoice", i) [("bill", b); ("prescription", p)])
    as [mt ms].
  assert (Hms : (0 <= ms)%Z).
  { destruct Hin as [H|[H|[H|[]]]]; injection H as _ H; lia. }
  destruct (ms =? 0)%Z eqn:Hzero; [cbn [snd]; split; lra|].
  apply Z.eqb_neq in Hzero.
  assert (Hpos : 0 < inject_Z ms).
  { change 0 with (inject_Z 0). rewrite <- Zlt_Qlt. lia. }
  set (second := nth 1 (sorted_desc [i; b; p]) 0%Z).
  match goal with
  | |- context [Qltb ?c 0.6] =>
      assert (Hc : 0 <= c /\ c <= 0.95);
      [|destruct (Qltb c 0.6); cbn [snd]; exact Hc]
  end.
  destruct ((1 <? List.length (sorted_desc [i; b; p]))%nat && (0 <? second)%Z)
    eqn:Htwo.
  - apply andb_prop in Htwo. destruct Htwo as [_ Hsecond].
    apply Z.ltb_lt in Hsecond.
    assert (Hsum : 0 < inject_Z (ms + second)).
    { change 0 with (inject_Z 0). rewrite <- Zlt_Qlt. lia. }
    assert (Hratio : 0 <= inject_Z ms / inject_Z (ms + second)).
    { apply Qle_shift_div_l; [exact Hsum|]. lra. }
    unfold py_min.
    destruct (Qltb (inject_Z ms / inject_Z (ms + second)) 0.95) eqn:Hlt.
    + apply Qltb_true in Hlt. split; lra.
    + split; lra.
  - assert (Hratio : 0 <= inject_Z ms / 10.0).
    { apply Qle_shift_div_l; [reflexivity|]. lra. }
    unfold py_min.
    destruct (Qltb (inject_Z ms / 10.0) 0.9) eqn:Hlt.
    + apply Qltb_true in Hlt. split; lra.
    + split; lra.
Qed.

(** X7.  The heuristic stage reports a confidence between 0.0 and 0.95; it
    names a type exactly when that confidence is at least 0.6, and the type
    it names is invoice, bill or prescription. *)
Theorem heuristics_name_a_type_from_confidence_0_6 :
  forall (text : string),
    0 <= snd (classify_by_heuristics text) <= 0.95
    /\ (fst (classify_by_heuristics text) = None
        <-> snd (classify_by_heuristics text) < 0.6)
    /\ (forall doc_type,
           fst (classify_by_heuristics text) = Some doc_type ->
           In doc_type valid_types).
Proof.
  intro text.
  split; [apply heuristics_confidence_range|].
  destruct (classify_by_heuristics text) as [[t|] c] eqn:Hh; cbn [fst snd].
  - destruct (@DocumentClassifierProofs.classify_by_heuristics_type text t c Hh)
      as [Hin Hc].
    split.
    + split; [discriminate|]. intro Hlt. lra.
    + intros doc_type Heq. injection Heq as <-. exact Hin.
  - pose proof (@DocumentClassifierProofs.classify_by_heuristics_none text c Hh)
      as Hc.
    split.
    + split; [intros _; exact Hc|reflexivity].
    + discriminate.
Qed.

(** X8.  Whatever the collaborator does, the confidence [classify] reports
    lies between 0.3 and 0.95; without a collaborator it is 0.3, the
    default, or at least 0.6. *)
Theorem classify_confidence_range :
  forall (text : string) (gemini_extractor : option model_service),
  exists (doc_type : string) (confidence : Q),
    classify text gemini_extractor = Ret (doc_type, confidence)
    /\ 0.3 <= confidence <= 0.95
    /\ (gemini_extractor = None -> confidence = 0.3 \/ 0.6 <= confidence).
Proof.
  intros text gemini.
  pose proof (heuristics_confidence_range text) as Hrange.
  unfold classify.
  destruct (classify_by_heuristics text) as [doc_type confidence] eqn:Hh.
  cbn [snd] in Hrange.
  assert (Hdefault : exists t c,
             Ret (heuristic_or_default doc_type confidence) = Ret (t, c)
             /\ 0.3 <= c <= 0.95 /\ (c = 0.3 \/ 0.6 <= c)).
  { destruct doc_type as [t|].
    - exists t, confidence. split; [reflexivity|].
      destruct (@DocumentClassifierProofs.classify_by_heuristics_type
                  text t confidence Hh) as [_ Hc].
      split; [split; lra|right; exact Hc].
    - exists "invoice", 0.3. split; [reflexivity|].
      split; [split; lra|left; reflexivity]. }
  assert (Hdefault' : exists t c,
             Ret (heuristic_or_default doc_type confidence) = Ret (t, c)
             /\ 0.3 <= c <= 0.95
             /\ (gemini = None -> c = 0.3 \/ 0.6 <= c)).
  { destruct Hdefault as [t [c [H1 [H2 H3]]]]. exists t, c. auto. }
  destruct (if Qltb 0.7 confidence then doc_type else None) as [t|] eqn:Hsel.
  - exists t, confidence. split; [reflexivity|].
    destruct (Qltb 0.7 confidence) eqn:Hgt; [|discriminate].
    apply Qltb_true in Hgt.
    split; [split; lra|]. intros _. right. lra.
  - destruct gemini as [g|]; cbn [bind]; [|exact Hdefault'].
    destruct (Qltb confidence 0.7); cbn [bind]; [|exact Hdefault'].
    destruct (DocumentClassifierProofs.classify_with_gemini_returns text g)
      as [gt [gc [Hg [_ Hgc]]]].
    rewrite Hg. unfold try_outcome. cbn [bind].
    destruct (Qltb confidence gc); cbn [bind]; [|exact Hdefault'].
    exists gt, gc. split; [reflexivity|].
    split; [|discriminate].
    destruct Hgc as [-> | [-> | ->]]; split; lra.
Qed.

(** ** Letter case *)

Lemma lower_char_idempotent (c : ascii) :
  lower_char (lower_char c) = lower_char c.
Proof.
  destruct c as [[] [] [] [] [] [] [] []]; reflexivity.
Qed.

Lemma lower_idempotent (s : string) : lower (lower s) = lower s.
Proof.
  unfold lower. induction s as [|c s IH]; [reflexivity|].
  cbn [map_chars]. rewrite lower_char_idempotent, IH. reflexivity.
Qed.

(** X9.  The heuristic stage looks at the lower-cased text only: a text
    and its lower-case form get the same type and the same confidence. *)
Theorem heuristics_ignore_letter_case :
  forall (text : string),
    classify_by_heuristics (lower text) = classify_by_heuristics text.
Proof.
  intro text. unfold classify_by_heuristics.
  rewrite lower_idempotent. reflexivity.
Qed.

End HeuristicsProofs.

(* ================================================================== *)
(** * Further properties of the extractor *)
(* ================================================================== *)

Module ExtractionProofs.

Import PyStr Py GeminiExtractor DataValidator StructuredExtraction Samples.
Open Scope string_scope.
Open Scope list_scope.

(** ** The document type of an extracted record *)

Lemma dict_has_set (V : Type) (k : string) (v : V) (d : list (string * V)) :
  dict_has k (dict_set k v d) = true.
Proof.
  unfold dict_has. induction d as [|[k' v'] d IH]; cbn [dict_set dict_get].
  - rewrite String.eqb_refl. reflexivity.
  - destruct (String.eqb k k') eqn:E; cbn [dict_get].
    + rewrite String.eqb_refl. reflexivity.
    + rewrite E. exact IH.
Qed.

Lemma with_document_type_names (extracted_data : pyval) (doc_type : string)
      (v : pyval) :
  with_document_type extracted_data doc_type = Ret v -> names_its_type v.
Proof.
  unfold with_document_type.
  destruct extracted_data as [ | b | z | q | str | l | d];
    cbn [py_in bind]; try discriminate.
  - destruct (contains "document_type" str); cbn [py_setitem];
      [|discriminate].
    intro H. injection H as <-. exact I.
  - destruct (existsb _ l); cbn [py_setitem]; [|discriminate].
    intro H. injection H as <-. exact I.
  - destruct (dict_has "document_type" d) eqn:Hhas; cbn [py_setitem].
    + intro H. injection H as <-. exact Hhas.
    + intro H. injection H as <-. apply dict_has_set.
Qed.

Section Extraction.

Variable service : Type.
Variable generate_content : string -> Z -> service -> outcome string * service.
Variable GEMINI_MAX_TOKENS : Z.
Variable json_loads : string -> outcome pyval.
Variable get_extraction_prompt : string -> string -> pyval -> outcome string.

(** X10.  [extract_structured_data] never raises.  A result marked as a
    success carries no error and a record that is not null and, when it is
    a mapping, has a [document_type] entry; a result marked as a failure
    carries a null record and an error message. *)
Theorem extract_structured_data_success_and_failure :
  forall (text doc_type : string) (schema : pyval) (s : service),
  exists r s',
    extract_structured_data generate_content GEMINI_MAX_TOKENS json_loads
                            get_extraction_prompt
                            text doc_type schema s
    = (Ret r, s')
    /\ (success r = true -> error r = None /\ names_its_type (data r))
    /\ (success r = false ->
        data r = PNone /\ exists msg, error r = Some msg).
Proof.
  intros text doc_type schema s.
  assert (Hfailure : forall (msg : string) (w raw : option string)
                            (m : option response),
             (success (mk_extraction PNone false (Some msg) w raw m) = true ->
              error (mk_extraction PNone false (Some msg) w raw m) = None
              /\ names_its_type
                   (data (mk_extraction PNone false (Some msg) w raw m)))
             /\ (success (mk_extraction PNone false (Some msg) w raw m) = false ->
                 data (mk_extraction PNone false (Some msg) w raw m) = PNone
                 /\ exists msg',
                     error (mk_extraction PNone false (Some msg) w raw m)
                     = Some msg')).
  { intros msg w raw m. cbn. split; [discriminate|].
    intros _. split; [reflexivity|eauto]. }
  assert (Hsuccess : forall (v : pyval) (w : option string)
                            (m : option response),
             names_its_type v ->
             (success (mk_extraction v true None w None m) = true ->
              error (mk_extraction v true None w None m) = None
              /\ names_its_type (data (mk_extraction v true None w None m)))
             /\ (success (mk_extraction v true None w None m) = false ->
                 data (mk_extraction v true None w None m) = PNone
                 /\ exists msg',
                     error (mk_extraction v true None w None m) = Some msg')).
  { intros v w m Hv. cbn. split; [|discriminate].
    intros _. split; [reflexivity|exact Hv]. }
  unfold extract_structured_data, try_except, bindM, lift, any_Exception, ret.
  destruct (get_extraction_prompt text doc_type schema) as [prompt|e].
  2:{ eexists _, _. split; [reflexivity|apply Hfailure]. }
  unfold call_gemini.
  destruct (generate_content prompt GEMINI_MAX_TOKENS s)
    as [[reply|e] s']; cbn [response_error response_text].
  2:{ eexists _, _. split; [reflexivity|apply Hfailure]. }
  unfold loads, lift.
  destruct (json_loads reply) as [extracted_data|e].
  - destruct (with_document_type extracted_data doc_type) as [v|e] eqn:Hv.
    + eexists _, _. split; [reflexivity|].
      apply Hsuccess.
      exact (with_document_type_names extracted_data doc_type v Hv).
    + destruct (is_JSONDecodeError e).
      * destruct (_extract_json_from_text reply) as [cleaned_json|].
        2:{ eexists _, _. split; [reflexivity|apply Hfailure]. }
        destruct (json_loads cleaned_json) as [cleaned|e'].
        2:{ eexists _, _. split; [reflexivity|apply Hfailure]. }
        destruct (with_document_type cleaned doc_type) as [v|e'] eqn:Hv'.
        -- eexists _, _. split; [reflexivity|].
           apply Hsuccess.
           exact (with_document_type_names cleaned doc_type v Hv').
        -- eexists _, _. split; [reflexivity|apply Hfailure].
      * eexists _, _. split; [reflexivity|apply Hfailure].
  - destruct (is_JSONDecodeError e).
    2:{ eexists _, _. split; [reflexivity|apply Hfailure]. }
    destruct (_extract_json_from_text reply) as [cleaned_json|].
    2:{ eexists _, _. split; [reflexivity|apply Hfailure]. }
    destruct (json_loads cleaned_json) as [cleaned|e'].
    2:{ eexists _, _. split; [reflexivity|apply Hfailure]. }
    destruct (with_document_type cleaned doc_type) as [v|e'] eqn:Hv'.
    + eexists _, _. split; [reflexivity|].
      apply Hsuccess.
      exact (with_document_type_names cleaned doc_type v Hv').
    + eexists _, _. split; [reflexivity|apply Hfailure].
Qed.

(** X11.  When the reply of the service parses as a mapping, the
    extraction succeeds with that mapping: a [document_type] the reply
    states is kept as it is, whatever type was asked for, and a missing one
    is filled in with the type asked for. *)
Theorem extract_structured_data_keeps_stated_type :
  forall (text doc_type : string) (schema : pyval) (s s' : service)
         (prompt reply : string) (d : list (string * pyval)),
    get_extraction_prompt text doc_type schema = Ret prompt ->
    generate_content prompt GEMINI_MAX_TOKENS s = (Ret reply, s') ->
    json_loads reply = Ret (PDict d) ->
    extract_structured_data generate_content GEMINI_MAX_TOKENS json_loads
                            get_extraction_prompt
                            text doc_type schema s
    = (Ret (mk_extraction
              (PDict (match dict_get "document_type" d with
                      | Some _ => d
                      | None => d ++ [("document_type", PStr doc_type)]
                      end))
              true None None None (Some (mk_response reply None))), s').
Proof.
  intros text doc_type schema s s' prompt reply d Hprompt Hreply Hloads.
  unfold extract_structured_data, try_except, bindM, lift, any_Exception, ret.
  rewrite Hprompt. unfold call_gemini. rewrite Hreply.
  cbn [response_error response_text]. unfold loads, lift. rewrite Hloads.
  unfold with_document_type. cbn [py_in bind]. unfold dict_has.
  destruct (dict_get "document_type" d) eqn:Hget.
  - reflexivity.
  - cbn [py_setitem].
    assert (Hset : dict_set "document_type" (PStr doc_type) d
                   = d ++ [("document_type", PStr doc_type)]).
    { clear -Hget. induction d as [|[k v] d IH]; [reflexivity|].
      cbn [dict_get] in Hget. cbn [dict_set app].
      destruct (String.eqb "document_type" k); [discriminate|].
      rewrite (IH Hget). reflexivity. }
    rewrite Hset. reflexivity.
Qed.

End Extraction.

Lemma extract_structured_data_keeps_stated_type_sample :
  fst (extract_structured_data answers_empty_object 2048 loads_empty_object
                               (fun _ _ _ => Ret "Extract structured information")
                               "text" "bill" (PDict []) tt)
  = Ret (mk_extraction (PDict [("document_type", PStr "bill")])
                       true None None None (Some (mk_response "{}" None))).
Proof.
  exact (f_equal fst
           (extract_structured_data_keeps_stated_type
              unit answers_empty_object 2048%Z loads_empty_object
              (fun _ _ _ => Ret "Extract structured information")
              "text" "bill" (PDict []) tt tt
              "Extract structured information" "{}" []
              eq_refl eq_refl eq_refl)).
Defined.


(** ** The JSON part of a mixed reply *)

Lemma list_ascii_of_string_app (a b : string) :
  list_ascii_of_string (a ++ b)
  = list_ascii_of_string a ++ list_ascii_of_string b.
Proof.
  induction a as [|c a IH]; [reflexivity|].
  cbn. rewrite IH. reflexivity.
Qed.

Lemma string_of_list_ascii_app (l1 l2 : list ascii) :
  string_of_list_ascii (l1 ++ l2)
  = (string_of_list_ascii l1 ++ string_of_list_ascii l2)%string.
Proof.
  induction l1 as [|c l1 IH]; [reflexivity|].
  cbn. rewrite IH. reflexivity.
Qed.

Lemma rev_involutive (s : string) : rev (rev s) = s.
Proof.
  unfold rev.
  rewrite list_ascii_of_string_of_list_ascii, List.rev_involutive.
  apply string_of_list_ascii_of_string.
Qed.

Lemma rev_app (a b : string) : rev (a ++ b) = (rev b ++ rev a)%string.
Proof.
  unfold rev.
  rewrite list_ascii_of_string_app, rev_app_distr.
  apply string_of_list_ascii_app.
Qed.

Lemma has_char_app (p : ascii -> bool) (a b : string) :
  has_char p (a ++ b) = has_char p a || has_char p b.
Proof.
  induction a as [|c a IH]; [reflexivity|].
  cbn [append has_char]. rewrite IH. apply orb_assoc.
Qed.

Lemma has_char_rev (p : ascii -> bool) (s : string) :
  has_char p (rev s) = has_char p s.
Proof.
  induction s as [|c s IH]; [reflexivity|].
  change (String c s) with (String c "" ++ s)%string at 1.
  rewrite rev_app, has_char_app, IH.
  cbn. rewrite orb_false_r. apply orb_comm.
Qed.

(** [from_first c] cuts at the first [c]. *)
Lemma from_first_some (c : ascii) (s found : string) :
  from_first c s = Some found ->
  exists before rest,
    s = (before ++ found)%string /\ found = String c rest
    /\ has_char (is_char c) before = false.
Proof.
  revert found. induction s as [|x s IH]; intros found H; [discriminate|].
  cbn [from_first] in H.
  destruct (Ascii.eqb x c) eqn:E.
  - injection H as <-. apply Ascii.eqb_eq in E. subst x.
    exists ""%string, s. repeat split; reflexivity.
  - destruct (IH found H) as [before [rest [Hs [Hfound Hnone]]]].
    exists (String x before), rest.
    split; [cbn; rewrite Hs; reflexivity|].
    split; [exact Hfound|].
    cbn [has_char]. rewrite Hnone. unfold is_char.
    rewrite Ascii.eqb_sym, E. reflexivity.
Qed.

Lemma from_first_none (c : ascii) (s : string) :
  from_first c s = None -> has_char (is_char c) s = false.
Proof.
  induction s as [|x s IH]; [reflexivity|].
  cbn [from_first has_char]. unfold is_char.
  rewrite (Ascii.eqb_sym c x).
  destruct (Ascii.eqb x c); [discriminate|]. exact IH.
Qed.

(** What [outermost] returns runs from the first [open] to the last
    [close] after it. *)
Lemma outermost_some (open close : ascii) (s json : string) :
  outermost open close s = Some json ->
  exists before body after,
    s = (before ++ json ++ after)%string
    /\ json = String open (body ++ String close "")
    /\ has_char (is_char open) before = false
    /\ has_char (is_char close) after = false.
Proof.
  unfold outermost.
  destruct (from_first open s) as [[|x inner]|] eqn:Hopen; try discriminate.
  destruct (from_first_some open s _ Hopen)
    as [before [rest [Hs [Hfound Hbefore]]]].
  injection Hfound as -> ->.
  destruct (from_first close (rev rest)) as [reversed|] eqn:Hclose;
    [|discriminate].
  intro H. injection H as <-.
  destruct (from_first_some close (rev rest) _ Hclose)
    as [pre [tail [Hrev [Hreversed Hpre]]]].
  assert (Hrest : rest = (rev reversed ++ rev pre)%string).
  { rewrite <- (rev_involutive rest), Hrev. apply rev_app. }
  exists before, (rev tail), (rev pre).
  split; [|split; [|split]].
  - rewrite Hs, Hrest. reflexivity.
  - rewrite Hreversed.
    change (String close tail) with (String close "" ++ tail)%string.
    rewrite rev_app. reflexivity.
  - exact Hbefore.
  - rewrite has_char_rev. exact Hpre.
Qed.

(** A text with an [open] and a [close] after it has an outermost part. *)
Lemma outermost_none (open close : ascii) (a b c : string) :
  outermost open close (a ++ String open (b ++ String close c)) <> None.
Proof.
  unfold outermost.
  destruct (from_first open (a ++ String open (b ++ String close c)))
    as [[|x inner]|] eqn:Hopen.
  - apply from_first_some in Hopen.
    destruct Hopen as [_ [rest [_ [Habs _]]]]. discriminate.
  - destruct (from_first_some open _ _ Hopen)
      as [before [rest [Hs [Hfound Hbefore]]]].
    injection Hfound as -> ->.
    assert (Hhas : has_char (is_char close) rest = true).
    { (* the first [open] is at or before the given one *)
      clear Hopen. revert before Hs Hbefore.
      induction a as [|y a IH]; intros before Hs Hbefore.
      - destruct before as [|z before].
        + cbn in Hs. injection Hs as <-.
          rewrite has_char_app. cbn [has_char]. unfold is_char at 2.
          rewrite Ascii.eqb_refl. cbn. apply orb_true_r.
        + cbn in Hs. injection Hs as Hz _. subst z.
          cbn [has_char] in Hbefore. unfold is_char in Hbefore.
          rewrite Ascii.eqb_refl in Hbefore. discriminate.
      - destruct before as [|z before].
        + cbn in Hs. injection Hs as _ Hs. rewrite <- Hs.
          rewrite !has_char_app. cbn [has_char]. rewrite has_char_app.
          cbn [has_char]. unfold is_char at 3.
          rewrite Ascii.eqb_refl. cbn. rewrite !orb_true_r. reflexivity.
        + cbn in Hs. injection Hs as _ Hs.
          cbn [has_char] in Hbefore. apply orb_false_elim in Hbefore.
          exact (IH before Hs (proj2 Hbefore)). }
    rewrite <- has_char_rev in Hhas.
    destruct (from_first close (rev rest)) eqn:Hclose; [discriminate|].
    apply from_first_none in Hclose. congruence.
  - apply from_first_none in Hopen.
    rewrite has_char_app in Hopen. cbn [has_char] in Hopen.
    unfold is_char at 2 in Hopen. rewrite Ascii.eqb_refl in Hopen.
    rewrite orb_true_r in Hopen. discriminate.
Qed.

Lemma extracted_json_is_the_outermost_bracketed_part_helper
      (text json : string) :
  _extract_json_from_text text = Some json ->
  exists (open close : ascii) (before body after : string),
    ((open, close) = ("{", "}") \/ (open, close) = ("[", "]"))%char
    /\ text = (before ++ json ++ after)%string
    /\ json = String open (body ++ String close "")
    /\ has_char (is_char open) before = false
    /\ has_char (is_char close) after = false.
Proof.
  unfold _extract_json_from_text.
  destruct (outermost "{" "}" text) as [found|] eqn:Hbraces.
  - intro H. injection H as <-.
    destruct (outermost_some "{" "}" text found Hbraces)
      as [before [body [after H]]].
    exists "{"%char, "}"%char, before, body, after.
    split; [left; reflexivity|exact H].
  - intro Hbrackets.
    destruct (outermost_some "[" "]" text json Hbrackets)
      as [before [body [after H]]].
    exists "["%char, "]"%char, before, body, after.
    split; [right; reflexivity|exact H].
Qed.

(** X12.  What [_extract_json_from_text] cuts out of a reply is a part of
    the reply that opens with a brace and ends with the matching closing
    brace, or opens and ends with square brackets; it starts at the first
    such opening character of the reply and ends at the last closing one. *)
Theorem extracted_json_is_the_outermost_bracketed_part :
  forall (text json : string),
    _extract_json_from_text text = Some json ->
    exists (open close : ascii) (before body after : string),
      ((open, close) = ("{", "}") \/ (open, close) = ("[", "]"))%char
      /\ text = (before ++ json ++ after)%string
      /\ json = String open (body ++ String close "")
      /\ has_char (is_char open) before = false
      /\ has_char (is_char close) after = false.
Proof.
  exact extracted_json_is_the_outermost_bracketed_part_helper.
Qed.

Lemma extracted_json_is_the_outermost_bracketed_part_sample :
  _extract_json_from_text "Result: {items: [1, 2]} as requested"
  = Some "{items: [1, 2]}"
  /\ exists (open close : ascii) (before body after : string),
      ((open, close) = ("{", "}") \/ (open, close) = ("[", "]"))%char
      /\ "Result: {items: [1, 2]} as requested"
         = (before ++ "{items: [1, 2]}" ++ after)%string
      /\ "{items: [1, 2]}" = String open (body ++ String close "")
      /\ has_char (is_char open) before = false
      /\ has_char (is_char close) after = false.
Proof.
  split; [reflexivity|].
  exact (extracted_json_is_the_outermost_bracketed_part
           "Result: {items: [1, 2]} as requested" "{items: [1, 2]}" eq_refl).
Defined.

(** X13.  [_extract_json_from_text] finds nothing exactly in a reply that
    has neither an opening brace followed by a closing brace nor an opening
    square bracket followed by a closing one. *)
Theorem extracted_json_is_found_whenever_brackets_pair_up :
  forall (text : string),
    _extract_json_from_text text <> None
    <-> exists (open close : ascii) (a b c : string),
          ((open, close) = ("{", "}") \/ (open, close) = ("[", "]"))%char
          /\ text = (a ++ String open (b ++ String close c))%string.
Proof.
  intro text. split.
  - destruct (_extract_json_from_text text) as [json|] eqn:H;
      [|intro Habs; contradiction].
    intros _.
    destruct (extracted_json_is_the_outermost_bracketed_part_helper text json H)
      as [open [close [before [body [after [Hkind [Htext [Hjson _]]]]]]]].
    exists open, close, before, body, after.
    split; [exact Hkind|].
    rewrite Htext, Hjson. cbn [append].
    do 2 f_equal. clear.
    induction body as [|x body IH]; [reflexivity|].
    cbn [append]. rewrite IH. reflexivity.
  - intros [open [close [a [b [c [Hkind Htext]]]]]].
    subst text. unfold _extract_json_from_text.
    destruct Hkind as [Hkind|Hkind]; injection Hkind as -> ->.
    + destruct (outermost "{" "}" _) eqn:H; [discriminate|].
      exfalso. exact (outermost_none "{" "}" a b c H).
    + destruct (outermost "{" "}" _); [discriminate|].
      exact (outermost_none "[" "]" a b c).
Qed.


(** ** Assessed scores *)

Open Scope Q_scope.








Section Assessment.

Variable service : Type.
Variable generate_content : string -> Z -> service -> outcome string * service.
Variable GEMINI_MAX_TOKENS : Z.
Variable SELF_CONSISTENCY_RUNS : Z.
Variable json_loads : string -> outcome pyval.
Variable get_self_consistency_prompt : string -> string -> pyval -> Z -> string.
Variable get_confidence_prompt : string -> pyval -> string -> outcome string.


(** ** Self-consistency with a successful attempt *)

(** X15.  When the loop over the attempts completes and at least one
    attempt succeeded, [self_consistency_extraction] reports a success
    whose record is that of the first successful attempt, whatever the
    later attempts returned; the number of successful attempts it reports
    is at least 1 and at most the total, which is the number of attempts
    made. *)
Theorem self_consistency_extraction_takes_first_success :
  forall (text doc_type : string) (schema : pyval) (num_runs : option Z)
         (s s' : service) (log : list pyval) (first : pyval)
         (others : list pyval),
    let runs := effective_runs SELF_CONSISTENCY_RUNS num_runs in
    let successes := Z.of_nat (List.length (first :: others)) in
    run_attempts generate_content GEMINI_MAX_TOKENS json_loads
                 get_self_consistency_prompt text doc_type schema
                 (Z.to_nat runs) 0%Z [] s
    = (Ret log, s') ->
    filter succeeded log = first :: others ->
    self_consistency_extraction generate_content GEMINI_MAX_TOKENS
                                SELF_CONSISTENCY_RUNS json_loads
                                get_self_consistency_prompt
                                text doc_type schema num_runs s
    = (Ret (PDict [("data", data_of first);
                   ("success", PBool true);
                   ("consistency_rate",
                    PFloat (inject_Z successes / inject_Z runs));
                   ("successful_attempts", PInt successes);
                   ("total_attempts", PInt runs);
                   ("results", PList log)]), s')
    /\ (1 <= successes <= runs)%Z
    /\ Z.of_nat (List.length log) = runs.
Proof.
  intros text doc_type schema num_runs s s' log first others runs successes
         Hrun Hwin.
  destruct (GeminiExtractorProofs.run_attempts_outcome
              generate_content GEMINI_MAX_TOKENS json_loads
              get_self_consistency_prompt text doc_type schema
              (Z.to_nat runs) 0%Z [] s) as [o [s1 [Hrun' Ho]]].
  rewrite Hrun in Hrun'. injection Hrun' as <- <-.
  destruct Ho as [log' [Hall Hnums]]. cbn [app] in Hall. subst log'.
  assert (Hlen : List.length log = Z.to_nat runs).
  { rewrite <- (length_map attempt_number log), Hnums.
    rewrite length_map. apply length_seq. }
  assert (Hcount : (List.length (first :: others) <= List.length log)%nat).
  { rewrite <- Hwin. apply filter_length_le. }
  assert (Hpos : (0 < List.length (first :: others))%nat) by (cbn; lia).
  split; [|split].
  - unfold self_consistency_extraction, bindM. fold runs. rewrite Hrun.
    rewrite Hwin. reflexivity.
  - unfold successes. lia.
  - lia.
Qed.

End Assessment.

Lemma self_consistency_extraction_takes_first_success_sample :
  run_attempts answers_empty_object 2048 loads_empty_object fixed_prompt
               "text" "invoice" (PDict []) 2 0%Z [] tt
  = (Ret [PDict [("data", PDict []); ("attempt", PInt 1);
                 ("success", PBool true)];
          PDict [("data", PDict []); ("attempt", PInt 2);
                 ("success", PBool true)]], tt)
  /\ (1 <= 2 <= effective_runs 3 (Some 2))%Z.
Proof.
  assert (Hrun :
    run_attempts answers_empty_object 2048 loads_empty_object fixed_prompt
                 "text" "invoice" (PDict []) 2 0%Z [] tt
    = (Ret [PDict [("data", PDict []); ("attempt", PInt 1);
                   ("success", PBool true)];
            PDict [("data", PDict []); ("attempt", PInt 2);
                   ("success", PBool true)]], tt))
    by (vm_compute; reflexivity).
  split; [exact Hrun|].
  exact (proj1 (proj2
    (self_consistency_extraction_takes_first_success
       unit answers_empty_object 2048%Z 3%Z loads_empty_object fixed_prompt
       "text" "invoice" (PDict []) (Some 2%Z) tt tt _ _ _ Hrun eq_refl))).
Defined.

End ExtractionProofs.

(* ================================================================== *)
(** * Further properties of the validator *)
(* ================================================================== *)

Module ValidationProofs.

Import PyStr Py PyDate DataValidator ValidationInvariants.
Open Scope string_scope.
Open Scope list_scope.

(** ** Relations every step keeps *)

Section Keeps.

Variable R : validation_result -> validation_result -> Prop.
Hypothesis R_refl : forall r, R r r.
Hypothesis R_trans : forall r1 r2 r3, R r1 r2 -> R r2 r3 -> R r1 r3.

Lemma keeps_ret (A : Type) (a : A) : keeps R (ret a).
Proof. intro r. apply R_refl. Qed.

Lemma keeps_lift (A : Type) (o : outcome A) : keeps R (lift o).
Proof. intro r. apply R_refl. Qed.

Lemma keeps_get : keeps R get.
Proof. intro r. apply R_refl. Qed.

Lemma keeps_bind (A B : Type) (m : V A) (k : A -> V B) :
  keeps R m -> (forall a, keeps R (k a)) -> keeps R (bindM m k).
Proof.
  intros Hm Hk r. unfold bindM. specialize (Hm r).
  destruct (m r) as [[a|e] r1]; cbn [snd] in *.
  - exact (R_trans _ _ _ Hm (Hk a r1)).
  - exact Hm.
Qed.

Lemma keeps_try (A : Type) (catches : exn -> bool) (body : V A)
      (handler : exn -> V A) :
  keeps R body -> (forall e, keeps R (handler e)) ->
  keeps R (try_except catches body handler).
Proof.
  intros Hbody Hhandler r. unfold try_except. specialize (Hbody r).
  destruct (body r) as [[a|e] r1]; cbn [snd] in *; [exact Hbody|].
  destruct (catches e); cbn [snd]; [|exact Hbody].
  exact (R_trans _ _ _ Hbody (Hhandler e r1)).
Qed.

Lemma keeps_for_each (A : Type) (l : list A) (body : A -> V unit) :
  (forall x, keeps R (body x)) -> keeps R (for_each l body).
Proof.
  intro Hbody. induction l as [|x l IH]; cbn [for_each].
  - apply keeps_ret.
  - apply keeps_bind; [apply Hbody|intros _; exact IH].
Qed.

Lemma keeps_for_each_indexed (A : Type) (l : list A) (body : nat -> A -> V unit) :
  (forall i x, keeps R (body i x)) ->
  forall i, keeps R (for_each_indexed i l body).
Proof.
  intro Hbody. induction l as [|x l IH]; intro i; cbn [for_each_indexed].
  - apply keeps_ret.
  - apply keeps_bind; [apply Hbody|intros _; apply IH].
Qed.

End Keeps.

(** ** Validators only append *)

Lemma only_appends_refl (r : validation_result) : only_appends r r.
Proof. split; exists []; rewrite app_nil_r; reflexivity. Qed.

Lemma only_appends_trans (r1 r2 r3 : validation_result) :
  only_appends r1 r2 -> only_appends r2 r3 -> only_appends r1 r3.
Proof.
  intros [[e1 He1] [w1 Hw1]] [[e2 He2] [w2 Hw2]]. split.
  - exists (e1 ++ e2). rewrite He2, He1, app_assoc. reflexivity.
  - exists (w1 ++ w2). rewrite Hw2, Hw1, app_assoc. reflexivity.
Qed.

Lemma add_error_appends (msg : string) : keeps only_appends (add_error msg).
Proof.
  intro r. cbn. split; [exists [msg]|exists []; rewrite app_nil_r]; reflexivity.
Qed.

Lemma add_warning_appends (msg : string) :
  keeps only_appends (add_warning msg).
Proof.
  intro r. cbn. split; [exists []; rewrite app_nil_r|exists [msg]]; reflexivity.
Qed.

Lemma set_field_validation_appends (field : string) (fv : field_validation) :
  keeps only_appends (set_field_validation field fv).
Proof. intro r. cbn. split; exists []; rewrite app_nil_r; reflexivity. Qed.

Lemma set_is_valid_appends (b : bool) :
  keeps only_appends (set_is_valid b).
Proof. intro r. cbn. split; exists []; rewrite app_nil_r; reflexivity. Qed.

Create HintDb appends.

#[local] Hint Resolve add_error_appends add_warning_appends
  set_field_validation_appends set_is_valid_appends : appends.

(** One step of a proof that a validator only appends. *)
Ltac appends_step :=
  first
    [ exact only_appends_refl
    | exact only_appends_trans
    | apply keeps_ret
    | apply keeps_lift
    | apply keeps_get
    | solve [auto with appends]
    | apply keeps_bind; [| | intro]
    | apply keeps_try; [| | intro]
    | apply keeps_for_each; [| | intro]
    | apply keeps_for_each_indexed; [| | intros ? ?]
    | match goal with
      | |- keeps _ (match ?x with _ => _ end) => destruct x
      end ].

Ltac appends := repeat appends_step.

Section Validator.

Variable current_year : Z.
Variable float_of_str : string -> option Q.
Variable format_2f : Q -> string.

Lemma check_required_fields_appends (data : pyval) (fields : list string) :
  keeps only_appends (_check_required_fields data fields).
Proof. unfold _check_required_fields. appends. Qed.

Lemma validate_field_type_appends (data : pyval) (field field_type : string) :
  keeps only_appends
        (_validate_field_type current_year float_of_str data field field_type).
Proof. unfold _validate_field_type. appends. Qed.

#[local] Hint Resolve check_required_fields_appends
  validate_field_type_appends : appends.

Lemma validate_fields_of_type_appends (data : pyval) (fields : list string)
      (field_type : string) :
  keeps only_appends
        (validate_fields_of_type current_year float_of_str data fields
                                 field_type).
Proof. unfold validate_fields_of_type. appends. Qed.

Lemma validate_invoice_item_appends (item : pyval) (index : nat) :
  keeps only_appends
        (_validate_invoice_item float_of_str format_2f item index).
Proof. unfold _validate_invoice_item. appends. Qed.

Lemma validate_invoice_totals_appends (data : pyval) :
  keeps only_appends
        (_validate_invoice_totals float_of_str format_2f data).
Proof. unfold _validate_invoice_totals, invoice_totals_checks. appends. Qed.

#[local] Hint Resolve validate_fields_of_type_appends
  validate_invoice_item_appends validate_invoice_totals_appends : appends.

Lemma validate_invoice_appends (data : pyval) :
  keeps only_appends
        (_validate_invoice current_year float_of_str format_2f data).
Proof. unfold _validate_invoice. appends. Qed.

Lemma validate_bill_calculations_appends (data : pyval) :
  keeps only_appends
        (_validate_bill_calculations float_of_str format_2f data).
Proof. unfold _validate_bill_calculations. appends. Qed.

#[local] Hint Resolve validate_bill_calculations_appends : appends.

Lemma validate_bill_appends (data : pyval) :
  keeps only_appends
        (_validate_bill current_year float_of_str format_2f data).
Proof. unfold _validate_bill. appends. Qed.

Lemma validate_medication_appends (medication : pyval) (index : nat) :
  keeps only_appends (_validate_medication medication index).
Proof. unfold _validate_medication. appends. Qed.

#[local] Hint Resolve validate_medication_appends : appends.

Lemma validate_prescription_appends (data : pyval) :
  keeps only_appends
        (_validate_prescription current_year float_of_str data).
Proof. unfold _validate_prescription. appends. Qed.

Lemma validate_common_fields_appends (data : pyval) :
  keeps only_appends
        (_validate_common_fields current_year float_of_str data).
Proof. unfold _validate_common_fields. appends. Qed.

#[local] Hint Resolve validate_invoice_appends validate_bill_appends
  validate_prescription_appends validate_common_fields_appends : appends.

Lemma validate_document_steps_appends (data : pyval) (doc_type : string) :
  keeps only_appends
        (validate_document_steps current_year float_of_str format_2f
                                 data doc_type).
Proof. unfold validate_document_steps. appends. Qed.

(** X16.  No validator removes or rewrites a message: whether it returns
    or raises, each of the type-specific validators, the common-field
    validator and the body of [validate_document] leaves the errors and the
    warnings it found in place and only appends to them. *)
Theorem validators_only_append :
  forall (data : pyval) (doc_type : string) (r : validation_result),
    only_appends r (snd (_validate_invoice current_year float_of_str
                                           format_2f data r))
    /\ only_appends r (snd (_validate_bill current_year float_of_str
                                           format_2f data r))
    /\ only_appends r (snd (_validate_prescription current_year float_of_str
                                                   data r))
    /\ only_appends r (snd (_validate_common_fields current_year float_of_str
                                                    data r))
    /\ only_appends r (snd (validate_document_steps current_year float_of_str
                                                    format_2f data doc_type r)).
Proof.
  intros data doc_type r.
  split; [apply validate_invoice_appends|].
  split; [apply validate_bill_appends|].
  split; [apply validate_prescription_appends|].
  split; [apply validate_common_fields_appends|].
  apply validate_document_steps_appends.
Qed.

(** ** Steps that return *)

Lemma returns_ret (A : Type) (a : A) : returns a (ret a).
Proof. intro r. exists r. reflexivity. Qed.

Lemma returns_lift (A : Type) (a : A) (o : outcome A) :
  o = Ret a -> returns a (lift o).
Proof. intros -> r. exists r. reflexivity. Qed.

Lemma returns_bind (A B : Type) (a : A) (b : B) (m : V A) (k : A -> V B) :
  returns a m -> returns b (k a) -> returns b (bindM m k).
Proof.
  intros Hm Hk r. destruct (Hm r) as [r1 H1]. destruct (Hk r1) as [r2 H2].
  exists r2. unfold bindM. rewrite H1. exact H2.
Qed.

Lemma reports_add_error (msg : string) : reports msg tt (add_error msg).
Proof.
  intro r. eexists. split; [reflexivity|].
  cbn. apply in_or_app. right. left. reflexivity.
Qed.

Lemma reports_bind_later (msg : string) (A B : Type) (a : A) (b : B)
      (m : V A) (k : A -> V B) :
  returns a m -> reports msg b (k a) -> reports msg b (bindM m k).
Proof.
  intros Hm Hk r. destruct (Hm r) as [r1 H1]. destruct (Hk r1) as [r2 H2].
  exists r2. unfold bindM. rewrite H1. exact H2.
Qed.

Lemma reports_try (msg : string) (A : Type) (a : A) (catches : exn -> bool)
      (body : V A) (handler : exn -> V A) :
  reports msg a body -> reports msg a (try_except catches body handler).
Proof.
  intros Hbody r. destruct (Hbody r) as [r1 [H1 Hin]].
  exists r1. unfold try_except. rewrite H1. split; [reflexivity|exact Hin].
Qed.

Lemma in_errors_kept (msg : string) (r r' : validation_result) :
  only_appends r r' -> In msg (errors r) -> In msg (errors r').
Proof.
  intros [[more Hmore] _] Hin. rewrite Hmore. apply in_or_app. left. exact Hin.
Qed.

(** An error reported by a step stays when only appending steps follow. *)
Lemma mentions_bind_first (msg : string) (A B : Type) (a : A)
      (m : V A) (k : A -> V B) :
  reports msg a m -> keeps only_appends (k a) -> mentions msg (bindM m k).
Proof.
  intros Hm Hk r. destruct (Hm r) as [r1 [H1 Hin]].
  unfold bindM. rewrite H1.
  exact (in_errors_kept msg r1 _ (Hk r1) Hin).
Qed.

Lemma mentions_bind_later (msg : string) (A B : Type) (a : A)
      (m : V A) (k : A -> V B) :
  returns a m -> mentions msg (k a) -> mentions msg (bindM m k).
Proof.
  intros Hm Hk r. destruct (Hm r) as [r1 H1].
  unfold bindM. rewrite H1. apply Hk.
Qed.

(** ** Mappings *)

Lemma check_required_fields_dict (d : list (string * pyval))
      (fields : list string) :
  forall r,
    _check_required_fields (PDict d) fields r
    = (Ret tt,
       mk_result (is_valid r)
                 (errors r ++ map missing_message (filter (missing d) fields))
                 (warnings r) (field_validations r)).
Proof.
  unfold _check_required_fields.
  match goal with
  | |- forall r, for_each _ ?b r = _ => set (body := b)
  end.
  assert (Hbody : forall field r,
             body field r
             = (Ret tt,
                if missing d field
                then mk_result (is_valid r)
                               (errors r ++ [missing_message field])
                               (warnings r) (field_validations r)
                else r)).
  { intros field r. subst body. cbv beta.
    unfold bindM, lift, ret, add_error, modify, missing, missing_message.
    cbn [py_in py_getitem]. unfold dict_has.
    destruct (dict_get field d) as [v|]; [|reflexivity].
    destruct (is_none v || is_empty_str v); reflexivity. }
  clearbody body.
  induction fields as [|field fields IH]; intro r.
  - destruct r. cbn. rewrite app_nil_r. reflexivity.
  - cbn [for_each]. unfold bindM. rewrite Hbody. rewrite IH.
    cbn [filter]. destruct (missing d field); [|reflexivity].
    cbn. rewrite <- app_assoc. reflexivity.
Qed.

Lemma check_required_fields_returns (d : list (string * pyval))
      (fields : list string) :
  returns tt (_check_required_fields (PDict d) fields).
Proof. intro r. eexists. apply check_required_fields_dict. Qed.

Lemma check_required_fields_reports (d : list (string * pyval))
      (fields : list string) (field : string) :
  In field fields -> missing d field = true ->
  reports (missing_message field) tt (_check_required_fields (PDict d) fields).
Proof.
  intros Hin Hmissing r. eexists.
  split; [apply check_required_fields_dict|].
  cbn [errors]. apply in_or_app. right.
  apply in_map, filter_In. split; assumption.
Qed.

Lemma validate_field_type_returns (d : list (string * pyval))
      (field field_type : string) :
  returns tt (_validate_field_type current_year float_of_str (PDict d)
                                   field field_type).
Proof.
  intro r. unfold _validate_field_type, bindM, lift.
  rewrite (DataValidatorProofs.present_dict d field).
  cbn [py_getitem].
  destruct (dict_get field d) as [v|]; [|eexists; reflexivity].
  destruct (negb (is_none v)); cbn [negb]; [|eexists; reflexivity].
  destruct (dict_get field_type (validation_rules current_year float_of_str))
    as [rule|]; [|eexists; reflexivity].
  destruct (rule v) as [valid error_msg].
  destruct valid; eexists; reflexivity.
Qed.

Lemma for_each_returns (A : Type) (l : list A) (body : A -> V unit) :
  (forall x, returns tt (body x)) -> returns tt (for_each l body).
Proof.
  intro Hbody. induction l as [|x l IH]; cbn [for_each].
  - apply returns_ret.
  - exact (returns_bind _ _ tt tt _ _ (Hbody x) IH).
Qed.

Lemma validate_fields_of_type_returns (d : list (string * pyval))
      (fields : list string) (field_type : string) :
  returns tt (validate_fields_of_type current_year float_of_str (PDict d)
                                      fields field_type).
Proof.
  unfold validate_fields_of_type. apply for_each_returns. intro field.
  apply (returns_bind _ _ (dict_has field d) tt).
  - apply returns_lift. reflexivity.
  - destruct (dict_has field d);
      [apply validate_field_type_returns|apply returns_ret].
Qed.

(** ** From a reported error to the verdict *)

(** An error the type-specific step leaves behind is in the result of
    [validate_document], and makes it invalid. *)
Lemma validate_document_reports (data : pyval) (doc_type msg : string) :
  mentions msg
    (if String.eqb doc_type "invoice"
     then _validate_invoice current_year float_of_str format_2f data
     else if String.eqb doc_type "bill"
     then _validate_bill current_year float_of_str format_2f data
     else if String.eqb doc_type "prescription"
     then _validate_prescription current_year float_of_str data
     else ret tt) ->
  exists r,
    validate_document current_year float_of_str format_2f data doc_type = Ret r
    /\ is_valid r = false /\ In msg (errors r).
Proof.
  intro Hstep.
  unfold validate_document, validate_document_steps, try_except.
  unfold bindM at 1.
  specialize (Hstep initial_result).
  match goal with
  | |- context [?step initial_result] =>
      change (In msg (errors (snd (step initial_result)))) in Hstep;
      destruct (step initial_result) as [[[]|e] r1]
  end; cbn [snd] in Hstep.
  - unfold bindM at 1.
    pose proof (validate_common_fields_appends data r1) as Hcommon.
    destruct (_validate_common_fields current_year float_of_str data r1)
      as [[[]|e] r2]; cbn [snd] in Hcommon;
      pose proof (in_errors_kept msg r1 r2 Hcommon Hstep) as Hin.
    + cbn. eexists. split; [reflexivity|]. cbn.
      split; [|exact Hin].
      destruct (errors r2); [contradiction|reflexivity].
    + cbn. eexists. split; [reflexivity|]. cbn.
      split; [reflexivity|]. apply in_or_app. left. exact Hin.
  - cbn. eexists. split; [reflexivity|]. cbn.
    split; [reflexivity|]. apply in_or_app. left. exact Hstep.
Qed.

(** X17.  A document given as a mapping in which a field required for its
    type is absent, null or the empty string is invalid, and the errors
    name that field. *)
Theorem missing_required_field_is_reported :
  forall (d : list (string * pyval)) (doc_type field : string)
         (fields : list string),
    In (doc_type, fields) required_fields ->
    In field fields ->
    missing d field = true ->
    exists r,
      validate_document current_year float_of_str format_2f (PDict d) doc_type
      = Ret r
      /\ is_valid r = false
      /\ In (missing_message field) (errors r).
Proof.
  intros d doc_type field fields Htype Hfield Hmissing.
  apply validate_document_reports.
  destruct Htype as [H|[H|[H|[]]]]; injection H as <- <-.
  - change (String.eqb "invoice" "invoice") with true. cbv iota.
    unfold _validate_invoice.
    apply (mentions_bind_first _ _ _ tt).
    + apply check_required_fields_reports; assumption.
    + appends.
  - change (String.eqb "bill" "invoice") with false.
    change (String.eqb "bill" "bill") with true. cbv iota.
    unfold _validate_bill.
    apply (mentions_bind_first _ _ _ tt).
    + apply check_required_fields_reports; assumption.
    + appends.
  - change (String.eqb "prescription" "invoice") with false.
    change (String.eqb "prescription" "bill") with false.
    change (String.eqb "prescription" "prescription") with true. cbv iota.
    unfold _validate_prescription.
    apply (mentions_bind_first _ _ _ tt).
    + apply check_required_fields_reports; assumption.
    + appends.
Qed.

(** X18.  A document type other than invoice, bill and prescription gets
    the common checks only: a mapping without a currency passes, with no
    error, no warning and no field validation, whatever else it holds. *)
Theorem unknown_document_type_passes :
  forall (d : list (string * pyval)) (doc_type : string),
    ~ In doc_type ["invoice"; "bill"; "prescription"] ->
    absent_or_null d "currency" = true ->
    validate_document current_year float_of_str format_2f (PDict d) doc_type
    = Ret initial_result.
Proof.
  intros d doc_type Hunknown Hcurrency.
  assert (Hi : String.eqb doc_type "invoice" = false).
  { apply String.eqb_neq. intro H. apply Hunknown. left. auto. }
  assert (Hb : String.eqb doc_type "bill" = false).
  { apply String.eqb_neq. intro H. apply Hunknown. right. left. auto. }
  assert (Hp : String.eqb doc_type "prescription" = false).
  { apply String.eqb_neq. intro H. apply Hunknown. right. right. left. auto. }
  unfold validate_document, validate_document_steps, try_except.
  rewrite Hi, Hb, Hp.
  unfold _validate_common_fields, _validate_field_type, bindM, lift, ret.
  rewrite (DataValidatorProofs.present_dict d "currency").
  cbn [py_in]. unfold dict_has.
  unfold absent_or_null in Hcurrency.
  destruct (dict_get "currency" d) as [v|]; [|reflexivity].
  rewrite Hcurrency. reflexivity.
Qed.

(** X19.  A prescription given as a mapping whose [medications] is an
    empty list is invalid, with the error that at least one medication is
    required. *)
Theorem prescription_without_medication_is_invalid :
  forall (d : list (string * pyval)),
    dict_get "medications" d = Some (PList []) ->
    exists r,
      validate_document current_year float_of_str format_2f (PDict d)
                        "prescription"
      = Ret r
      /\ is_valid r = false
      /\ In "At least one medication is required" (errors r).
Proof.
  intros d Hmeds.
  apply validate_document_reports.
  change (String.eqb "prescription" "invoice") with false.
  change (String.eqb "prescription" "bill") with false.
  change (String.eqb "prescription" "prescription") with true. cbv iota.
  unfold _validate_prescription.
  apply (mentions_bind_later _ _ _ tt); [apply check_required_fields_returns|].
  apply (mentions_bind_later _ _ _ tt); [apply validate_fields_of_type_returns|].
  apply (mentions_bind_later _ _ _ (Some [])).
  { apply returns_lift. unfold list_field. cbn [py_in bind py_getitem].
    unfold dict_has. rewrite Hmeds. reflexivity. }
  apply (mentions_bind_first _ _ _ tt); [apply reports_add_error|appends].
Qed.

(** X20.  An invoice given as a mapping whose [date] and [due_date] both
    read as YYYY-MM-DD dates, the due date being the earlier one, is
    invalid, with the error that the due date cannot be before the invoice
    date. *)
Theorem due_date_before_invoice_date_is_invalid :
  forall (d : list (string * pyval)) (date due_date : string)
         (invoice_day due_day : PyDate.date),
    dict_get "date" d = Some (PStr date) ->
    dict_get "due_date" d = Some (PStr due_date) ->
    strptime date fmt_Ymd_dash = Some invoice_day ->
    strptime due_date fmt_Ymd_dash = Some due_day ->
    date_ltb due_day invoice_day = true ->
    exists r,
      validate_document current_year float_of_str format_2f (PDict d)
                        "invoice"
      = Ret r
      /\ is_valid r = false
      /\ In "Due date cannot be before invoice date" (errors r).
Proof.
  intros d date due_date invoice_day due_day Hdate Hdue Hparse1 Hparse2 Hlt.
  assert (Htruthy : forall s day,
             strptime s fmt_Ymd_dash = Some day -> truthy (PStr s) = true).
  { intros s day H. destruct s; [vm_compute in H; discriminate|reflexivity]. }
  apply validate_document_reports.
  change (String.eqb "invoice" "invoice") with true. cbv iota.
  unfold _validate_invoice.
  apply (mentions_bind_later _ _ _ tt); [apply check_required_fields_returns|].
  apply (mentions_bind_later _ _ _ true).
  { apply returns_lift. cbn [py_in]. unfold dict_has. rewrite Hdate.
    reflexivity. }
  apply (mentions_bind_later _ _ _ tt); [apply validate_field_type_returns|].
  apply (mentions_bind_later _ _ _ true).
  { apply returns_lift. cbn [py_in]. unfold dict_has. rewrite Hdue.
    reflexivity. }
  apply (mentions_bind_first _ _ _ tt); [|appends].
  apply (reports_bind_later _ _ _ tt tt); [apply validate_field_type_returns|].
  apply (reports_bind_later _ _ _ true tt).
  { apply returns_lift. cbn [py_in]. unfold dict_has. rewrite Hdate.
    reflexivity. }
  apply (reports_bind_later _ _ _ true tt).
  { apply (returns_bind _ _ (PStr date) true).
    - apply returns_lift. cbn [py_getitem]. rewrite Hdate. reflexivity.
    - rewrite (Htruthy date invoice_day Hparse1).
      apply (returns_bind _ _ (PStr due_date) true).
      + apply returns_lift. cbn [py_getitem]. rewrite Hdue. reflexivity.
      + rewrite (Htruthy due_date due_day Hparse2). apply returns_ret. }
  apply reports_try.
  apply (reports_bind_later _ _ _ invoice_day tt).
  { apply returns_lift. cbn [py_getitem]. rewrite Hdate. cbn [bind].
    unfold py_strptime. rewrite Hparse1. reflexivity. }
  apply (reports_bind_later _ _ _ due_day tt).
  { apply returns_lift. cbn [py_getitem]. rewrite Hdue. cbn [bind].
    unfold py_strptime. rewrite Hparse2. reflexivity. }
  rewrite Hlt. apply reports_add_error.
Qed.

End Validator.

(** ** Sample documents *)

Lemma missing_required_field_is_reported_sample :
  In ("invoice", ["invoice_number"; "date"; "vendor"; "total_amount"])
     required_fields
  /\ In "date" ["invoice_number"; "date"; "vendor"; "total_amount"]
  /\ missing MoreSamples.invoice_without_date "date" = true
  /\ exists r,
      validate_document 2024 Samples.float_of_decimal Samples.two_decimals
                        (PDict MoreSamples.invoice_without_date) "invoice"
      = Ret r
      /\ is_valid r = false
      /\ In (missing_message "date") (errors r).
Proof.
  assert (H1 : In ("invoice",
                   ["invoice_number"; "date"; "vendor"; "total_amount"])
                  required_fields) by (left; reflexivity).
  assert (H2 : In "date" ["invoice_number"; "date"; "vendor"; "total_amount"])
    by (right; left; reflexivity).
  assert (H3 : missing MoreSamples.invoice_without_date "date" = true)
    by reflexivity.
  split; [exact H1|]. split; [exact H2|]. split; [exact H3|].
  exact (missing_required_field_is_reported
           2024%Z Samples.float_of_decimal Samples.two_decimals
           MoreSamples.invoice_without_date "invoice" "date" _ H1 H2 H3).
Defined.

Lemma unknown_document_type_passes_sample :
  ~ In "receipt" ["invoice"; "bill"; "prescription"]
  /\ absent_or_null MoreSamples.invoice_without_date "currency" = true
  /\ validate_document 2024 Samples.float_of_decimal Samples.two_decimals
                       (PDict MoreSamples.invoice_without_date) "receipt"
     = Ret initial_result.
Proof.
  assert (H1 : ~ In "receipt" ["invoice"; "bill"; "prescription"]).
  { intros [H|[H|[H|[]]]]; discriminate H. }
  assert (H2 : absent_or_null MoreSamples.invoice_without_date "currency"
               = true) by reflexivity.
  split; [exact H1|]. split; [exact H2|].
  exact (unknown_document_type_passes
           2024%Z Samples.float_of_decimal Samples.two_decimals
           MoreSamples.invoice_without_date "receipt" H1 H2).
Defined.

Lemma prescription_without_medication_is_invalid_sample :
  dict_get "medications" MoreSamples.prescription_without_medication
  = Some (PList [])
  /\ exists r,
      validate_document 2024 Samples.float_of_decimal Samples.two_decimals
                        (PDict MoreSamples.prescription_without_medication)
                        "prescription"
      = Ret r
      /\ is_valid r = false
      /\ In "At least one medication is required" (errors r).
Proof.
  split; [reflexivity|].
  exact (prescription_without_medication_is_invalid
           2024%Z Samples.float_of_decimal Samples.two_decimals
           MoreSamples.prescription_without_medication eq_refl).
Defined.

Lemma due_date_before_invoice_date_is_invalid_sample :
  strptime "2024-03-15" fmt_Ymd_dash = Some (mk_date 2024 3 15)
  /\ strptime "2024-03-01" fmt_Ymd_dash = Some (mk_date 2024 3 1)
  /\ date_ltb (mk_date 2024 3 1) (mk_date 2024 3 15) = true
  /\ exists r,
      validate_document 2024 Samples.float_of_decimal Samples.two_decimals
                        (PDict MoreSamples.invoice_due_too_early) "invoice"
      = Ret r
      /\ is_valid r = false
      /\ In "Due date cannot be before invoice date" (errors r).
Proof.
  assert (H1 : strptime "2024-03-15" fmt_Ymd_dash = Some (mk_date 2024 3 15))
    by (vm_compute; reflexivity).
  assert (H2 : strptime "2024-03-01" fmt_Ymd_dash = Some (mk_date 2024 3 1))
    by (vm_compute; reflexivity).
  assert (H3 : date_ltb (mk_date 2024 3 1) (mk_date 2024 3 15) = true)
    by reflexivity.
  split; [exact H1|]. split; [exact H2|]. split; [exact H3|].
  exact (due_date_before_invoice_date_is_invalid
           2024%Z Samples.float_of_decimal Samples.two_decimals
           MoreSamples.invoice_due_too_early "2024-03-15" "2024-03-01"
           (mk_date 2024 3 15) (mk_date 2024 3 1)
           eq_refl eq_refl H1 H2 H3).
Defined.

(** ** The validator and the scorer on e-mail addresses *)

Lemma same_classes_nullable (r1 : Re.regex) :
  forall r2, same_classes r1 r2 -> Re.nullable r1 = Re.nullable r2.
Proof.
  induction r1 as [ | |p|a IHa b IHb|a IHa b IHb|a IHa];
    intros [ | |q|a' b'|a' b'|a'] H; try destruct H; try reflexivity.
  - cbn. rewrite (IHa a'), (IHb b'); auto.
  - cbn. rewrite (IHa a'), (IHb b'); auto.
Qed.

Lemma same_classes_cat (a a' b b' : Re.regex) :
  same_classes a a' -> same_classes b b' ->
  same_classes (Re.cat a b) (Re.cat a' b').
Proof.
  intros Ha Hb.
  destruct a, a'; try destruct Ha;
    destruct b, b'; try destruct Hb; cbn; auto.
Qed.

Lemma same_classes_alt (a a' b b' : Re.regex) :
  same_classes a a' -> same_classes b b' ->
  same_classes (Re.alt a b) (Re.alt a' b').
Proof.
  intros Ha Hb.
  destruct a, a'; try destruct Ha;
    destruct b, b'; try destruct Hb; cbn; auto.
Qed.

Lemma same_classes_deriv (c : ascii) (r1 : Re.regex) :
  forall r2, same_classes r1 r2 ->
             same_classes (Re.deriv c r1) (Re.deriv c r2).
Proof.
  induction r1 as [ | |p|a IHa b IHb|a IHa b IHb|a IHa];
    intros [ | |q|a' b'|a' b'|a'] H; try destruct H; try exact I.
  - cbn [Re.deriv]. cbn in H. rewrite (H c). destruct (q c); exact I.
  - cbn [Re.deriv].
    rewrite (same_classes_nullable a a' H).
    destruct (Re.nullable a').
    + apply same_classes_alt; [apply same_classes_cat|]; auto.
    + apply same_classes_cat; auto.
  - cbn [Re.deriv]. apply same_classes_alt; auto.
  - cbn [Re.deriv]. apply same_classes_cat; [apply IHa; exact H|exact H].
Qed.

(** Such patterns match the same texts. *)
Lemma same_classes_fullmatch (s : string) :
  forall r1 r2, same_classes r1 r2 -> Re.fullmatch r1 s = Re.fullmatch r2 s.
Proof.
  induction s as [|c s IH]; intros r1 r2 H; cbn [Re.fullmatch].
  - apply same_classes_nullable, H.
  - apply IH, same_classes_deriv, H.
Qed.

(** X26.  The validator and the confidence scorer agree on e-mail
    addresses: their two patterns accept the same texts, so a value passes
    [_validate_email] exactly when [_email_confidence] gives it its top
    score, 0.95. *)
Theorem email_validator_agrees_with_scorer :
  forall (value : pyval),
    fst (_validate_email value) = true
    <-> ConfidenceScorer._email_confidence value = 0.95%Q.
Proof.
  intro value.
  unfold _validate_email, ConfidenceScorer._email_confidence.
  destruct value as [ | b | z | q | s | l | d]; cbn [fst];
    try (split; discriminate).
  assert (Hsame : Re.match_anchored email_pattern s
                  = Re.match_anchored ConfidenceScorer.pat_email s).
  { unfold Re.match_anchored. apply same_classes_fullmatch.
    unfold email_pattern, ConfidenceScorer.pat_email.
    cbn [Re.seq Re.plus Re.rep Re.opt Re.chr same_classes].
    unfold is_alpha.
    repeat split; intro ch; try reflexivity;
      destruct (is_lower ch), (is_upper ch); reflexivity. }
  rewrite Hsame.
  destruct (Re.match_anchored ConfidenceScorer.pat_email s); cbn [fst].
  - split; reflexivity.
  - split; [discriminate|].
    destruct (contains "@" s && contains "." s); discriminate.
Qed.

End ValidationProofs.

(* ================================================================== *)
(** * Properties of the field paths *)
(* ================================================================== *)

Module FieldPathProofs.

Import PyStr Py DataValidator ConfidenceScorer FieldPaths.
Open Scope string_scope.
Open Scope list_scope.

Section Lookup.

Variable int_max_str_digits : option nat.
Variable repr : pyval -> string.

Lemma py_int_raises (part : string) (e : exn) :
  py_int int_max_str_digits part = Raise e -> exn_kind_of e = ValueError.
Proof.
  unfold py_int.
  destruct (negb (all_chars is_digit part)).
  - intro H. injection H as <-. reflexivity.
  - destruct int_max_str_digits as [limit|]; [|discriminate].
    destruct (limit <? len part)%nat; [|discriminate].
    intro H. injection H as <-. reflexivity.
Qed.

Lemma descend_raises (parts : list string) :
  forall (value : pyval) (e : exn),
    descend int_max_str_digits parts value = Raise e ->
    exists part,
      In part parts /\ isdigit part = true
      /\ py_int int_max_str_digits part = Raise e.
Proof.
  induction parts as [|part parts IH]; intros value e; cbn [descend];
    [discriminate|].
  destruct (isdigit part) eqn:Hdigit.
  - destruct (py_int int_max_str_digits part) as [i|e'] eqn:Hint; cbn [bind].
    + destruct (item_at value i) as [v|]; [|discriminate].
      intro H. destruct (IH v e H) as [p [Hin Hp]].
      exists p. split; [right; exact Hin|exact Hp].
    + intro H. injection H as <-.
      exists part. split; [left; reflexivity|]. split; assumption.
  - destruct (item_of value part) as [v|]; [|discriminate].
    intro H. destruct (IH v e H) as [p [Hin Hp]].
    exists p. split; [right; exact Hin|exact Hp].
Qed.

(** The loop finds what the path leads to, and nothing when the path
    leads nowhere. *)
Lemma descend_reaches (parts : list string) :
  forall (value found : pyval),
    reaches int_max_str_digits parts value found ->
    descend int_max_str_digits parts value = Ret (Some found).
Proof.
  intros value found H.
  induction H as [value
                 |part parts value item found i Hdigit Hint Hitem _ IH
                 |part parts value item found Hdigit Hitem _ IH];
    cbn [descend].
  - reflexivity.
  - rewrite Hdigit, Hint. cbn [bind]. rewrite Hitem. exact IH.
  - rewrite Hdigit, Hitem. exact IH.
Qed.

Lemma descend_returns (parts : list string) :
  forall (value : pyval) (found : option pyval),
    descend int_max_str_digits parts value = Ret found ->
    match found with
    | Some v => reaches int_max_str_digits parts value v
    | None => forall v, ~ reaches int_max_str_digits parts value v
    end.
Proof.
  induction parts as [|part parts IH]; intros value found; cbn [descend].
  - intro H. injection H as <-. constructor.
  - destruct (isdigit part) eqn:Hdigit.
    + destruct (py_int int_max_str_digits part) as [i|e] eqn:Hint;
        cbn [bind]; [|discriminate].
      destruct (item_at value i) as [item|] eqn:Hitem.
      * intro H. specialize (IH item found H).
        destruct found as [v|].
        -- eapply reaches_position; eassumption.
        -- intros v Hv.
           inversion Hv as [|? ? ? item' ? i' _ Hint' Hitem' Hrest
                            |? ? ? item' ? Hdigit' _ _]; subst.
           ++ rewrite Hint in Hint'. injection Hint' as <-.
              rewrite Hitem in Hitem'. injection Hitem' as <-.
              exact (IH v Hrest).
           ++ congruence.
      * intro H. injection H as <-. intros v Hv.
        inversion Hv as [|? ? ? item' ? i' _ Hint' Hitem' _
                         |? ? ? item' ? Hdigit' _ _]; subst.
        -- rewrite Hint in Hint'. injection Hint' as <-. congruence.
        -- congruence.
    + destruct (item_of value part) as [item|] eqn:Hitem.
      * intro H. specialize (IH item found H).
        destruct found as [v|].
        -- eapply reaches_key; eassumption.
        -- intros v Hv.
           inversion Hv as [|? ? ? item' ? i' Hdigit' _ _ _
                            |? ? ? item' ? _ Hitem' Hrest]; subst.
           ++ congruence.
           ++ rewrite Hitem in Hitem'. injection Hitem' as <-.
              exact (IH v Hrest).
      * intro H. injection H as <-. intros v Hv.
        inversion Hv as [|? ? ? item' ? i' Hdigit' _ _ _
                         |? ? ? item' ? _ Hitem' _]; subst; congruence.
Qed.

(** X21.  [_get_nested_value] returns the value the path leads to, and
    only that: when it returns, the value is the one reached by following
    the parts of the path, or it is null and the path leads nowhere.  The
    only exception that escapes it is the [ValueError] of [int] on a part of
    the path that [isdigit] accepts and [int] does not. *)
Theorem get_nested_value_raises_only_from_int :
  forall (data : pyval) (field_path : string),
    (forall found,
        reaches int_max_str_digits (split_on "." field_path) data found ->
        _get_nested_value int_max_str_digits data field_path = Ret found)
    /\ match _get_nested_value int_max_str_digits data field_path with
       | Ret value =>
           reaches int_max_str_digits (split_on "." field_path) data value
           \/ (value = PNone
               /\ forall found,
                   ~ reaches int_max_str_digits (split_on "." field_path)
                             data found)
       | Raise e =>
           exn_kind_of e = ValueError
           /\ exists part,
               In part (split_on "." field_path) /\ isdigit part = true
               /\ py_int int_max_str_digits part = Raise e
       end.
Proof.
  intros data field_path. unfold _get_nested_value. split.
  - intros found H. rewrite (descend_reaches _ _ _ H). reflexivity.
  - destruct (descend int_max_str_digits (split_on "." field_path) data)
      as [found|e] eqn:H; cbn [bind].
    + pose proof (descend_returns _ _ _ H) as Hfound.
      destruct found as [v|]; [left; exact Hfound|right].
      split; [reflexivity|exact Hfound].
    + destruct (descend_raises _ _ _ H) as [part [Hin [Hdigit Hint]]].
      split; [exact (py_int_raises part e Hint)|].
      exists part. split; [exact Hin|]. split; assumption.
Qed.

Lemma descend_app (before parts : list string) :
  forall (value found : pyval),
    reaches int_max_str_digits before value found ->
    descend int_max_str_digits (before ++ parts) value
    = descend int_max_str_digits parts found.
Proof.
  intros value found H.
  induction H as [value
                 |part before value item found i Hdigit Hint Hitem _ IH
                 |part before value item found Hdigit Hitem _ IH];
    cbn [app descend].
  - reflexivity.
  - rewrite Hdigit, Hint. cbn [bind]. rewrite Hitem. exact IH.
  - rewrite Hdigit, Hitem. exact IH.
Qed.

(** X22.  A key of a mapping that consists of digits is never found,
    at whatever depth the mapping lies: the lookup reads such a part of the
    path as a position, a mapping has none, and the result is null. *)
Theorem numeric_key_of_a_mapping_is_never_found :
  forall (data : pyval) (d : list (string * pyval)) (field_path part : string)
         (before rest : list string) (i : Z),
    split_on "." field_path = before ++ part :: rest ->
    reaches int_max_str_digits before data (PDict d) ->
    isdigit part = true ->
    py_int int_max_str_digits part = Ret i ->
    _get_nested_value int_max_str_digits data field_path = Ret PNone.
Proof.
  intros data d field_path part before rest i Hsplit Hbefore Hdigit Hint.
  unfold _get_nested_value. rewrite Hsplit.
  rewrite (descend_app before (part :: rest) data (PDict d) Hbefore).
  cbn [descend]. rewrite Hdigit, Hint. reflexivity.
Qed.

(** ** The scoring loop *)

Open Scope Q_scope.

(** What the loop guarantees of an entry. *)
Lemma dict_set_entries (P : string * Q -> Prop) (k : string) (v : Q)
      (scores : list (string * Q)) :
  P (k, v) -> Forall P scores -> Forall P (dict_set k v scores).
Proof.
  intros Hv. induction 1 as [|[k' v'] scores Hv' Hrest IH]; cbn [dict_set].
  - constructor; [exact Hv|constructor].
  - destruct (String.eqb k k').
    + constructor; [exact Hv|exact Hrest].
    + constructor; [exact Hv'|exact IH].
Qed.

Lemma field_confidence_range (field_path : string) (value : pyval)
      (text : string) (gemini_confidence : option Q) :
  0 <= calculate_field_confidence repr field_path value text gemini_confidence
  <= 1.
Proof.
  unfold calculate_field_confidence.
  destruct (is_none value); [split; lra|].
  apply ConfidenceScorerProofs.clamp_range.
Qed.

(** X23.  When the scoring loop of the command line completes, every
    score it has filled in lies in the unit interval, and the score of a
    field path whose lookup gives a null value, because the record holds
    null there or the path leads nowhere, is 0.0 whatever confidence the
    model had assigned to it. *)
Theorem scoring_loop_scores_unresolved_paths_zero :
  forall (extracted_data : pyval) (text : string)
         (gemini_confidences field_confidences : list (string * Q)),
    score_fields int_max_str_digits repr extracted_data text
                 gemini_confidences []
    = Ret field_confidences ->
    forall field_path confidence,
      In (field_path, confidence) field_confidences ->
      0 <= confidence <= 1
      /\ (_get_nested_value int_max_str_digits extracted_data field_path
          = Ret PNone ->
          confidence = 0.0).
Proof.
  intros data text assessed result Hloop.
  set (P := fun entry : string * Q =>
              0 <= snd entry <= 1
              /\ (_get_nested_value int_max_str_digits data (fst entry)
                  = Ret PNone -> snd entry = 0.0)).
  assert (Hall : forall assessed filled,
             Forall P filled ->
             score_fields int_max_str_digits repr data text assessed filled
             = Ret result ->
             Forall P result).
  { clear Hloop assessed.
    induction assessed as [|[field_path conf] rest IH]; intros filled Hfilled;
      cbn [score_fields].
    - intro H. injection H as <-. exact Hfilled.
    - destruct (_get_nested_value int_max_str_digits data field_path)
        as [value|e] eqn:Hvalue; cbn [bind]; [|discriminate].
      apply IH. apply dict_set_entries; [|exact Hfilled].
      unfold P. cbn [fst snd]. split.
      + apply field_confidence_range.
      + rewrite Hvalue. intro H. injection H as ->. reflexivity. }
  intros field_path confidence Hin.
  pose proof (Hall assessed [] (Forall_nil P) Hloop) as Hresult.
  rewrite Forall_forall in Hresult.
  exact (Hresult (field_path, confidence) Hin).
Qed.

End Lookup.

(** A path through a mapping, a sequence and a mapping; a position in a
    text gives one character; a superscript digit makes [int] raise. *)
Example get_nested_value_samples :
  _get_nested_value (Some 4300%nat)
                    (PDict [("items", PList [PDict [("total", PInt 3)]])])
                    "items.0.total"
  = Ret (PInt 3)
  /\ _get_nested_value (Some 4300%nat) (PDict [("name", PStr "Bob")]) "name.0"
     = Ret (PStr "B")
  /\ _get_nested_value (Some 4300%nat) (PDict [("name", PStr "Bob")]) "name.first"
     = Ret PNone
  /\ _get_nested_value (Some 4300%nat) (PList [PInt 1])
                       (String (ascii_of_nat 178) EmptyString)
     = Raise (mk_exn ValueError
                     ("invalid literal for int() with base 10: '"
                      ++ String (ascii_of_nat 178) "'")).
Proof. vm_compute. repeat split; reflexivity. Qed.

Lemma numeric_key_of_a_mapping_is_never_found_sample :
  split_on "." "by_year.2024.total" = ["by_year"] ++ "2024" :: ["total"]
  /\ reaches (Some 4300%nat) ["by_year"]
             (PDict [("by_year", PDict [("2024", PDict [("total", PInt 10)])])])
             (PDict [("2024", PDict [("total", PInt 10)])])
  /\ isdigit "2024" = true
  /\ py_int (Some 4300%nat) "2024" = Ret 2024%Z
  /\ _get_nested_value
       (Some 4300%nat)
       (PDict [("by_year", PDict [("2024", PDict [("total", PInt 10)])])])
       "by_year.2024.total"
     = Ret PNone.
Proof.
  assert (Hreach :
            reaches (Some 4300%nat) ["by_year"]
              (PDict [("by_year",
                       PDict [("2024", PDict [("total", PInt 10)])])])
              (PDict [("2024", PDict [("total", PInt 10)])])).
  { eapply reaches_key; [reflexivity|reflexivity|constructor]. }
  split; [reflexivity|]. split; [exact Hreach|].
  split; [reflexivity|]. split; [reflexivity|].
  exact (numeric_key_of_a_mapping_is_never_found
           (Some 4300%nat) _ _ "by_year.2024.total" "2024"
           ["by_year"] ["total"] 2024%Z eq_refl Hreach eq_refl eq_refl).
Defined.

Lemma scoring_loop_scores_unresolved_paths_zero_sample :
  score_fields (Some 4300%nat) (fun _ => "10")
               (PDict [("total", PInt 10)]) "Total: 10"
               [("vendor.name", 0.8%Q)] []
  = Ret [("vendor.name", 0.0%Q)]
  /\ (0 <= 0.0 <= 1)%Q
  /\ (_get_nested_value (Some 4300%nat) (PDict [("total", PInt 10)])
                        "vendor.name" = Ret PNone ->
      0.0%Q = 0.0%Q).
Proof.
  assert (H : score_fields (Some 4300%nat) (fun _ => "10")
                (PDict [("total", PInt 10)]) "Total: 10"
                [("vendor.name", 0.8%Q)] []
              = Ret [("vendor.name", 0.0%Q)])
    by (vm_compute; reflexivity).
  split; [exact H|].
  exact (scoring_loop_scores_unresolved_paths_zero
           (Some 4300%nat) (fun _ => "10")
           (PDict [("total", PInt 10)]) "Total: 10"
           [("vendor.name", 0.8%Q)]
           [("vendor.name", 0.0%Q)] H
           "vendor.name" 0.0%Q (or_introl eq_refl)).
Defined.

End FieldPathProofs.

(* ================================================================== *)
(** * Properties of the suggestions *)
(* ================================================================== *)

Module SuggestionProofs.

Import PyStr Re Py DataValidator Suggestions.
Open Scope string_scope.
Open Scope list_scope.

Section Suggest.

Variable float_of_str : string -> option Q.
Variable str_of_float : Q -> string.

(** The loop over the errors returns, leaves the corrections alone and
    never writes the failure message. *)
Lemma error_loop (l : list string) :
  forall s, exists s',
    for_each l error_step s = (Ret tt, s')
    /\ field_corrections s' = field_corrections s
    /\ (In unable_to_suggest (general_suggestions s') ->
        In unable_to_suggest (general_suggestions s)).
Proof.
  induction l as [|error l IH]; intro s.
  - exists s. repeat split; auto.
  - cbn [for_each]. unfold bindM at 1.
    assert (Hstep : exists s1,
               error_step error s = (Ret tt, s1)
               /\ field_corrections s1 = field_corrections s
               /\ (In unable_to_suggest (general_suggestions s1) ->
                   In unable_to_suggest (general_suggestions s))).
    { unfold error_step, bindM, add_suggestion, modify, ret.
      destruct (contains "date" (lower error)
                && contains "format" (lower error));
        destruct (contains "amount" (lower error)
                  && contains "negative" (lower error));
        destruct (contains "missing" (lower error)
                  || contains "required" (lower error));
        eexists; (split; [reflexivity|]); cbn; (split; [reflexivity|]);
        intro H;
        repeat (apply in_app_or in H;
                destruct H as [H|[H|[]]]; [|discriminate H]);
        exact H. }
    destruct Hstep as [s1 [H1 [Hc1 Hg1]]]. rewrite H1.
    destruct (IH s1) as [s2 [H2 [Hc2 Hg2]]].
    exists s2. split; [exact H2|].
    split; [congruence|]. intro H. exact (Hg1 (Hg2 H)).
Qed.

(** One step of the loop over the field validations. *)
Lemma field_step_spec (entry : string * field_validation) (s : suggestions) :
  let result := field_step float_of_str str_of_float entry s in
  general_suggestions (snd result) = general_suggestions s
  /\ (match fst result with
      | Ret _ => breaks_suggestions entry = false
      | Raise _ => breaks_suggestions entry = true
      end)
  /\ (forall field correction,
         In (field, correction) (field_corrections (snd result)) ->
         In (field, correction) (field_corrections s)
         \/ (field = fst entry /\ needs_correction entry)).
Proof.
  destruct entry as [field [valid value type]].
  unfold field_step, breaks_suggestions, needs_correction.
  cbn [fst snd fv_is_valid fv_type fv_value].
  destruct valid; cbn [negb andb].
  { cbn. repeat split; auto. }
  destruct (String.eqb type "date") eqn:Hdate; cbn [andb].
  - apply String.eqb_eq in Hdate. subst type.
    unfold bindM, lift, set_correction, modify.
    destruct value as [ | b | z | q | str | items | d];
      try solve [cbn; repeat split; auto].
    cbn [_suggest_date_correction].
    destruct (match_prefix _ str);
      [destruct (split_on "/" str) as [|? [|? [|? [|? ?]]]]|];
      cbn; (split; [reflexivity|]); (split; [reflexivity|]);
      intros f c Hin; apply DictFacts.dict_set_In in Hin;
      (destruct Hin as [Hin|Hin]; [|left; exact Hin]);
      injection Hin as -> _; right; repeat split; auto.
  - destruct (String.eqb type "amount") eqn:Hamount.
    + apply String.eqb_eq in Hamount. subst type.
      unfold set_correction, modify. cbn.
      split; [reflexivity|]. split; [reflexivity|].
      intros f c Hin. apply DictFacts.dict_set_In in Hin.
      destruct Hin as [Hin|Hin]; [|left; exact Hin].
      injection Hin as -> _. right. repeat split; auto.
    + cbn. repeat split; auto.
Qed.

(** The loop over the field validations writes no general suggestion; it
    raises exactly when an entry is an invalid date that is not a string,
    and corrects only entries that need it. *)
Lemma field_loop (l : list (string * field_validation)) :
  forall s,
    let result := for_each l (field_step float_of_str str_of_float) s in
    general_suggestions (snd result) = general_suggestions s
    /\ (match fst result with
        | Ret _ => existsb breaks_suggestions l = false
        | Raise _ => existsb breaks_suggestions l = true
        end)
    /\ (forall field correction,
           In (field, correction) (field_corrections (snd result)) ->
           In (field, correction) (field_corrections s)
           \/ exists validation_info,
               In (field, validation_info) l
               /\ needs_correction (field, validation_info)).
Proof.
  induction l as [|entry l IH]; intro s.
  - cbn. repeat split; auto.
  - cbn [for_each existsb]. unfold bindM.
    pose proof (field_step_spec entry s) as [Hg [Ho Hc]].
    cbv zeta in Hg, Ho, Hc.
    destruct (field_step float_of_str str_of_float entry s) as [[[]|e] s1];
      cbn [fst snd] in *.
    + rewrite Ho. cbn [orb].
      destruct (IH s1) as [Hg' [Ho' Hc']]. cbv zeta in Hg', Ho', Hc'.
      split; [congruence|]. split; [exact Ho'|].
      intros f c Hin. destruct (Hc' f c Hin) as [H|[fv [H1 H2]]].
      * destruct (Hc f c H) as [H'|[Hf Hneeds]]; [left; exact H'|].
        right. destruct entry as [field fv]. cbn [fst] in Hf. subst f.
        exists fv. split; [left; reflexivity|exact Hneeds].
      * right. exists fv. split; [right; exact H1|exact H2].
    + rewrite Ho. cbn [orb].
      split; [exact Hg|]. split; [reflexivity|].
      intros f c Hin.
      destruct (Hc f c Hin) as [H'|[Hf Hneeds]]; [left; exact H'|].
      right. destruct entry as [field fv]. cbn [fst] in Hf. subst f.
      exists fv. split; [left; reflexivity|exact Hneeds].
Qed.

(** X24.  [suggest_corrections] offers a field correction only for a field
    whose validation failed and whose type is date or amount. *)
Theorem corrections_only_for_invalid_dates_and_amounts :
  forall (r : validation_result) (field correction : string),
    In (field, correction)
       (field_corrections (suggest_corrections float_of_str str_of_float r)) ->
    exists validation_info,
      In (field, validation_info) (field_validations r)
      /\ needs_correction (field, validation_info).
Proof.
  intros r field correction.
  unfold suggest_corrections.
  change "Unable to generate specific suggestions due to an error"
    with unable_to_suggest.
  unfold try_except, bindM at 1.
  destruct (error_loop (errors r) (mk_suggestions [] []))
    as [s1 [H1 [Hc1 _]]].
  rewrite H1.
  pose proof (field_loop (field_validations r) s1) as [_ [_ Hc]].
  cbv zeta in Hc.
  destruct (for_each (field_validations r)
                     (field_step float_of_str str_of_float) s1) as [[[]|e] s2];
    cbn [fst snd any_Exception] in *.
  - intro Hin. destruct (Hc _ _ Hin) as [H|H]; [|exact H].
    rewrite Hc1 in H. destruct H.
  - intro Hin. cbn in Hin. destruct (Hc _ _ Hin) as [H|H]; [|exact H].
    rewrite Hc1 in H. destruct H.
Qed.

(** X25.  [suggest_corrections] ends with the message that it is unable
    to generate specific suggestions exactly when some field validation is
    an invalid date whose value is not a string: looking up its correction
    raises, and the fields after it get no correction. *)
Theorem suggestions_fail_on_a_date_that_is_not_a_string :
  forall (r : validation_result),
    In unable_to_suggest
       (general_suggestions (suggest_corrections float_of_str str_of_float r))
    <-> existsb breaks_suggestions (field_validations r) = true.
Proof.
  intro r.
  unfold suggest_corrections.
  change "Unable to generate specific suggestions due to an error"
    with unable_to_suggest.
  unfold try_except, bindM at 1.
  destruct (error_loop (errors r) (mk_suggestions [] []))
    as [s1 [H1 [_ Hg1]]].
  rewrite H1.
  pose proof (field_loop (field_validations r) s1) as [Hg [Ho _]].
  cbv zeta in Hg, Ho.
  destruct (for_each (field_validations r)
                     (field_step float_of_str str_of_float) s1) as [[[]|e] s2];
    cbn [fst snd any_Exception] in *.
  - rewrite Hg, Ho. split; [|discriminate].
    intro Hin. destruct (Hg1 Hin).
  - split; [intros _; exact Ho|]. intros _.
    cbn. apply in_or_app. right. left. reflexivity.
Qed.

End Suggest.

Lemma corrections_only_for_invalid_dates_and_amounts_sample :
  In ("total", "Use numeric format (e.g., 123.45)")
     (field_corrections
        (suggest_corrections Samples.float_of_decimal Samples.two_decimals
           (mk_result false ["Field 'total': Invalid amount format: n/a"] []
                      [("total",
                        mk_field_validation false (PStr "n/a") "amount")])))
  /\ exists validation_info,
      In ("total", validation_info)
         [("total", mk_field_validation false (PStr "n/a") "amount")]
      /\ needs_correction ("total", validation_info).
Proof.
  assert (H : In ("total", "Use numeric format (e.g., 123.45)")
     (field_corrections
        (suggest_corrections Samples.float_of_decimal Samples.two_decimals
           (mk_result false ["Field 'total': Invalid amount format: n/a"] []
                      [("total",
                        mk_field_validation false (PStr "n/a") "amount")]))))
    by (vm_compute; left; reflexivity).
  split; [exact H|].
  exact (corrections_only_for_invalid_dates_and_amounts
           Samples.float_of_decimal Samples.two_decimals _ _ _ H).
Defined.

End SuggestionProofs.
